(** * pymed: the PubMed client of [pymed/api.py]

    A shallow embedding of the class [PubMed]: its rate limiter
    ([_exceededRateLimit] and the polling loop of [_get]), the request helper
    [_get], the session search [_getPubMedData], the windowed fetch
    [_getArticlesEnv] with [split_range], and the two public methods [query]
    and [getTotalResultsCount].

    Python objects that are mutated in place and passed by reference (the
    parameter dictionaries) live in a heap of dictionaries; the methods run in
    a state-and-exception monad over a [World] that holds the object's
    attributes, that heap, the number of clock readings taken so far and the
    log of HTTP requests sent. *)

From stdpp Require Import gmap strings list fin_maps.
From Stdlib Require Import ZArith Lia.

Set Warnings "-register-all".

(** ** Python values, dictionaries, JSON and XML *)

(** Values stored in a parameter dictionary: [str], [int] or [None]. *)
Inductive pyval :=
| PStr (s : string)
| PInt (z : Z)
| PNone.

(** References to dictionary objects. *)
Abbreviation loc := positive.

(** What [json.loads] produces (numbers restricted to integers). An object
    keeps its members in document order; a repeated key reads as its last
    occurrence, as in Python. *)
Inductive json :=
| JNull
| JBool (b : bool)
| JNum (z : Z)
| JStr (s : string)
| JArr (items : list json)
| JObj (members : list (string * json)).

(** An lxml element: tag, text (possibly [None]) and children in document
    order. *)
Inductive Element :=
| Elem (tag : string) (text : option string) (children : list Element).

Definition tag_of (e : Element) : string :=
  match e with Elem t _ _ => t end.

Definition text_of (e : Element) : option string :=
  match e with Elem _ t _ => t end.

Definition children_of (e : Element) : list Element :=
  match e with Elem _ _ c => c end.

(** Document order: an element, then the document order of each child. *)
Fixpoint document_order (e : Element) : list Element :=
  match e with
  | Elem _ _ cs => e :: flat_map document_order cs
  end.

(** [root.iter(tag)]: the root and its descendants with that tag, in document
    order. *)
Definition iter (tag : string) (root : Element) : list Element :=
  filter (fun e => tag_of e = tag) (document_order root).

(** [root.xpath(".//tag")]: the proper descendants with that tag, in document
    order (the context node itself is not a candidate). *)
Definition xpath_descendants (tag : string) (root : Element) : list Element :=
  filter (fun e => tag_of e = tag) (flat_map document_order (children_of root)).

(** ** Requests, responses, exceptions *)

Record Request := mkRequest {
  req_url : string;
  req_params : gmap string pyval
}.

Record Response := mkResponse {
  status_code : Z;
  text : string
}.

(** The exceptions the module can let escape. *)
Inductive exn :=
| ConnectionError
| HTTPError (status : Z)
| JSONDecodeError
| XMLSyntaxError
| IndexError
| KeyError (key : string)
| AttributeError
| TypeError
| ValueError.

(** What [_get] returns: parsed JSON, or the body text. *)
Inductive payload :=
| PJson (j : json)
| PText (s : string).

Definition BASE_URL : string := "https://eutils.ncbi.nlm.nih.gov".

(** One second, in the microsecond resolution of [datetime]. *)
Definition second : Z := 1000000.

(** A decoded record. The two decoder classes live in [article.py] and
    [book.py]; an instance is identified by its class and the element it was
    built from. *)
Inductive Record :=
| PubMedArticle (xml_element : Element)
| PubMedBookArticle (xml_element : Element).

(** ** The object and the world it runs in *)

(** A generator object made by calling [_getArticlesEnv]: it holds the
    arguments of the call, and whether its body has already been run to its
    end (no part of the body runs before the first item is asked for). *)
Record Generator := mkGenerator {
  gen_query_data : gmap string pyval;
  gen_start : Z;
  gen_end : Z;
  gen_exhausted : bool
}.

(** The attributes of a [PubMed] instance. [parameters] is a reference to the
    dictionary built by the constructor. *)
Record PubMed := mkPubMed {
  tool : string;
  email : string;
  api_key : option string;
  _rateLimit : Z;
  _requestsMade : list Z;
  parameters : loc;
  query_data : option (gmap string pyval);
  articles : option (list Record + Generator)
}.

(** The world: the object, the heap of dictionaries, how many times
    [datetime.datetime.now()] has been read, and the requests sent so far
    (oldest first). *)
Record World := mkWorld {
  self : PubMed;
  heap : gmap loc (gmap string pyval);
  tick : nat;
  sent : list Request
}.

(** How a call ends: it returns, it raises, or the polling loop of [_get] is
    still spinning when the observation budget runs out. Each carries the
    world reached. *)
Inductive outcome (A : Type) :=
| Return (a : A) (w : World)
| Raise (e : exn) (w : World)
| Spin (w : World).

Arguments Return {A}.
Arguments Raise {A}.
Arguments Spin {A}.

Definition world_of {A} (r : outcome A) : World :=
  match r with
  | Return _ w => w
  | Raise _ w => w
  | Spin w => w
  end.

Definition M (A : Type) : Type := World -> outcome A.

Definition ret {A} (a : A) : M A := fun w => Return a w.

Definition raise {A} (e : exn) : M A := fun w => Raise e w.

Definition bind {A B} (m : M A) (k : A -> M B) : M B := fun w =>
  match m w with
  | Return a w' => k a w'
  | Raise e w' => Raise e w'
  | Spin w' => Spin w'
  end.

Notation "'do' x <- m ; k" := (bind m (fun x => k))
  (at level 10, x name, m at level 100, k at level 200).

(** Attribute and heap updates. *)
Definition set_requestsMade (l : list Z) (w : World) : World :=
  let s := self w in
  mkWorld (mkPubMed (tool s) (email s) (api_key s) (_rateLimit s) l
                    (parameters s) (query_data s) (articles s))
          (heap w) (tick w) (sent w).

Definition set_query_data (d : gmap string pyval) (w : World) : World :=
  let s := self w in
  mkWorld (mkPubMed (tool s) (email s) (api_key s) (_rateLimit s) (_requestsMade s)
                    (parameters s) (Some d) (articles s))
          (heap w) (tick w) (sent w).

Definition set_articles (a : list Record + Generator) (w : World) : World :=
  let s := self w in
  mkWorld (mkPubMed (tool s) (email s) (api_key s) (_rateLimit s) (_requestsMade s)
                    (parameters s) (query_data s) (Some a))
          (heap w) (tick w) (sent w).

Definition set_heap (h : gmap loc (gmap string pyval)) (w : World) : World :=
  mkWorld (self w) h (tick w) (sent w).

Definition set_tick (k : nat) (w : World) : World :=
  mkWorld (self w) (heap w) k (sent w).

Definition set_sent (l : list Request) (w : World) : World :=
  mkWorld (self w) (heap w) (tick w) l.

(** Reading a dictionary through a reference. Every reference of this
    development comes from the constructor or from [dict_copy], so the
    default is never taken. *)
Definition deref (l : loc) (w : World) : gmap string pyval :=
  default ∅ (heap w !! l).

(** [d.copy()]: a new dictionary object with the same items. *)
Definition dict_copy (l : loc) : M loc := fun w =>
  let l' := fresh (dom (heap w)) in
  Return l' (set_heap (<[l' := deref l w]> (heap w)) w).

(** [d[k] = v], in place. *)
Definition dict_setitem (l : loc) (k : string) (v : pyval) : M unit :=
  fun w => Return tt (set_heap (<[l := <[k := v]> (deref l w)]> (heap w)) w).

(** [d[k]], raising [KeyError] when the key is missing. *)
Definition getitem (d : gmap string pyval) (k : string) : M pyval :=
  match d !! k with
  | Some v => ret v
  | None => raise (KeyError k)
  end.

(** The constructor: the object and the heap holding its parameter
    dictionary. [if api_key:] is false for [None] and for the empty string. *)
Definition truthy (o : option string) : bool :=
  match o with
  | Some s => negb (String.eqb s "")
  | None => false
  end.

Definition template (tool email : string) (api_key : option string)
  : gmap string pyval :=
  let d : gmap string pyval :=
    <["db" := PStr "pubmed"]> (<["email" := PStr email]> (<["tool" := PStr tool]> ∅)) in
  if truthy api_key then <["api_key" := PStr (default "" api_key)]> d else d.

Definition __init__ (tool email : string) (api_key : option string) : World :=
  let p : loc := fresh (∅ : gset loc) in
  mkWorld (mkPubMed tool email api_key 3 [] p None None)
          (<[p := template tool email api_key]> ∅) 0 [].

(** [range(start, stop, step)] for a positive step. *)
Definition range (start stop step : Z) : list Z :=
  map (fun k : nat => (start + step * Z.of_nat k)%Z)
      (seq 0 (Z.to_nat ((stop - start + step - 1) / step))).

(** [split_range]: the windows [(i, min(i + 10_000, max))]. *)
Definition split_range (max : Z) : list (Z * Z) :=
  map (fun i => (i, Z.min (i + 10000) max)) (range 0 max 10000).

(** [tiles lo hi ws]: the half-open windows [ws] follow one another from [lo]
    to [hi], each one non-empty, at most 10,000 wide and starting where the
    one before ends. *)
Fixpoint tiles (lo hi : Z) (ws : list (Z * Z)) : Prop :=
  match ws with
  | [] => lo = hi
  | (s, e) :: rest => s = lo /\ (s < e)%Z /\ (e - s <= 10000)%Z /\ tiles e hi rest
  end.

(** ** Sample environments

    Closed instances of what the methods are parameterised by, on which the
    statements below are run. *)

(** A clock read every quarter of a second, and one that stands still (all
    readings fall in the same instant). *)
Definition steady_clock : nat -> Z := fun n => (Z.of_nat n * 250000)%Z.

Definition frozen_clock : nat -> Z := fun _ => 0%Z.

(** A clock read every hundredth of a second. *)
Definition fine_clock : nat -> Z := fun n => (Z.of_nat n * 10000)%Z.

Definition session_text : string :=
  "<eSearchResult><Count>4182</Count><QueryKey>1</QueryKey><WebEnv>MCID_1</WebEnv></eSearchResult>".

Definition records_text : string :=
  "<PubmedArticleSet><PubmedBookArticle/><PubmedArticle/></PubmedArticleSet>".

(** The JSON body of a count response, its quotes written as apostrophes. *)
Definition count_text : string :=
  "{'esearchresult': {'count': '4182', 'retmax': '1', 'idlist': ['38912345']}}".

(** A service that answers every request with status 200: the count in JSON
    when JSON is asked for, the record set on the fetch path, the session
    tokens otherwise. *)
Definition sample_server (_ : list Request) (r : Request) : option Response :=
  match req_params r !! "retmode" with
  | Some (PStr "json") => Some (mkResponse 200 count_text)
  | _ =>
      if String.eqb (req_url r) (BASE_URL +:+ "/entrez/eutils/efetch.fcgi")
      then Some (mkResponse 200 records_text)
      else Some (mkResponse 200 session_text)
  end.

(** A service that answers every request with status 500. *)
Definition failing_server (_ : list Request) (_ : Request) : option Response :=
  Some (mkResponse 500 "").

Definition sample_json_loads (s : string) : option json :=
  if String.eqb s count_text
  then Some (JObj [("esearchresult",
                    JObj [("count", JStr "4182"); ("retmax", JStr "1");
                          ("idlist", JArr [JStr "38912345"])])])
  else None.

Definition sample_fromstring (s : string) : option Element :=
  if String.eqb s session_text
  then Some (Elem "eSearchResult" None
               [Elem "Count" (Some "4182") [];
                Elem "QueryKey" (Some "1") [];
                Elem "WebEnv" (Some "MCID_1") []])
  else if String.eqb s records_text
       then Some (Elem "PubmedArticleSet" None
                    [Elem "PubmedBookArticle" None [];
                     Elem "PubmedArticle" None []])
       else None.

(** A text carries an encoding declaration when it opens with an XML
    declaration that names an encoding. *)
Definition sample_encoding_declared (s : string) : bool :=
  String.prefix "<?xml" s &&
  match String.index 0 "encoding=" s with
  | Some _ => true
  | None => false
  end.

(** A record set that opens with an XML declaration naming its encoding, and
    a service that answers every fetch with it. *)
Definition declared_text : string :=
  "<?xml version='1.0' encoding='UTF-8'?><PubmedArticleSet><PubmedArticle/></PubmedArticleSet>".

Definition declaring_server (_ : list Request) (r : Request) : option Response :=
  if String.eqb (req_url r) (BASE_URL +:+ "/entrez/eutils/efetch.fcgi")
  then Some (mkResponse 200 declared_text)
  else Some (mkResponse 200 session_text).

(** A service that answers a search with an error document, which holds no
    token, and the parser of that document. *)
Definition error_text : string :=
  "<eSearchResult><ERROR>Empty term and query_key - nothing todo</ERROR></eSearchResult>".

Definition tokenless_server (_ : list Request) (_ : Request) : option Response :=
  Some (mkResponse 200 error_text).

Definition tokenless_fromstring (s : string) : option Element :=
  if String.eqb s error_text
  then Some (Elem "eSearchResult" None
               [Elem "ERROR" (Some "Empty term and query_key - nothing todo") []])
  else None.

(** Decimal digits only. *)
Fixpoint decimal (s : string) (acc : Z) : option Z :=
  match s with
  | EmptyString => Some acc
  | String c rest =>
      let n := Z.of_N (Ascii.N_of_ascii c) in
      if ((48 <=? n) && (n <=? 57))%Z then decimal rest (10 * acc + (n - 48))%Z
      else None
  end.

Definition sample_int_of_str (s : string) : option Z :=
  match s with
  | EmptyString => None
  | _ => decimal s 0
  end.

(** A new client with the constructor's defaults. *)
Definition new_client : World := __init__ "my_tool" "my_email@example.com" None.

(** The same client with four requests recorded at the instant 0. *)
Definition burst_client : World := set_requestsMade [0; 0; 0; 0]%Z new_client.

(** A service that keeps answering that nothing was retrieved although
    seven results exist, and the decoder of its body. *)
Definition stalled_server (_ : list Request) (_ : Request) : option Response :=
  Some (mkResponse 200 "stalled").

Definition stalled_json_loads (_ : string) : option json :=
  Some (JObj [("esearchresult",
               JObj [("count", JStr "7"); ("retmax", JStr "0");
                     ("idlist", JArr [])])]).

(** ** The methods *)

Section Client.

(** The successive readings of [datetime.datetime.now()], in microseconds. *)
Variable clock : nat -> Z.

(** The service: its answer to a request given the requests sent before, or
    no answer at all (the connection fails). *)
Variable server : list Request -> Request -> option Response.

(** The parsers of the libraries: [response.json()], [lxml.etree.fromstring]
    on bytes, and [int] on a string. *)
Variable json_loads : string -> option json.
Variable xml_fromstring : string -> option Element.
Variable int_of_str : string -> option Z.

(** [lxml.etree.fromstring] on a [str] instead of bytes: whether lxml finds
    an encoding declaration in the text, which it then refuses to parse, and
    what it parses a text into otherwise. Nothing relates this parser to the
    one on bytes. *)
Variable encoding_declared : string -> bool.
Variable xml_fromstring_str : string -> option Element.

Definition now : M Z := fun w =>
  Return (clock (tick w)) (set_tick (S (tick w)) w).

(** The list comprehension of [_exceededRateLimit]: its condition reads the
    clock once for every element. *)
Fixpoint younger_than_a_second (requestsMade : list Z) : M (list Z) :=
  match requestsMade with
  | [] => ret []
  | requestTime :: rest =>
      do t <- now;
      do kept <- younger_than_a_second rest;
      ret (if (t - second <? requestTime)%Z then requestTime :: kept else kept)
  end.

Definition _exceededRateLimit : M bool :=
  do kept <- (fun w => younger_than_a_second (_requestsMade (self w)) w);
  do _ <- (fun w => Return tt (set_requestsMade kept w));
  fun w => Return (Z.of_nat (length (_requestsMade (self w))) >? _rateLimit (self w))%Z w.

(** [while self._exceededRateLimit(): pass], observed for at most [fuel]
    checks. *)
Fixpoint poll (fuel : nat) : M unit :=
  match fuel with
  | O => fun w => Spin w
  | S fuel' =>
      do exceeded <- _exceededRateLimit;
      if exceeded then poll fuel' else ret tt
  end.

(** [requests.get(url, params=parameters)]: the request is logged with the
    items the dictionary has at that moment. *)
Definition requests_get (url : string) (parameters : loc) : M Response := fun w =>
  let r := mkRequest url (deref parameters w) in
  let w' := set_sent (sent w ++ [r]) w in
  match server (sent w) r with
  | Some response => Return response w'
  | None => Raise ConnectionError w'
  end.

(** [response.raise_for_status()] raises for the 4xx and 5xx codes. *)
Definition raise_for_status (response : Response) : M unit :=
  if ((400 <=? status_code response) && (status_code response <? 600))%Z
  then raise (HTTPError (status_code response))
  else ret tt.

Definition _get (fuel : nat) (url : string) (parameters : loc) (output : string)
  : M payload :=
  do _ <- poll fuel;
  do _ <- dict_setitem parameters "retmode" (PStr output);
  do response <- requests_get (BASE_URL +:+ url) parameters;
  do _ <- raise_for_status response;
  do t <- now;
  do _ <- (fun w => Return tt (set_requestsMade (_requestsMade (self w) ++ [t]) w));
  if String.eqb output "json" then
    match json_loads (text response) with
    | Some j => ret (PJson j)
    | None => raise JSONDecodeError
    end
  else ret (PText (text response)).

(** [d.get(key, default)] on what [_get] returned or on a JSON value: only a
    dictionary has the method. *)
Fixpoint last_member (key : string) (members : list (string * json)) : option json :=
  match members with
  | [] => None
  | (k, v) :: rest =>
      match last_member key rest with
      | Some v' => Some v'
      | None => if String.eqb k key then Some v else None
      end
  end.

Definition json_get (j : json) (key : string) (dflt : json) : M json :=
  match j with
  | JObj members => ret (default dflt (last_member key members))
  | _ => raise AttributeError
  end.

Definition payload_get (r : payload) (key : string) (dflt : json) : M json :=
  match r with
  | PJson j => json_get j key dflt
  | PText _ => raise AttributeError
  end.

(** [int(x)] on a JSON value. *)
Definition int (x : json) : M Z :=
  match x with
  | JNum z => ret z
  | JBool b => ret (if b then 1 else 0)%Z
  | JStr s =>
      match int_of_str s with
      | Some z => ret z
      | None => raise ValueError
      end
  | JNull | JArr _ | JObj _ => raise TypeError
  end.

Definition getTotalResultsCount (fuel : nat) (query : string) : M Z :=
  do parameters <- (fun w => dict_copy (parameters (self w)) w);
  do _ <- dict_setitem parameters "term" (PStr query);
  do _ <- dict_setitem parameters "retmax" (PInt 1);
  do response <- _get fuel "/entrez/eutils/esearch.fcgi" parameters "json";
  do esearchresult <- payload_get response "esearchresult" (JObj []);
  do count <- json_get esearchresult "count" JNull;
  int count.

(** [s.encode("utf-8")]: only a string has the method. A text and its
    encoding are written as the same string; what tells them apart is the
    parser they are handed to. *)
Definition encode (r : payload) : M string :=
  match r with
  | PText s => ret s
  | PJson _ => raise AttributeError
  end.

Definition fromstring (s : string) : M Element :=
  match xml_fromstring s with
  | Some root => ret root
  | None => raise XMLSyntaxError
  end.

(** [xml.fromstring(s)] for a [str]: a text with an encoding declaration
    raises [ValueError] before anything is parsed. *)
Definition fromstring_str (s : string) : M Element :=
  if encoding_declared s then raise ValueError
  else
    match xml_fromstring_str s with
    | Some root => ret root
    | None => raise XMLSyntaxError
    end.

(** [l[0]]. *)
Definition first {A} (l : list A) : M A :=
  match l with
  | x :: _ => ret x
  | [] => raise IndexError
  end.

Definition text_val (e : Element) : pyval :=
  match text_of e with
  | Some s => PStr s
  | None => PNone
  end.

Definition _getPubMedData (fuel : nat) (query : string) (max_results : Z)
  : M (gmap string pyval) :=
  do parameters <- (fun w => dict_copy (parameters (self w)) w);
  do _ <- dict_setitem parameters "term" (PStr query);
  do _ <- dict_setitem parameters "usehistory" (PStr "y");
  do _ <- dict_setitem parameters "retmax" (PInt max_results);
  do r <- _get fuel "/entrez/eutils/esearch.fcgi" parameters "xml";
  do response <- encode r;
  do root <- fromstring response;
  do qk <- first (xpath_descendants "QueryKey" root);
  let query_key := text_val qk in
  do we <- first (xpath_descendants "WebEnv" root);
  let WebEnv := text_val we in
  ret (<["WebEnv" := WebEnv]> (<["query_key" := query_key]> ∅)).

(** A [for] loop whose body yields one record per item: the records are
    appended to what was yielded before. *)
Fixpoint for_yield (decode : Element -> Record) (nodes : list Element)
  (yielded : list Record) : list Record :=
  match nodes with
  | [] => yielded
  | node :: rest => for_yield decode rest (yielded ++ [decode node])
  end.

(** The two loops that end [_getArticlesEnv]. *)
Definition yield_records (root : Element) : list Record :=
  let yielded := for_yield PubMedArticle (iter "PubmedArticle" root) [] in
  let yielded := for_yield PubMedBookArticle (iter "PubmedBookArticle" root) yielded in
  yielded.

(** Calling [_getArticlesEnv] only makes the generator object. *)
Definition _getArticlesEnv (query_data : gmap string pyval) (start end_ : Z)
  : Generator :=
  mkGenerator query_data start end_ false.

(** The body of [_getArticlesEnv], run to its end: the records it yields. *)
Definition _getArticlesEnv_body (fuel : nat) (query_data : gmap string pyval)
  (start end_ : Z) : M (list Record) :=
  do parameters <- (fun w => dict_copy (parameters (self w)) w);
  do qk <- getitem query_data "query_key";
  do _ <- dict_setitem parameters "query_key" qk;
  do we <- getitem query_data "WebEnv";
  do _ <- dict_setitem parameters "WebEnv" we;
  do _ <- dict_setitem parameters "retmax" (PInt end_);
  do _ <- dict_setitem parameters "retstart" (PInt start);
  do r <- _get fuel "/entrez/eutils/efetch.fcgi" parameters "xml";
  do root <- match r with
             | PText s => fromstring_str s
             | PJson _ => raise ValueError
             end;
  ret (yield_records root).

(** Iterating a generator to its end. A generator that has run, or raised,
    yields nothing more. *)
Definition drain (fuel : nat) (g : Generator) : M (list Record) :=
  if gen_exhausted g then ret []
  else _getArticlesEnv_body fuel (gen_query_data g) (gen_start g) (gen_end g).

(** [list(itertools.chain.from_iterable(... for start, end in windows))]:
    each window's generator is made, with the [query_data] attribute as it is
    then, and drained before the next window is looked at. *)
Fixpoint chain_from_iterable (fuel : nat) (windows : list (Z * Z))
  : M (list Record) :=
  match windows with
  | [] => ret []
  | (start, end_) :: rest =>
      do qd <- (fun w => Return (default ∅ (query_data (self w))) w);
      do records <- drain fuel (_getArticlesEnv qd start end_);
      do more <- chain_from_iterable fuel rest;
      ret (records ++ more)
  end.

Definition query (fuel : nat) (query : string) (max_results : Z)
  : M (list Record + Generator) :=
  do qd <- _getPubMedData fuel query max_results;
  do _ <- (fun w => Return tt (set_query_data qd w));
  do _ <- (if (max_results >? 10000)%Z then
             do records <- chain_from_iterable fuel (split_range max_results);
             fun w => Return tt (set_articles (inl records) w)
           else
             do qd' <- (fun w => Return (default ∅ (query_data (self w))) w);
             fun w => Return tt (set_articles (inr (_getArticlesEnv qd' 0 max_results)) w));
  fun w => match articles (self w) with
           | Some a => Return a w
           | None => Raise AttributeError w
           end.

(** The caller iterating over what [query] returned, which is the object the
    [articles] attribute refers to: a list gives its items, a generator is
    drained and left exhausted. *)
Definition iterate_articles (fuel : nat) : M (list Record) := fun w =>
  match articles (self w) with
  | Some (inl records) => Return records w
  | Some (inr g) =>
      let g' := mkGenerator (gen_query_data g) (gen_start g) (gen_end g) true in
      drain fuel g (set_articles (inr g') w)
  | None => Raise AttributeError w
  end.

(** A caller's use of the public interface. A raised exception is caught by
    the caller, who goes on. *)
Inductive call :=
| CallQuery (query : string) (max_results : Z)
| CallIterate
| CallCount (query : string).

Definition forget {A} (r : outcome A) : outcome unit :=
  match r with
  | Return _ w => Return tt w
  | Raise e w => Return tt w
  | Spin w => Spin w
  end.

Definition run_call (fuel : nat) (c : call) : M unit := fun w =>
  match c with
  | CallQuery q n => forget (query fuel q n w)
  | CallIterate => forget (iterate_articles fuel w)
  | CallCount q => forget (getTotalResultsCount fuel q w)
  end.

Fixpoint run_calls (fuel : nat) (cs : list call) : M unit :=
  match cs with
  | [] => ret tt
  | c :: rest => do _ <- run_call fuel c; run_calls fuel rest
  end.

(** ** Vocabulary of the statements *)

(** The part of [_get] that follows the polling loop. *)
Definition send (url : string) (parameters : loc) (output : string) : M payload :=
  do _ <- dict_setitem parameters "retmode" (PStr output);
  do response <- requests_get (BASE_URL +:+ url) parameters;
  do _ <- raise_for_status response;
  do t <- now;
  do _ <- (fun w => Return tt (set_requestsMade (_requestsMade (self w) ++ [t]) w));
  if String.eqb output "json" then
    match json_loads (text response) with
    | Some j => ret (PJson j)
    | None => raise JSONDecodeError
    end
  else ret (PText (text response)).

(** The request [send] makes, and the world once it is made: the dictionary
    has its [retmode] item and the request is in the log. *)
Definition request_of (url : string) (p : loc) (output : string) (w : World)
  : Request :=
  mkRequest (BASE_URL +:+ url) (<["retmode" := PStr output]> (deref p w)).

Definition after_request (url : string) (p : loc) (output : string) (w : World)
  : World :=
  set_sent (sent w ++ [request_of url p output w])
    (set_heap (<[p := <["retmode" := PStr output]> (deref p w)]> (heap w)) w).

(** The world once the status check has passed: the clock is read and the
    reading appended to the timestamp list. *)
Definition after_response (w : World) : World :=
  set_requestsMade (_requestsMade (self w) ++ [clock (tick w)])
    (set_tick (S (tick w)) w).

(** What the comprehension of [_exceededRateLimit] keeps of [l] when its
    first clock reading is the [k]-th. *)
Fixpoint recent (k : nat) (l : list Z) : list Z :=
  match l with
  | [] => []
  | t :: rest =>
      if (clock k - second <? t)%Z then t :: recent (S k) rest
      else recent (S k) rest
  end.

(** The world after a rate check: only the timestamp list and the number of
    clock readings differ. *)
Definition after_check (l : list Z) (k : nat) (w : World) : World :=
  set_tick k (set_requestsMade l w).

(** Time goes on: every instant is eventually behind all later readings. *)
Definition clock_advances : Prop :=
  forall T : Z, exists n : nat, forall m : nat, (n <= m)%nat -> (T <= clock m)%Z.

(** The reference [dict_copy] hands out in [w], and the world in which the
    dictionary behind it holds [items]. *)
Definition fresh_loc (w : World) : loc := fresh (dom (heap w)).

Definition with_params (items : gmap string pyval) (w : World) : World :=
  set_heap (<[fresh_loc w := items]> (heap w)) w.

(** The search request of [getTotalResultsCount], for the template [d]. *)
Definition count_request (d : gmap string pyval) (query : string) : Request :=
  mkRequest (BASE_URL +:+ "/entrez/eutils/esearch.fcgi")
    (<["retmode" := PStr "json"]>
       (<["retmax" := PInt 1]> (<["term" := PStr query]> d))).

(** The state of the client that no call is meant to change: the attribute
    [parameters] still refers to [p0], the dictionary behind it still holds
    [d0], and the ceiling is the constructor's 3. *)
Definition template_kept (p0 : loc) (d0 : gmap string pyval) (w : World) : Prop :=
  parameters (self w) = p0 /\ heap w !! p0 = Some d0 /\ _rateLimit (self w) = 3%Z.

(** [keeps p0 d0 m post]: however [m] ends, it ends in a world where the
    template is kept, and what it returns satisfies [post]. *)
Definition keeps (p0 : loc) (d0 : gmap string pyval) {A} (m : M A)
  (post : A -> Prop) : Prop :=
  forall w, template_kept p0 d0 w ->
    template_kept p0 d0 (world_of (m w)) /\
    forall a w', m w = Return a w' -> post a.

(** The search request of [_getPubMedData] and the fetch request of
    [_getArticlesEnv], for the template [d]. *)
Definition search_request (d : gmap string pyval) (query : string)
  (max_results : Z) : Request :=
  mkRequest (BASE_URL +:+ "/entrez/eutils/esearch.fcgi")
    (<["retmode" := PStr "xml"]>
       (<["retmax" := PInt max_results]>
          (<["usehistory" := PStr "y"]> (<["term" := PStr query]> d)))).

Definition fetch_request (d : gmap string pyval) (query_key WebEnv : pyval)
  (start end_ : Z) : Request :=
  mkRequest (BASE_URL +:+ "/entrez/eutils/efetch.fcgi")
    (<["retmode" := PStr "xml"]>
       (<["retstart" := PInt start]>
          (<["retmax" := PInt end_]>
             (<["WebEnv" := WebEnv]> (<["query_key" := query_key]> d))))).

(** What [_getPubMedData], [_getArticlesEnv] and [getTotalResultsCount] do
    with what [_get] returned. *)
Definition read_session (r : payload) : M (gmap string pyval) :=
  do response <- encode r;
  do root <- fromstring response;
  do qk <- first (xpath_descendants "QueryKey" root);
  do we <- first (xpath_descendants "WebEnv" root);
  ret (<["WebEnv" := text_val we]> (<["query_key" := text_val qk]> ∅)).

Definition read_records (r : payload) : M (list Record) :=
  do root <- match r with
             | PText s => fromstring_str s
             | PJson _ => raise ValueError
             end;
  ret (yield_records root).

Definition read_count (response : payload) : M Z :=
  do esearchresult <- payload_get response "esearchresult" (JObj []);
  do count <- json_get esearchresult "count" JNull;
  int count.

(** The keys the constructor puts in the template, and a dictionary that
    has the template's items under them. *)
Definition template_keys : list string := ["tool"; "email"; "db"; "api_key"].

Definition agrees (d d' : gmap string pyval) : Prop :=
  forall key, key ∈ template_keys -> d' !! key = d !! key.

(** The requests the methods make: on one of the two paths, in one of the
    two output formats, with a dictionary that extends the template of [w]. *)
Definition request_shape (url output : string) (d : gmap string pyval)
  (w : World) : Prop :=
  (url = "/entrez/eutils/esearch.fcgi" \/ url = "/entrez/eutils/efetch.fcgi") /\
  (output = "json" \/ output = "xml") /\
  agrees (deref (parameters (self w)) w) d.

(** A request as the methods make it for the template [d0]: to one of the
    two paths of the service, with an output format, and with the template's
    items. *)
Definition wf_request (d0 : gmap string pyval) (r : Request) : Prop :=
  (req_url r = BASE_URL +:+ "/entrez/eutils/esearch.fcgi" \/
   req_url r = BASE_URL +:+ "/entrez/eutils/efetch.fcgi") /\
  (req_params r !! "retmode" = Some (PStr "json") \/
   req_params r !! "retmode" = Some (PStr "xml")) /\
  agrees d0 (req_params r).

(** The fetch of a window, for the template [d] and the tokens [qk], [we]. *)
Definition window_request (d : gmap string pyval) (qk we : pyval)
  (window : Z * Z) : Request :=
  fetch_request d qk we window.1 window.2.

(** What the service's answers to the fetches of [windows], asked in that
    order after [history], amount to when every one of them passes the
    status check, carries no encoding declaration and parses as a [str]: the
    records of the bodies, in window order. *)
Fixpoint fetch_all (history : list Request) (d : gmap string pyval)
  (qk we : pyval) (windows : list (Z * Z)) : option (list Record) :=
  match windows with
  | [] => Some []
  | window :: rest =>
      let req := window_request d qk we window in
      match server history req with
      | Some response =>
          if ((400 <=? status_code response) && (status_code response <? 600))%Z
          then None
          else if encoding_declared (text response) then None
          else
            match xml_fromstring_str (text response) with
            | Some root =>
                match fetch_all (history ++ [req]) d qk we rest with
                | Some more => Some (yield_records root ++ more)
                | None => None
                end
            | None => None
            end
      | None => None
      end
  end.

(** A clock that does not go back. *)
Definition clock_monotone : Prop :=
  forall i j : nat, (i <= j)%nat -> (clock i <= clock j)%Z.

(** The timestamp a call of [_get] has appended: the last of the list, when
    the call got past the status check (it returned, or the body failed to
    decode afterwards). *)
Definition new_timestamp {A} (r : outcome A) : list Z :=
  match r with
  | Return _ w' | Raise JSONDecodeError w' =>
      match last (_requestsMade (self w')) with
      | Some t => [t]
      | None => []
      end
  | _ => []
  end.

(** The timestamps appended by a series of calls of [_get] on the same
    client, in the order of the calls, up to the first call still polling. *)
Fixpoint recorded (fuel : nat) (calls : list (string * loc * string)) (w : World)
  : list Z :=
  match calls with
  | [] => []
  | (url, p, output) :: rest =>
      match _get fuel url p output w with
      | Spin _ => []
      | r => new_timestamp r ++ recorded fuel rest (world_of r)
      end
  end.

(** Any five consecutive timestamps span at least a second. *)
Definition spaced (h : list Z) : Prop :=
  forall (i : nat) (a b : Z),
    h !! i = Some a -> h !! (i + 4)%nat = Some b -> (a + second <= b)%Z.

(** ** The archived method [_getArticleIds] *)

(** The keys of a JSON object as a Python dictionary has them: each key
    once, in the order of its first occurrence. *)
Fixpoint dict_keys (members : list (string * json)) (seen : list string)
  : list string :=
  match members with
  | [] => []
  | (key, _) :: rest =>
      if bool_decide (key ∈ seen) then dict_keys rest seen
      else key :: dict_keys rest (key :: seen)
  end.

Fixpoint characters (s : string) : list string :=
  match s with
  | EmptyString => []
  | String c rest => String c EmptyString :: characters rest
  end.

(** [l += x] for a list [l]: the items of an array, the keys of an object,
    the characters of a string; [None], a number or a boolean is not
    iterable. *)
Definition extend (l : list json) (x : json) : M (list json) :=
  match x with
  | JArr items => ret (l ++ items)
  | JObj members => ret (l ++ map JStr (dict_keys members []))
  | JStr s => ret (l ++ map JStr (characters s))
  | JNull | JBool _ | JNum _ => raise TypeError
  end.

(** [d[key]] read as the integer operand of a comparison. *)
Definition dict_getitem_int (p : loc) (key : string) : M Z := fun w =>
  match deref p w !! key with
  | Some (PInt z) => Return z w
  | Some _ => Raise TypeError w
  | None => Raise (KeyError key) w
  end.

(** The [while] loop of [_getArticleIds], observed for at most [fuel]
    rounds. *)
Fixpoint _getArticleIds_loop (fuel fuel_get : nat) (parameters : loc)
  (article_ids : list json) (total_result_count retrieved_count max_results : Z)
  : M (list json) :=
  if ((retrieved_count <? total_result_count)
      && (retrieved_count <? max_results))%Z
  then
    match fuel with
    | O => fun w => Spin w
    | S fuel' =>
        do retmax <- dict_getitem_int parameters "retmax";
        do _ <- (if (max_results - retrieved_count <? retmax)%Z
                 then dict_setitem parameters "retmax"
                        (PInt (max_results - retrieved_count))
                 else ret tt);
        do _ <- dict_setitem parameters "retstart" (PInt retrieved_count);
        do response <- _get fuel_get "/entrez/eutils/esearch.fcgi" parameters "json";
        do esearchresult <- payload_get response "esearchresult" (JObj []);
        do idlist <- json_get esearchresult "idlist" (JArr []);
        do article_ids <- extend article_ids idlist;
        do esearchresult <- payload_get response "esearchresult" (JObj []);
        do retmax <- json_get esearchresult "retmax" JNull;
        do n <- int retmax;
        _getArticleIds_loop fuel' fuel_get parameters article_ids
          total_result_count (retrieved_count + n) max_results
    end
  else ret article_ids.

Definition _getArticleIds (fuel : nat) (query : string) (max_results : Z)
  : M (list json) :=
  let article_ids : list json := [] in
  do parameters <- (fun w => dict_copy (parameters (self w)) w);
  do _ <- dict_setitem parameters "term" (PStr query);
  do _ <- dict_setitem parameters "retmax" (PInt 50000);
  do retmax <- dict_getitem_int parameters "retmax";
  do _ <- (if (max_results <? retmax)%Z
           then dict_setitem parameters "retmax" (PInt max_results)
           else ret tt);
  do response <- _get fuel "/entrez/eutils/esearch.fcgi" parameters "json";
  do esearchresult <- payload_get response "esearchresult" (JObj []);
  do idlist <- json_get esearchresult "idlist" (JArr []);
  do article_ids <- extend article_ids idlist;
  do esearchresult <- payload_get response "esearchresult" (JObj []);
  do count <- json_get esearchresult "count" JNull;
  do total_result_count <- int count;
  do esearchresult <- payload_get response "esearchresult" (JObj []);
  do retmax <- json_get esearchresult "retmax" JNull;
  do retrieved_count <- int retmax;
  let max_results :=
    if (max_results =? -1)%Z then total_result_count else max_results in
  _getArticleIds_loop fuel fuel parameters article_ids
    total_result_count retrieved_count max_results.

(** The first request of [_getArticleIds], for the template [d]. *)
Definition ids_request (d : gmap string pyval) (query : string) (max_results : Z)
  : Request :=
  mkRequest (BASE_URL +:+ "/entrez/eutils/esearch.fcgi")
    (<["retmode" := PStr "json"]>
       (<["retmax" := PInt (if (max_results <? 50000)%Z then max_results else 50000)]>
          (<["term" := PStr query]> d))).

(** What [_getArticleIds] does with the first answer. *)
Definition read_ids (fuel : nat) (parameters : loc) (max_results : Z)
  (response : payload) : M (list json) :=
  do esearchresult <- payload_get response "esearchresult" (JObj []);
  do idlist <- json_get esearchresult "idlist" (JArr []);
  do article_ids <- extend [] idlist;
  do esearchresult <- payload_get response "esearchresult" (JObj []);
  do count <- json_get esearchresult "count" JNull;
  do total_result_count <- int count;
  do esearchresult <- payload_get response "esearchresult" (JObj []);
  do retmax <- json_get esearchresult "retmax" JNull;
  do retrieved_count <- int retmax;
  let max_results :=
    if (max_results =? -1)%Z then total_result_count else max_results in
  _getArticleIds_loop fuel fuel parameters article_ids
    total_result_count retrieved_count max_results.

(** [settles m w]: observed long enough, the call [m] started in [w] has
    come back, by returning or by raising, and it ends the same way for
    every larger budget. *)
Definition settles {A} (m : nat -> M A) (w : World) : Prop :=
  exists fuel0 r,
    (forall fuel, (fuel0 <= fuel)%nat -> m fuel w = r) /\
    forall w', r <> Spin w'.

(** ** Properties of the window list *)

Lemma tiles_bounds ws : forall lo hi, tiles lo hi ws -> (lo <= hi)%Z.
Proof.
  induction ws as [|[s e] rest IH]; intros lo hi H; simpl in H.
  - lia.
  - destruct H as (-> & Hlt & _ & Hrest). apply IH in Hrest. lia.
Qed.

Lemma tiles_cover ws : forall lo hi i,
  tiles lo hi ws -> (lo <= i < hi)%Z ->
  exists w, w ∈ ws /\ (w.1 <= i < w.2)%Z.
Proof.
  induction ws as [|[s e] rest IH]; intros lo hi i H Hi; simpl in H.
  - lia.
  - destruct H as (-> & Hlt & _ & Hrest).
    destruct (Z_lt_ge_dec i e) as [Hie|Hie].
    + exists (lo, e). split; [left | simpl; lia].
    + destruct (IH e hi i Hrest) as (w & Hw & Hin); [lia|].
      exists w. split; [by right | done].
Qed.

Lemma tiles_inside ws : forall lo hi w,
  tiles lo hi ws -> w ∈ ws ->
  (lo <= w.1 /\ w.1 < w.2 /\ w.2 - w.1 <= 10000 /\ w.2 <= hi)%Z.
Proof.
  induction ws as [|[s e] rest IH]; intros lo hi w H Hw; simpl in H.
  - by apply elem_of_nil in Hw.
  - destruct H as (-> & Hlt & Hsz & Hrest).
    apply elem_of_cons in Hw as [-> | Hw].
    + simpl. apply tiles_bounds in Hrest. lia.
    + destruct (IH _ _ _ Hrest Hw) as (? & ? & ? & ?). lia.
Qed.

Lemma tiles_ascending ws : forall lo hi (j k : nat) w1 w2,
  tiles lo hi ws -> (j < k)%nat ->
  ws !! j = Some w1 -> ws !! k = Some w2 -> (w1.2 <= w2.1)%Z.
Proof.
  induction ws as [|[s e] rest IH]; intros lo hi j k w1 w2 H Hjk H1 H2; simpl in H.
  - done.
  - destruct H as (-> & Hlt & Hsz & Hrest).
    destruct k as [|k]; [lia|]. simpl in H2.
    destruct j as [|j]; simpl in H1.
    + injection H1 as <-. simpl.
      apply list_elem_of_lookup_2 in H2.
      destruct (tiles_inside _ _ _ _ Hrest H2) as (? & _). done.
    + apply (IH e hi j k); [done | lia | done | done].
Qed.

Lemma split_range_tiles_from (max : Z) (n : nat) : forall a : nat,
  ((0 < n)%nat ->
   (10000 * (Z.of_nat a + Z.of_nat n - 1) < max <= 10000 * (Z.of_nat a + Z.of_nat n))%Z) ->
  tiles (match n with O => max | S _ => 10000 * Z.of_nat a end)%Z max
        (map (fun i => (i, Z.min (i + 10000) max))
             (map (fun k : nat => (0 + 10000 * Z.of_nat k)%Z) (seq a n))).
Proof.
  induction n as [|n IH]; intros a H; simpl.
  - done.
  - assert (Hn : (10000 * (Z.of_nat a + Z.of_nat (S n) - 1) < max
                  <= 10000 * (Z.of_nat a + Z.of_nat (S n)))%Z) by (apply H; lia).
    split; [lia|]. split; [lia|]. split; [lia|].
    specialize (IH (S a)).
    destruct n as [|n].
    + simpl in *. replace (Z.min _ max) with max by lia. done.
    + replace (Z.min _ max) with (10000 * Z.of_nat (S a))%Z by lia.
      apply IH. intros _. lia.
Qed.

Lemma split_range_tiles (max : Z) : (0 < max)%Z -> tiles 0 max (split_range max).
Proof.
  intros Hmax. unfold split_range, range.
  set (n := Z.to_nat ((max - 0 + 10000 - 1) / 10000)).
  assert (Hn : (Z.of_nat n = (max + 9999) / 10000)%Z).
  { unfold n. rewrite Z2Nat.id; [f_equal; lia|]. apply Z.div_pos; lia. }
  pose proof (Z.div_mod (max + 9999) 10000 ltac:(lia)) as Hdm.
  pose proof (Z.mod_pos_bound (max + 9999) 10000 ltac:(lia)) as Hmb.
  assert (Hpos : (0 < n)%nat) by lia.
  pose proof (split_range_tiles_from max n 0) as Ht.
  destruct n as [|n]; [lia|].
  apply Ht. intros _. lia.
Qed.

Lemma single_window_tiles (max_results : Z) :
  (0 < max_results <= 10000)%Z -> tiles 0 max_results [(0%Z, max_results)].
Proof. intros H. simpl. lia. Qed.

(** What a tiling gives: every index of the range lies in a window, the
    windows come in ascending order, and none is empty or wider than
    10,000. *)
Lemma tiles_partition ws hi :
  tiles 0 hi ws ->
  (forall i : Z, (0 <= i < hi)%Z <-> exists win, win ∈ ws /\ (win.1 <= i < win.2)%Z) /\
  (forall (j k : nat) win1 win2,
      (j < k)%nat -> ws !! j = Some win1 -> ws !! k = Some win2 ->
      (win1.2 <= win2.1)%Z) /\
  (forall win, win ∈ ws -> (0 < win.2 - win.1 <= 10000)%Z).
Proof.
  intros Ht. split; [|split].
  - intros i. split.
    + intros Hi. by apply (tiles_cover ws 0 hi).
    + intros (win & Hw & Hi).
      destruct (tiles_inside ws 0 hi win Ht Hw) as (? & ? & ? & ?). lia.
  - intros j k win1 win2. by apply (tiles_ascending ws 0 hi).
  - intros win Hw.
    destruct (tiles_inside ws 0 hi win Ht Hw) as (? & ? & ? & ?). lia.
Qed.

(** The last window of a tiling of more than 20,000 indices by
    [split_range] ends at the top and starts at or beyond 20,000. *)
Lemma split_range_last (max : Z) :
  (20000 < max)%Z ->
  exists win, last (split_range max) = Some win /\ win.2 = max /\ (20000 <= win.1)%Z.
Proof.
  intros Hbig. set (ws := split_range max).
  assert (Ht : tiles 0 max ws) by (apply split_range_tiles; lia).
  destruct (tiles_cover ws 0 max (max - 1) Ht ltac:(lia)) as (w & Hw & Hi).
  destruct (tiles_inside ws 0 max w Ht Hw) as (_ & _ & Hsz & Hhi).
  assert (Hend : w.2 = max) by lia.
  apply list_elem_of_lookup in Hw as (n & Hn).
  assert (Hlast : last ws = Some w).
  { rewrite last_lookup.
    destruct (decide (n = pred (length ws))) as [<-|Hne]; [done|].
    apply lookup_lt_Some in Hn as Hlt.
    destruct (lookup_lt_is_Some_2 ws (pred (length ws)) ltac:(lia)) as [w2 Hw2].
    pose proof (tiles_ascending ws 0 max n (pred (length ws)) w w2 Ht
                  ltac:(lia) Hn Hw2) as Hasc.
    apply list_elem_of_lookup_2 in Hw2.
    destruct (tiles_inside ws 0 max w2 Ht Hw2) as (_ & ? & _ & ?). lia. }
  exists w. split; [done|]. split; [done|].
  unfold ws, split_range, range in Hn.
  rewrite list_lookup_fmap in Hn.
  destruct (map _ (seq _ _) !! n) as [s|] eqn:Hs; [|done].
  injection Hn as <-. simpl in *.
  change (map ?f ?l) with (f <$> l) in Hs.
  rewrite list_lookup_fmap in Hs.
  destruct (seq _ _ !! n) as [m|] eqn:Hm; [|done].
  injection Hs as <-. lia.
Qed.

(** ** The rate limiter *)

Lemma after_check_twice l1 k1 l2 k2 w :
  after_check l2 k2 (after_check l1 k1 w) = after_check l2 k2 w.
Proof. by destruct w as [[] ? ? ?]. Qed.

Lemma younger_than_a_second_eq l : forall w,
  younger_than_a_second l w
  = Return (recent (tick w) l) (set_tick (tick w + length l) w).
Proof.
  induction l as [|t rest IH]; intros w; simpl.
  - unfold ret. f_equal. destruct w; unfold set_tick; simpl. f_equal. lia.
  - unfold bind, now. rewrite IH. unfold ret, set_tick. destruct w as [s h k snt]. simpl.
    replace (k + S (length rest))%nat with (S (k + length rest)) by lia.
    by destruct (clock k - second <? t)%Z.
Qed.

Lemma _exceededRateLimit_eq w :
  let kept := recent (tick w) (_requestsMade (self w)) in
  _exceededRateLimit w
  = Return (Z.of_nat (length kept) >? _rateLimit (self w))%Z
           (after_check kept (tick w + length (_requestsMade (self w))) w).
Proof.
  unfold _exceededRateLimit, bind. rewrite younger_than_a_second_eq.
  by destruct w as [[] ? ? ?].
Qed.

Lemma recent_elem_of l : forall k t, t ∈ recent k l -> t ∈ l.
Proof.
  induction l as [|x rest IH]; intros k t H; simpl in H; [done|].
  destruct (clock k - second <? x)%Z.
  - apply elem_of_cons in H as [-> | H]; [left | right; eauto].
  - right; eauto.
Qed.

Lemma recent_sublist l : forall k, recent k l `sublist_of` l.
Proof.
  induction l as [|x rest IH]; intros k; simpl; [constructor|].
  destruct (clock k - second <? x)%Z.
  - by apply sublist_skip.
  - by apply sublist_cons.
Qed.

Lemma recent_length l : forall k, (length (recent k l) <= length l)%nat.
Proof.
  induction l as [|x rest IH]; intros k; simpl; [lia|].
  destruct (clock k - second <? x)%Z; simpl; specialize (IH (S k)); lia.
Qed.

(** An element is dropped only when the reading taken for it is at least a
    second later. *)
Lemma recent_dropped l : forall k,
  (length (recent k l) < length l)%nat ->
  exists (i : nat) (t : Z),
    l !! i = Some t /\ (t + second <= clock (k + i))%Z.
Proof.
  induction l as [|x rest IH]; intros k H; simpl in H; [lia|].
  destruct (clock k - second <? x)%Z eqn:E.
  - simpl in H. destruct (IH (S k)) as (i & t & Hi & Ht); [lia|].
    exists (S i), t. split; [done|].
    by replace (k + S i)%nat with (S k + i)%nat by lia.
  - exists 0%nat, x. split; [done|].
    replace (k + 0)%nat with k by lia. lia.
Qed.

(** Every element is kept while the readings are less than a second later. *)
Lemma recent_all_young l : forall k,
  (forall (i : nat) t, l !! i = Some t -> (clock (k + i) < t + second)%Z) ->
  recent k l = l.
Proof.
  induction l as [|x rest IH]; intros k H; simpl; [done|].
  pose proof (H 0%nat x eq_refl) as H0.
  replace (k + 0)%nat with k in H0 by lia.
  destruct (clock k - second <? x)%Z eqn:E; [|lia].
  f_equal. apply IH. intros i t Hi.
  replace (S k + i)%nat with (k + S i)%nat by lia. by apply H.
Qed.

(** Every element is dropped once the readings are a second later. *)
Lemma recent_all_old l : forall k,
  (forall (i : nat) t, l !! i = Some t -> (t + second <= clock (k + i))%Z) ->
  recent k l = [].
Proof.
  induction l as [|x rest IH]; intros k H; simpl; [done|].
  pose proof (H 0%nat x eq_refl) as H0.
  replace (k + 0)%nat with k in H0 by lia.
  destruct (clock k - second <? x)%Z eqn:E; [lia|].
  apply IH. intros i t Hi.
  replace (S k + i)%nat with (k + S i)%nat by lia. by apply H.
Qed.

(** The loop hands control back only with a list within the ceiling, made of
    timestamps it found on entry; nothing else of the world changes. *)
Lemma poll_returns fuel : forall w w',
  poll fuel w = Return tt w' ->
  exists l k,
    w' = after_check l k w /\
    (Z.of_nat (length l) <= _rateLimit (self w))%Z /\
    l `sublist_of` _requestsMade (self w) /\
    (tick w <= k)%nat.
Proof.
  induction fuel as [|fuel IH]; intros w w' H; simpl in H; [done|].
  unfold bind in H. rewrite _exceededRateLimit_eq in H. cbv zeta in H.
  set (kept := recent (tick w) (_requestsMade (self w))) in *.
  set (k1 := (tick w + length (_requestsMade (self w)))%nat) in *.
  destruct (Z.of_nat (length kept) >? _rateLimit (self w))%Z eqn:E.
  - apply IH in H as (l & k & -> & Hlen & Hsub & Hk).
    exists l, k. rewrite after_check_twice. split; [done|].
    split; [by destruct w as [[] ? ? ?]|].
    split.
    + assert (Hs : _requestsMade (self (after_check kept k1 w)) = kept)
        by (by destruct w as [[] ? ? ?]).
      rewrite Hs in Hsub. etrans; [exact Hsub | apply recent_sublist].
    + assert (Hs : tick (after_check kept k1 w) = k1) by (by destruct w).
      rewrite Hs in Hk. lia.
  - injection H as <-. exists kept, k1. split; [done|].
    split; [lia|]. split; [apply recent_sublist | lia].
Qed.

(** A check that keeps more timestamps than the ceiling does not hand control
    back: the loop goes round again. *)
Lemma poll_exceeded fuel w :
  let kept := recent (tick w) (_requestsMade (self w)) in
  (Z.of_nat (length kept) > _rateLimit (self w))%Z ->
  poll (S fuel) w
  = poll fuel (after_check kept (tick w + length (_requestsMade (self w))) w).
Proof.
  intros kept H. simpl. unfold bind. rewrite _exceededRateLimit_eq. cbv zeta.
  fold kept. by replace (_ >? _)%Z with true by lia.
Qed.

(** A check that keeps at most as many timestamps as the ceiling hands
    control back at once. *)
Lemma poll_within fuel w :
  let kept := recent (tick w) (_requestsMade (self w)) in
  (Z.of_nat (length kept) <= _rateLimit (self w))%Z ->
  poll (S fuel) w
  = Return tt (after_check kept (tick w + length (_requestsMade (self w))) w).
Proof.
  intros kept H. simpl. unfold bind. rewrite _exceededRateLimit_eq. cbv zeta.
  fold kept. by replace (_ >? _)%Z with false by lia.
Qed.

Lemma after_check_tick l k w : tick (after_check l k w) = k.
Proof. by destruct w. Qed.

Lemma after_check_requestsMade l k w : _requestsMade (self (after_check l k w)) = l.
Proof. by destruct w as [[] ? ? ?]. Qed.

Lemma after_check_rateLimit l k w :
  _rateLimit (self (after_check l k w)) = _rateLimit (self w).
Proof. by destruct w as [[] ? ? ?]. Qed.

Lemma after_check_parameters l k w :
  parameters (self (after_check l k w)) = parameters (self w).
Proof. by destruct w as [[] ? ? ?]. Qed.

Lemma after_check_heap l k w : heap (after_check l k w) = heap w.
Proof. by destruct w. Qed.

Lemma after_check_sent l k w : sent (after_check l k w) = sent w.
Proof. by destruct w. Qed.

Lemma after_check_deref p l k w : deref p (after_check l k w) = deref p w.
Proof. by destruct w. Qed.

(** When the loop is entered with more timestamps than the ceiling and hands
    control back, one of the clock readings it took is at least a second
    later than the oldest of them. *)
Lemma poll_waits fuel : forall w w' oldest,
  (Z.of_nat (length (_requestsMade (self w))) > _rateLimit (self w))%Z ->
  (forall t, t ∈ _requestsMade (self w) -> (oldest <= t)%Z) ->
  poll fuel w = Return tt w' ->
  exists k : nat,
    (tick w <= k < tick w')%nat /\ (oldest + second <= clock k)%Z.
Proof.
  induction fuel as [|fuel IH]; intros w w' oldest Hlen Hold H; [done|].
  set (kept := recent (tick w) (_requestsMade (self w))).
  destruct (Z_le_gt_dec (Z.of_nat (length kept)) (_rateLimit (self w))) as [Hk|Hk].
  - rewrite poll_within in H by done. injection H as <-.
    rewrite after_check_tick.
    destruct (recent_dropped (_requestsMade (self w)) (tick w)) as (i & t & Hi & Ht).
    { fold kept. lia. }
    exists (tick w + i)%nat. split.
    + apply lookup_lt_Some in Hi. lia.
    + apply list_elem_of_lookup_2 in Hi. apply Hold in Hi. lia.
  - rewrite poll_exceeded in H by done. fold kept in H.
    apply IH with (oldest := oldest) in H.
    + destruct H as (k & Hk1 & Hk2). rewrite after_check_tick in Hk1.
      exists k. split; [lia | done].
    + rewrite after_check_requestsMade, after_check_rateLimit. lia.
    + rewrite after_check_requestsMade. intros t Ht.
      apply Hold. by apply recent_elem_of in Ht.
Qed.

(** Under an advancing clock and a ceiling that is not negative the loop
    hands control back, and with the same world for every larger budget. *)
Lemma poll_converges_from (n : nat) (T : Z) :
  (forall m : nat, (n <= m)%nat -> (T <= clock m)%Z) ->
  forall (d : nat) w,
    (0 <= _rateLimit (self w))%Z ->
    (n - tick w <= d)%nat ->
    (forall t, t ∈ _requestsMade (self w) -> (t + second <= T)%Z) ->
    exists w', forall fuel, (S d <= fuel)%nat -> poll fuel w = Return tt w'.
Proof.
  intros Hn. induction d as [|d IH]; intros w HR Hd HT.
  - assert (Hkept : recent (tick w) (_requestsMade (self w)) = []).
    { apply recent_all_old. intros i t Hi.
      apply list_elem_of_lookup_2 in Hi. apply HT in Hi.
      specialize (Hn (tick w + i)%nat ltac:(lia)). lia. }
    eexists. intros [|fuel] Hf; [lia|].
    rewrite poll_within; [done|]. rewrite Hkept. simpl. lia.
  - set (kept := recent (tick w) (_requestsMade (self w))).
    destruct (Z_le_gt_dec (Z.of_nat (length kept)) (_rateLimit (self w))) as [Hk|Hk].
    + eexists. intros [|fuel] Hf; [lia|]. by rewrite poll_within.
    + pose proof (recent_length (_requestsMade (self w)) (tick w)) as Hl.
      fold kept in Hl.
      destruct (IH (after_check kept (tick w + length (_requestsMade (self w))) w))
        as (w' & Hw').
      * by rewrite after_check_rateLimit.
      * rewrite after_check_tick. lia.
      * rewrite after_check_requestsMade. intros t Ht.
        apply HT. by apply recent_elem_of in Ht.
      * exists w'. intros [|fuel] Hf; [lia|].
        rewrite poll_exceeded by done. apply Hw'. lia.
Qed.

Lemma list_upper_bound (l : list Z) : exists B : Z, forall t, t ∈ l -> (t <= B)%Z.
Proof.
  induction l as [|x rest (B & HB)].
  - exists 0%Z. intros t Ht. by apply elem_of_nil in Ht.
  - exists (Z.max x B). intros t Ht.
    apply elem_of_cons in Ht as [-> | Ht]; [lia|]. apply HB in Ht. lia.
Qed.

Lemma poll_converges w :
  clock_advances ->
  (0 <= _rateLimit (self w))%Z ->
  exists fuel0 l k,
    (Z.of_nat (length l) <= _rateLimit (self w))%Z /\
    l `sublist_of` _requestsMade (self w) /\
    (tick w <= k)%nat /\
    forall fuel, (fuel0 <= fuel)%nat -> poll fuel w = Return tt (after_check l k w).
Proof.
  intros Hadv HR.
  destruct (list_upper_bound (_requestsMade (self w))) as (B & HB).
  destruct (Hadv (B + second)%Z) as (n & Hn).
  destruct (poll_converges_from n (B + second)%Z Hn (n - tick w) w) as (w' & Hw');
    [done | lia | |].
  { intros t Ht. apply HB in Ht. lia. }
  pose proof (Hw' (S (n - tick w)) ltac:(lia)) as H1.
  apply poll_returns in H1 as (l & k & -> & Hlen & Hsub & Hk).
  exists (S (n - tick w)), l, k. do 3 (split; [done|]). exact Hw'.
Qed.

(** ** The request helper *)

Lemma _get_unfold fuel url p output :
  _get fuel url p output = (do _ <- poll fuel; send url p output).
Proof. reflexivity. Qed.

Lemma send_eq url p output w :
  send url p output w =
  let w1 := after_request url p output w in
  match server (sent w) (request_of url p output w) with
  | None => Raise ConnectionError w1
  | Some response =>
      if ((400 <=? status_code response) && (status_code response <? 600))%Z
      then Raise (HTTPError (status_code response)) w1
      else
        let w2 := after_response w1 in
        if String.eqb output "json" then
          match json_loads (text response) with
          | Some j => Return (PJson j) w2
          | None => Raise JSONDecodeError w2
          end
        else Return (PText (text response)) w2
  end.
Proof.
  destruct w as [s h k snt].
  unfold send, bind, dict_setitem, requests_get, raise_for_status, now,
    after_request, after_response, request_of, deref, set_heap, set_sent,
    set_tick, set_requestsMade, ret, raise.
  cbn [heap sent tick self]. rewrite lookup_insert_eq. cbn [default from_option].
  destruct (server snt _) as [response|]; [|done].
  destruct ((400 <=? status_code response) && (status_code response <? 600))%Z; [done|].
  cbn [heap sent tick self _requestsMade].
  destruct (String.eqb output "json"); [|done].
  by destruct (json_loads (text response)).
Qed.

Lemma poll_never_raises fuel : forall w e w', poll fuel w <> Raise e w'.
Proof.
  induction fuel as [|fuel IH]; intros w e w'; simpl; [done|].
  unfold bind. rewrite _exceededRateLimit_eq. cbv zeta.
  destruct (_ >? _)%Z; [apply IH | done].
Qed.

(** A call of [_get] that ends otherwise than spinning got through the loop. *)
Lemma _get_polled fuel url p output w :
  (forall w', _get fuel url p output w <> Spin w') ->
  exists l k,
    poll fuel w = Return tt (after_check l k w) /\
    (Z.of_nat (length l) <= _rateLimit (self w))%Z /\
    l `sublist_of` _requestsMade (self w) /\
    (tick w <= k)%nat /\
    _get fuel url p output w = send url p output (after_check l k w).
Proof.
  intros H. rewrite _get_unfold in *. unfold bind in *.
  destruct (poll fuel w) as [[] w1|e w1|w1] eqn:E.
  - apply poll_returns in E as (l & k & -> & ? & ? & ?). by exists l, k.
  - by apply poll_never_raises in E.
  - by destruct (H w1).
Qed.

Lemma _get_after_poll fuel url p output w w1 :
  poll fuel w = Return tt w1 ->
  _get fuel url p output w = send url p output w1.
Proof. intros H. rewrite _get_unfold. unfold bind. by rewrite H. Qed.

(** [send] never spins. *)
Lemma send_not_spin url p output w w' : send url p output w <> Spin w'.
Proof.
  rewrite send_eq. cbv zeta.
  destruct (server _ _) as [r|]; [|done].
  destruct (_ && _); [done|].
  destruct (String.eqb _ _); [|done].
  by destruct (json_loads _).
Qed.

(** Under an advancing clock [_get] gets through its loop, and does the same
    for every larger budget. *)
Lemma _get_converges url p output w :
  clock_advances ->
  (0 <= _rateLimit (self w))%Z ->
  exists fuel0 l k,
    (Z.of_nat (length l) <= _rateLimit (self w))%Z /\
    l `sublist_of` _requestsMade (self w) /\
    (tick w <= k)%nat /\
    forall fuel, (fuel0 <= fuel)%nat ->
      _get fuel url p output w = send url p output (after_check l k w).
Proof.
  intros Hadv HR.
  destruct (poll_converges w Hadv HR) as (fuel0 & l & k & ? & ? & ? & Hp).
  exists fuel0, l, k. do 3 (split; [done|]).
  intros fuel Hf. by apply _get_after_poll, Hp.
Qed.
(** ** Building the parameters of a call *)

Lemma dict_copy_eq p w :
  dict_copy p w = Return (fresh_loc w) (with_params (deref p w) w).
Proof. reflexivity. Qed.

Lemma deref_with_params d w : deref (fresh_loc w) (with_params d w) = d.
Proof.
  unfold deref, with_params, set_heap. cbn [heap].
  by rewrite lookup_insert_eq.
Qed.

Lemma dict_setitem_with_params key v d w :
  dict_setitem (fresh_loc w) key v (with_params d w)
  = Return tt (with_params (<[key := v]> d) w).
Proof.
  unfold dict_setitem. rewrite deref_with_params.
  unfold with_params, set_heap. cbn [heap self tick sent].
  by rewrite insert_insert_eq.
Qed.

Lemma with_params_self d w : self (with_params d w) = self w.
Proof. reflexivity. Qed.

Lemma with_params_sent d w : sent (with_params d w) = sent w.
Proof. reflexivity. Qed.

Lemma with_params_tick d w : tick (with_params d w) = tick w.
Proof. reflexivity. Qed.

Lemma request_of_with_params url output d l k w :
  request_of url (fresh_loc w) output (after_check l k (with_params d w))
  = mkRequest (BASE_URL +:+ url) (<["retmode" := PStr output]> d).
Proof.
  unfold request_of. by rewrite after_check_deref, deref_with_params.
Qed.

Lemma after_request_sent url p output w :
  sent (after_request url p output w) = sent w ++ [request_of url p output w].
Proof. reflexivity. Qed.

Lemma after_response_sent w : sent (after_response w) = sent w.
Proof. reflexivity. Qed.

(** [send] logs exactly one request, whatever comes of it. *)
Lemma send_sent url p output w :
  sent (world_of (send url p output w)) = sent w ++ [request_of url p output w].
Proof.
  rewrite send_eq. cbv zeta.
  destruct (server _ _) as [r|]; [|done].
  destruct (_ && _); [done|].
  destruct (String.eqb _ _); [|done].
  by destruct (json_loads _).
Qed.

(** ** [getTotalResultsCount] *)

Lemma getTotalResultsCount_eq fuel query w :
  getTotalResultsCount fuel query w =
  (do response <- _get fuel "/entrez/eutils/esearch.fcgi" (fresh_loc w) "json";
   read_count response)
    (with_params (<["retmax" := PInt 1]>
                    (<["term" := PStr query]> (deref (parameters (self w)) w))) w).
Proof.
  unfold getTotalResultsCount, bind. rewrite dict_copy_eq.
  by rewrite !dict_setitem_with_params.
Qed.

Lemma json_get_world j key dflt w :
  world_of (json_get j key dflt w) = w.
Proof. by destruct j. Qed.

Lemma int_world x w : world_of (int x w) = w.
Proof. destruct x; try done. simpl. by destruct (int_of_str s). Qed.

Lemma json_get_not_spin j key dflt w w' : json_get j key dflt w <> Spin w'.
Proof. by destruct j. Qed.

Lemma int_not_spin x w w' : int x w <> Spin w'.
Proof. destruct x; try done. simpl. by destruct (int_of_str s). Qed.

(** What follows [_get] in [getTotalResultsCount] only computes. *)
Lemma read_count_static (r : payload) w :
  world_of (read_count r w) = w /\ forall w', read_count r w <> Spin w'.
Proof.
  unfold read_count, bind. destruct r as [j|s]; simpl; [|done].
  destruct j; try done. simpl. unfold ret.
  destruct (default (JObj []) (last_member "esearchresult" members)); try done.
  simpl. unfold ret. split; [apply int_world | intros w'; apply int_not_spin].
Qed.

(** A method that is [_get] followed by a step that only computes sends what
    [_get] sends and spins only if [_get] does. *)
Lemma bind_static_tail {A B} (m : M A) (k : A -> M B) w :
  (forall a w1, world_of (k a w1) = w1 /\ forall w', k a w1 <> Spin w') ->
  world_of (bind m k w) = world_of (m w) /\
  ((forall w', m w <> Spin w') -> forall w', bind m k w <> Spin w').
Proof.
  intros Hk. unfold bind. destruct (m w) as [a w1|e w1|w1].
  - destruct (Hk a w1) as [H1 H2]. by split.
  - done.
  - split; [done|]. intros H. by destruct (H w1).
Qed.

(** C8. [getTotalResultsCount] sends exactly one request, the search with
    [retmax = 1] (JSON output) built on a copy of the template, and no fetch;
    it does not spin once the budget is large enough; and when the service
    answers with a success status and a JSON body whose [esearchresult]
    object has a [count] member, it returns [int] of that member, whatever
    else (an id list of any length) the body holds. *)
Theorem C8_getTotalResultsCount_one_search (query : string) (w : World) :
  clock_advances ->
  (0 <= _rateLimit (self w))%Z ->
  let req := count_request (deref (parameters (self w)) w) query in
  exists fuel0 : nat, forall fuel : nat, (fuel0 <= fuel)%nat ->
    sent (world_of (getTotalResultsCount fuel query w)) = sent w ++ [req] /\
    (forall w', getTotalResultsCount fuel query w <> Spin w') /\
    (forall response top result count n,
        server (sent w) req = Some response ->
        ((400 <=? status_code response) && (status_code response <? 600))%Z = false ->
        json_loads (text response) = Some (JObj top) ->
        last_member "esearchresult" top = Some (JObj result) ->
        last_member "count" result = Some count ->
        int count = ret n ->
        exists w', getTotalResultsCount fuel query w = Return n w').
Proof.
  intros Hadv HR req.
  set (items := <["retmax" := PInt 1]>
                  (<["term" := PStr query]> (deref (parameters (self w)) w))).
  destruct (_get_converges "/entrez/eutils/esearch.fcgi" (fresh_loc w) "json"
              (with_params items w) Hadv HR) as (fuel0 & l & k & _ & _ & _ & Hget).
  exists fuel0. intros fuel Hf.
  assert (Heq : getTotalResultsCount fuel query w =
                bind (send "/entrez/eutils/esearch.fcgi" (fresh_loc w) "json")
                  read_count (after_check l k (with_params items w))).
  { rewrite getTotalResultsCount_eq. fold items. unfold bind.
    by rewrite (Hget fuel Hf). }
  rewrite Heq. clear Heq.
  assert (Hreq : request_of "/entrez/eutils/esearch.fcgi" (fresh_loc w) "json"
                   (after_check l k (with_params items w)) = req)
    by apply request_of_with_params.
  destruct (bind_static_tail
              (send "/entrez/eutils/esearch.fcgi" (fresh_loc w) "json")
              read_count (after_check l k (with_params items w))
              read_count_static) as [Hworld Hspin].
  split; [|split].
  - rewrite Hworld, send_sent, Hreq. by rewrite after_check_sent.
  - apply Hspin. intros w'. apply send_not_spin.
  - intros response top result count n Hsrv Hok Hjson Htop Hcount Hint.
    unfold bind at 1.
    rewrite send_eq. cbv zeta. rewrite Hreq, after_check_sent, with_params_sent.
    rewrite Hsrv, Hok. cbn [String.eqb Ascii.eqb Bool.eqb].
    rewrite Hjson. unfold read_count, bind, ret. cbn [payload_get json_get]. unfold ret.
    rewrite Htop. cbn [default from_option json_get id]. unfold ret.
    rewrite Hcount. cbn [default from_option id]. rewrite Hint. by eexists.
Qed.

(** ** The template is never written to *)

Section Frame.

Variable p0 : loc.
Variable d0 : gmap string pyval.

Lemma keeps_bind {A B} (m : M A) (k : A -> M B) (mid : A -> Prop) (post : B -> Prop) :
  keeps p0 d0 m mid ->
  (forall a, mid a -> keeps p0 d0 (k a) post) ->
  keeps p0 d0 (bind m k) post.
Proof.
  intros Hm Hk w Hw. destruct (Hm w Hw) as [Hw1 Ha]. unfold bind.
  destruct (m w) as [a w1|e w1|w1] eqn:E; simpl in Hw1.
  - apply (Hk a); [by apply (Ha a w1) | done].
  - split; [done | intros ? ? [=]].
  - split; [done | intros ? ? [=]].
Qed.

Lemma keeps_weaken {A} (m : M A) (post post' : A -> Prop) :
  keeps p0 d0 m post -> (forall a, post a -> post' a) -> keeps p0 d0 m post'.
Proof.
  intros Hm Himp w Hw. destruct (Hm w Hw) as [Hw1 Ha].
  split; [done|]. intros a w' E. eauto.
Qed.

Lemma keeps_ret {A} (a : A) (post : A -> Prop) : post a -> keeps p0 d0 (ret a) post.
Proof. intros H w Hw. split; [done|]. by intros ? ? [= <- <-]. Qed.

Lemma keeps_raise {A} (e : exn) (post : A -> Prop) : keeps p0 d0 (raise e) post.
Proof. intros w Hw. split; [done | intros ? ? [=]]. Qed.

(** A step that returns at once and leaves the heap, the reference and the
    ceiling alone. *)
Lemma keeps_pure {A} (f : World -> A) (g : World -> World) (post : A -> Prop) :
  (forall w, template_kept p0 d0 w -> template_kept p0 d0 (g w) /\ post (f w)) ->
  keeps p0 d0 (fun w => Return (f w) (g w)) post.
Proof.
  intros H w Hw. destruct (H w Hw) as [H1 H2].
  split; [done|]. by intros ? ? [= <- <-].
Qed.

Lemma keeps_dict_copy p : keeps p0 d0 (dict_copy p) (fun l => l <> p0).
Proof.
  intros w (Hp & Hh & HR).
  assert (Hne : fresh (dom (heap w)) <> p0).
  { intros Heq. apply (is_fresh (dom (heap w))). rewrite Heq.
    apply elem_of_dom. by exists d0. }
  split.
  - unfold template_kept, dict_copy, set_heap. cbn [world_of self heap].
    split; [done|]. split; [|done]. by rewrite lookup_insert_ne.
  - unfold dict_copy. by intros ? ? [= <- <-].
Qed.

Lemma keeps_dict_setitem l key v :
  l <> p0 -> keeps p0 d0 (dict_setitem l key v) (fun _ => True).
Proof.
  intros Hne w (Hp & Hh & HR). split; [|done].
  unfold template_kept, dict_setitem, set_heap. cbn [world_of self heap].
  split; [done|]. split; [|done]. by rewrite lookup_insert_ne.
Qed.

Lemma template_kept_after_check l k w :
  template_kept p0 d0 w -> template_kept p0 d0 (after_check l k w).
Proof.
  intros (Hp & Hh & HR). unfold template_kept.
  by rewrite after_check_parameters, after_check_heap, after_check_rateLimit.
Qed.

(** However the loop ends, it has only checked. *)
Lemma poll_world fuel : forall w,
  exists l k, world_of (poll fuel w) = after_check l k w.
Proof.
  induction fuel as [|fuel IH]; intros w; simpl.
  - exists (_requestsMade (self w)), (tick w). by destruct w as [[] ? ? ?].
  - unfold bind. rewrite _exceededRateLimit_eq. cbv zeta.
    destruct (_ >? _)%Z.
    + destruct (IH (after_check (recent (tick w) (_requestsMade (self w)))
                      (tick w + length (_requestsMade (self w))) w)) as (l & k & ->).
      exists l, k. apply after_check_twice.
    + by eexists _, _.
Qed.

Lemma keeps_poll fuel : keeps p0 d0 (poll fuel) (fun _ => True).
Proof.
  intros w Hw. split; [|done].
  destruct (poll_world fuel w) as (l & k & ->).
  by apply template_kept_after_check.
Qed.

Lemma template_kept_after_request url l output w :
  l <> p0 -> template_kept p0 d0 w ->
  template_kept p0 d0 (after_request url l output w).
Proof.
  intros Hne (Hp & Hh & HR). unfold template_kept, after_request, set_sent, set_heap.
  cbn [self heap]. split; [done|]. split; [|done]. by rewrite lookup_insert_ne.
Qed.

Lemma template_kept_after_response w :
  template_kept p0 d0 w -> template_kept p0 d0 (after_response w).
Proof. intros (Hp & Hh & HR). by destruct w as [[] ? ? ?]. Qed.

Lemma keeps_send url l output :
  l <> p0 -> keeps p0 d0 (send url l output) (fun _ => True).
Proof.
  intros Hne w Hw. split; [|done]. rewrite send_eq. cbv zeta.
  pose proof (template_kept_after_request url l output w Hne Hw) as H1.
  pose proof (template_kept_after_response _ H1) as H2.
  destruct (server _ _) as [r|]; [|done].
  destruct (_ && _); [done|].
  destruct (String.eqb _ _); [|done].
  by destruct (json_loads _).
Qed.

Lemma keeps__get fuel url l output :
  l <> p0 -> keeps p0 d0 (_get fuel url l output) (fun _ => True).
Proof.
  intros Hne. rewrite _get_unfold.
  eapply keeps_bind; [apply keeps_poll|]. intros _ _. by apply keeps_send.
Qed.

(** A step that only computes: it returns or raises in the world it got. *)
Lemma keeps_static {A} (m : M A) :
  (forall w, world_of (m w) = w) -> keeps p0 d0 m (fun _ => True).
Proof. intros H w Hw. split; [by rewrite H | done]. Qed.

Lemma getitem_static d key w : world_of (getitem d key w) = w.
Proof. unfold getitem. by destruct (d !! key). Qed.

Lemma encode_static r w : world_of (encode r w) = w.
Proof. by destruct r. Qed.

Lemma fromstring_static s w : world_of (fromstring s w) = w.
Proof. unfold fromstring. by destruct (xml_fromstring s). Qed.

Lemma fromstring_str_static s w : world_of (fromstring_str s w) = w.
Proof.
  unfold fromstring_str. destruct (encoding_declared s); [done|].
  by destruct (xml_fromstring_str s).
Qed.

Lemma first_static {A} (l : list A) w : world_of (first l w) = w.
Proof. by destruct l. Qed.

Lemma payload_get_static r key dflt w : world_of (payload_get r key dflt w) = w.
Proof. destruct r; [apply json_get_world | done]. Qed.

Lemma keeps_copy_template :
  keeps p0 d0 (fun w => dict_copy (parameters (self w)) w) (fun l => l <> p0).
Proof. intros w Hw. by apply keeps_dict_copy. Qed.

Ltac keeps_step :=
  lazymatch goal with
  | |- keeps _ _ (bind (fun w => dict_copy _ w) _) _ =>
      eapply keeps_bind; [apply keeps_copy_template | intros ? ?]
  | |- keeps _ _ (bind (dict_setitem _ _ _) _) _ =>
      eapply keeps_bind; [by apply keeps_dict_setitem | intros _ _]
  | |- keeps _ _ (bind (_get _ _ _ _) _) _ =>
      eapply keeps_bind; [by apply keeps__get | intros ? _]
  | |- keeps _ _ (bind (getitem _ _) _) _ =>
      eapply keeps_bind; [apply keeps_static, getitem_static | intros ? _]
  | |- keeps _ _ (bind (encode _) _) _ =>
      eapply keeps_bind; [apply keeps_static, encode_static | intros ? _]
  | |- keeps _ _ (bind (fromstring _) _) _ =>
      eapply keeps_bind; [apply keeps_static, fromstring_static | intros ? _]
  | |- keeps _ _ (bind (first _) _) _ =>
      eapply keeps_bind; [apply keeps_static, first_static | intros ? _]
  | |- keeps _ _ (bind (payload_get _ _ _) _) _ =>
      eapply keeps_bind; [apply keeps_static, payload_get_static | intros ? _]
  | |- keeps _ _ (bind (json_get _ _ _) _) _ =>
      eapply keeps_bind; [apply keeps_static, json_get_world | intros ? _]
  | |- keeps _ _ (ret _) _ => by apply keeps_ret
  | |- keeps _ _ (raise _) _ => apply keeps_raise
  end.

Lemma keeps_getTotalResultsCount fuel query :
  keeps p0 d0 (getTotalResultsCount fuel query) (fun _ => True).
Proof.
  unfold getTotalResultsCount. repeat keeps_step.
  apply keeps_static, int_world.
Qed.

Lemma keeps__getPubMedData fuel query max_results :
  keeps p0 d0 (_getPubMedData fuel query max_results) (fun _ => True).
Proof. unfold _getPubMedData. repeat keeps_step. Qed.

Lemma keeps__getArticlesEnv_body fuel qd start end_ :
  keeps p0 d0 (_getArticlesEnv_body fuel qd start end_) (fun _ => True).
Proof.
  unfold _getArticlesEnv_body. repeat keeps_step.
  eapply keeps_bind; [|intros ? _; keeps_step].
  apply keeps_static. intros w.
  match goal with |- context [match ?r with PJson _ => _ | PText _ => _ end] =>
    destruct r; [done | apply fromstring_str_static] end.
Qed.

Lemma keeps_drain fuel g : keeps p0 d0 (drain fuel g) (fun _ => True).
Proof.
  unfold drain. destruct (gen_exhausted g); [keeps_step|].
  apply keeps__getArticlesEnv_body.
Qed.

Lemma template_kept_set_query_data d w :
  template_kept p0 d0 w -> template_kept p0 d0 (set_query_data d w).
Proof. by intros (Hp & Hh & HR). Qed.

Lemma template_kept_set_articles a w :
  template_kept p0 d0 w -> template_kept p0 d0 (set_articles a w).
Proof. by intros (Hp & Hh & HR). Qed.

Lemma keeps_chain_from_iterable fuel windows :
  keeps p0 d0 (chain_from_iterable fuel windows) (fun _ => True).
Proof.
  induction windows as [|[start end_] rest IH]; simpl; [keeps_step|].
  eapply keeps_bind; [by apply keeps_pure with (post := fun _ => True)|].
  intros qd _.
  eapply keeps_bind; [apply keeps_drain|]. intros records _.
  eapply keeps_bind; [apply IH|]. intros more _. keeps_step.
Qed.

Lemma keeps_query fuel q max_results :
  keeps p0 d0 (query fuel q max_results) (fun _ => True).
Proof.
  unfold query.
  eapply keeps_bind; [apply keeps__getPubMedData|]. intros qd _.
  eapply keeps_bind.
  { apply keeps_pure with (post := fun _ => True).
    intros w Hw. split; [by apply template_kept_set_query_data | done]. }
  intros _ _.
  eapply keeps_bind with (mid := fun _ => True).
  { destruct (max_results >? 10000)%Z.
    - eapply keeps_bind; [apply keeps_chain_from_iterable|]. intros records _.
      apply keeps_pure with (post := fun _ => True).
      intros w Hw. split; [by apply template_kept_set_articles | done].
    - eapply keeps_bind; [by apply keeps_pure with (post := fun _ => True)|].
      intros qd' _.
      apply keeps_pure with (post := fun _ => True).
      intros w Hw. split; [by apply template_kept_set_articles | done]. }
  intros _ _ w Hw. split; [|done].
  by destruct (articles (self w)).
Qed.

Lemma keeps_iterate_articles fuel :
  keeps p0 d0 (iterate_articles fuel) (fun _ => True).
Proof.
  intros w Hw. split; [|done]. unfold iterate_articles.
  destruct (articles (self w)) as [[records|g]|]; [done| |done].
  apply keeps_drain. by apply template_kept_set_articles.
Qed.

Lemma forget_world {A} (r : outcome A) : world_of (forget r) = world_of r.
Proof. by destruct r. Qed.

Lemma keeps_run_call fuel c : keeps p0 d0 (run_call fuel c) (fun _ => True).
Proof.
  intros w Hw. split; [|done]. unfold run_call.
  destruct c; rewrite forget_world.
  - by apply keeps_query.
  - by apply keeps_iterate_articles.
  - by apply keeps_getTotalResultsCount.
Qed.

Lemma keeps_run_calls fuel cs : keeps p0 d0 (run_calls fuel cs) (fun _ => True).
Proof.
  induction cs as [|c rest IH]; simpl; [keeps_step|].
  eapply keeps_bind; [apply keeps_run_call|]. intros _ _. apply IH.
Qed.

End Frame.

Lemma template_kept_init tool email api_key :
  let w0 := __init__ tool email api_key in
  template_kept (parameters (self w0)) (template tool email api_key) w0.
Proof.
  unfold template_kept, __init__. cbn [self heap parameters _rateLimit].
  split; [done|]. split; [|done]. apply lookup_insert_eq.
Qed.

(** C9. Whatever calls of [query], of iterating over its result and of
    [getTotalResultsCount] a caller makes on a new client, and however each of
    them ends (returning, raising, or still polling), the attribute
    [parameters] refers to the same dictionary object and that dictionary
    holds exactly the items the constructor gave it: every call works on a
    copy. *)
Theorem C9_template_never_modified
  (tool email : string) (api_key : option string) (fuel : nat) (cs : list call) :
  let w0 := __init__ tool email api_key in
  let w := world_of (run_calls fuel cs w0) in
  parameters (self w) = parameters (self w0) /\
  heap w !! parameters (self w0) = Some (template tool email api_key) /\
  deref (parameters (self w)) w = template tool email api_key.
Proof.
  intros w0 w.
  destruct (keeps_run_calls (parameters (self w0)) (template tool email api_key)
              fuel cs w0 (template_kept_init tool email api_key))
    as [(Hp & Hh & _) _].
  fold w in Hp, Hh. split; [done|]. split; [done|].
  unfold deref. by rewrite Hp, Hh.
Qed.

(** C10. A call of [_get] that ends with the [HTTPError] of the status check
    (raised for the 4xx and 5xx codes) got through the polling loop, sent its
    request, and left as the timestamp list exactly what the last rate check
    kept of the list it found: no timestamp was appended, and the clock was
    not read for one. *)
Theorem C10_failed_request_not_recorded
  (fuel : nat) (url : string) (p : loc) (output : string) (w w' : World) (status : Z) :
  _get fuel url p output w = Raise (HTTPError status) w' ->
  exists l k,
    poll fuel w = Return tt (after_check l k w) /\
    l `sublist_of` _requestsMade (self w) /\
    _requestsMade (self w') = l /\
    tick w' = k /\
    sent w' = sent w ++ [request_of url p output (after_check l k w)].
Proof.
  intros H.
  destruct (_get_polled fuel url p output w) as (l & k & Hpoll & _ & Hsub & _ & Hget).
  { intros w1. by rewrite H. }
  exists l, k. split; [done|]. split; [done|].
  rewrite Hget, send_eq in H. cbv zeta in H.
  destruct (server _ _) as [r|]; [|done].
  destruct (_ && _).
  - injection H as _ <-.
    by rewrite <- (after_check_requestsMade l k w), <- (after_check_tick l k w).
  - destruct (String.eqb _ _); [|done]. by destruct (json_loads _).
Qed.

(** The other side of C10: when the status check passes, the reading of the
    clock taken next is appended. *)
Lemma _get_success_recorded fuel url p output w w' a :
  _get fuel url p output w = Return a w' ->
  exists l k,
    poll fuel w = Return tt (after_check l k w) /\
    _requestsMade (self w') = l ++ [clock k].
Proof.
  intros H.
  destruct (_get_polled fuel url p output w) as (l & k & Hpoll & _ & _ & _ & Hget).
  { intros w1. by rewrite H. }
  exists l, k. split; [done|].
  rewrite Hget, send_eq in H. cbv zeta in H.
  assert (Hgoal : _requestsMade (self (after_response
            (after_request url p output (after_check l k w)))) = l ++ [clock k]).
  { unfold after_response, set_requestsMade. cbn [self _requestsMade].
    unfold after_request, set_sent, set_heap, set_tick. cbn [self tick].
    by rewrite after_check_requestsMade, after_check_tick. }
  destruct (server _ _) as [r|]; [|done].
  destruct (_ && _); [done|].
  destruct (String.eqb _ _).
  - destruct (json_loads _); [|done]. by injection H as _ <-.
  - by injection H as _ <-.
Qed.

(** ** The admission rule of the rate limiter *)

(** The admission rule as the code has it. With the ceiling 3: a check that
    keeps more than 3 timestamps younger than a second does not hand control
    back, the loop goes round again; a check that keeps at most 3 hands
    control back at once; the loop hands control back only with at most 3
    timestamps, all of them from the list it was entered with; entered with
    more than 3 timestamps it hands control back only after a clock reading
    at least one second later than the oldest of them; and under an
    advancing clock it does hand control back. *)
Theorem rate_limiter_admission (w : World) :
  _rateLimit (self w) = 3%Z ->
  let kept := recent (tick w) (_requestsMade (self w)) in
  let w1 := after_check kept (tick w + length (_requestsMade (self w))) w in
  ((3 < length kept)%nat ->
     poll 1 w = Spin w1 /\ forall fuel, poll (S fuel) w = poll fuel w1) /\
  ((length kept <= 3)%nat -> forall fuel, poll (S fuel) w = Return tt w1) /\
  (forall fuel w', poll fuel w = Return tt w' ->
     (length (_requestsMade (self w')) <= 3)%nat /\
     _requestsMade (self w') `sublist_of` _requestsMade (self w)) /\
  (forall fuel w' oldest,
     (3 < length (_requestsMade (self w)))%nat ->
     (forall t, t ∈ _requestsMade (self w) -> (oldest <= t)%Z) ->
     poll fuel w = Return tt w' ->
     exists k : nat, (tick w <= k < tick w')%nat /\ (oldest + second <= clock k)%Z) /\
  (clock_advances ->
     exists fuel0 w', forall fuel, (fuel0 <= fuel)%nat -> poll fuel w = Return tt w').
Proof.
  intros HR kept w1. repeat split.
  - rewrite poll_exceeded; [done|]. fold kept. lia.
  - intros fuel. apply poll_exceeded. fold kept. lia.
  - intros Hk fuel. apply poll_within. fold kept. lia.
  - apply poll_returns in H as (l & k & -> & Hlen & _ & _).
    rewrite after_check_requestsMade. lia.
  - apply poll_returns in H as (l & k & -> & _ & Hsub & _).
    by rewrite after_check_requestsMade.
  - intros fuel w' oldest Hlen Hold H.
    apply (poll_waits fuel w w' oldest); [lia | done | done].
  - intros Hadv.
    destruct (poll_converges w Hadv) as (fuel0 & l & k & _ & _ & _ & H); [lia|].
    by exists fuel0, (after_check l k w).
Qed.

(** ** The session search *)

Lemma _getPubMedData_eq fuel q max_results w :
  _getPubMedData fuel q max_results w =
  (do r <- _get fuel "/entrez/eutils/esearch.fcgi" (fresh_loc w) "xml";
   read_session r)
    (with_params (<["retmax" := PInt max_results]>
                    (<["usehistory" := PStr "y"]>
                       (<["term" := PStr q]> (deref (parameters (self w)) w)))) w).
Proof.
  unfold _getPubMedData, bind. rewrite dict_copy_eq.
  by rewrite !dict_setitem_with_params.
Qed.

(** What follows [_get] in [_getPubMedData] only computes. *)
Lemma read_session_static (r : payload) w :
  world_of (read_session r w) = w /\ forall w', read_session r w <> Spin w'.
Proof.
  unfold read_session, bind. destruct r as [j|s]; [done|]. simpl.
  unfold fromstring. destruct (xml_fromstring s) as [root|]; [|done]. simpl.
  destruct (xpath_descendants "QueryKey" root); [done|]. simpl.
  by destruct (xpath_descendants "WebEnv" root).
Qed.

Lemma read_session_text s w :
  read_session (PText s) w =
  match xml_fromstring s with
  | None => Raise XMLSyntaxError w
  | Some root =>
      match xpath_descendants "QueryKey" root, xpath_descendants "WebEnv" root with
      | qk :: _, we :: _ =>
          Return (<["WebEnv" := text_val we]> (<["query_key" := text_val qk]> ∅)) w
      | _, _ => Raise IndexError w
      end
  end.
Proof.
  unfold read_session, bind, fromstring. simpl.
  destruct (xml_fromstring s) as [root|]; [|done]. simpl.
  destruct (xpath_descendants "QueryKey" root); [done|]. simpl.
  by destruct (xpath_descendants "WebEnv" root).
Qed.

(** ** A request on a fresh copy of the parameters *)

(** The shape shared by the three methods that talk to the service: the
    items [d] sit in a new dictionary, [_get] is called on it, and [read]
    only computes on what comes back. Exactly one request goes out, it
    carries [d] and the [retmode], and the method does not spin. *)
Lemma get_then_read {B} (url output : string) (read : payload -> M B)
  (d : gmap string pyval) (w : World) :
  clock_advances ->
  (0 <= _rateLimit (self w))%Z ->
  (forall r w1, world_of (read r w1) = w1 /\ forall w', read r w1 <> Spin w') ->
  exists fuel0 l k,
    forall fuel, (fuel0 <= fuel)%nat ->
      let run := bind (_get fuel url (fresh_loc w) output) read (with_params d w) in
      run = bind (send url (fresh_loc w) output) read
              (after_check l k (with_params d w)) /\
      sent (world_of run)
      = sent w ++ [mkRequest (BASE_URL +:+ url) (<["retmode" := PStr output]> d)] /\
      (forall w', run <> Spin w').
Proof.
  intros Hadv HR Hread.
  destruct (_get_converges url (fresh_loc w) output (with_params d w) Hadv HR)
    as (fuel0 & l & k & _ & _ & _ & Hget).
  exists fuel0, l, k. intros fuel Hf run.
  assert (Heq : run = bind (send url (fresh_loc w) output) read
                        (after_check l k (with_params d w))).
  { subst run. unfold bind. by rewrite (Hget fuel Hf). }
  split; [done|]. rewrite Heq.
  destruct (bind_static_tail (send url (fresh_loc w) output) read
              (after_check l k (with_params d w)) Hread) as [Hworld Hspin].
  split.
  - rewrite Hworld, send_sent, request_of_with_params. by rewrite after_check_sent.
  - apply Hspin. intros w'. apply send_not_spin.
Qed.

(** The same request when the service answers it with a status that passes
    the check, for an output other than JSON: [send] returns the body. *)
Lemma send_text_ok url output d l k w response :
  String.eqb output "json" = false ->
  server (sent w) (mkRequest (BASE_URL +:+ url) (<["retmode" := PStr output]> d))
  = Some response ->
  ((400 <=? status_code response) && (status_code response <? 600))%Z = false ->
  send url (fresh_loc w) output (after_check l k (with_params d w))
  = Return (PText (text response))
      (after_response (after_request url (fresh_loc w) output
                         (after_check l k (with_params d w)))).
Proof.
  intros Hout Hsrv Hok. rewrite send_eq. cbv zeta.
  rewrite request_of_with_params, after_check_sent, with_params_sent.
  by rewrite Hsrv, Hok, Hout.
Qed.

(** C7 (amended). [_getPubMedData] sends exactly one request, the search
    with [usehistory = "y"], [retmax = max_results] and XML output on a copy
    of the template, and does not spin. When the service answers with a
    status that passes the check and a body that parses, the method returns
    under [query_key] and [WebEnv] the text of the first [QueryKey] element
    and of the first [WebEnv] element when both exist, and when either is
    absent it raises Python's [IndexError], from indexing an empty list, and
    nothing else. *)
Theorem C7_session_establishment (q : string) (max_results : Z) (w : World) :
  clock_advances ->
  (0 <= _rateLimit (self w))%Z ->
  let req := search_request (deref (parameters (self w)) w) q max_results in
  exists fuel0 : nat, forall fuel : nat, (fuel0 <= fuel)%nat ->
    let run := _getPubMedData fuel q max_results w in
    sent (world_of run) = sent w ++ [req] /\
    (forall w', run <> Spin w') /\
    (forall response root,
        server (sent w) req = Some response ->
        ((400 <=? status_code response) && (status_code response <? 600))%Z = false ->
        xml_fromstring (text response) = Some root ->
        let token := fun e : Element =>
                       match text_of e with
                       | Some s => PStr s
                       | None => PNone
                       end in
        (forall qk rest1 we rest2,
            xpath_descendants "QueryKey" root = qk :: rest1 ->
            xpath_descendants "WebEnv" root = we :: rest2 ->
            exists qd w',
              run = Return qd w' /\
              qd !! "query_key" = Some (token qk) /\
              qd !! "WebEnv" = Some (token we) /\
              dom qd = {["query_key"; "WebEnv"]}) /\
        (xpath_descendants "QueryKey" root = [] \/
         xpath_descendants "WebEnv" root = [] ->
         exists w', run = Raise IndexError w')).
Proof.
  intros Hadv HR req.
  set (d := <["retmax" := PInt max_results]>
              (<["usehistory" := PStr "y"]>
                 (<["term" := PStr q]> (deref (parameters (self w)) w)))).
  destruct (get_then_read "/entrez/eutils/esearch.fcgi" "xml" read_session d w
              Hadv HR read_session_static) as (fuel0 & l & k & H).
  exists fuel0. intros fuel Hf run.
  destruct (H fuel Hf) as (Heq & Hsent & Hspin). cbv zeta in *.
  assert (Hrun : run = bind (_get fuel "/entrez/eutils/esearch.fcgi" (fresh_loc w) "xml")
                         read_session (with_params d w)).
  { subst run. by rewrite _getPubMedData_eq. }
  rewrite Hrun. split; [done|]. split; [done|].
  intros response root Hsrv Hok Hxml. rewrite Heq.
  assert (Hrs : bind (send "/entrez/eutils/esearch.fcgi" (fresh_loc w) "xml")
                  read_session (after_check l k (with_params d w))
                = read_session (PText (text response))
                    (after_response
                       (after_request "/entrez/eutils/esearch.fcgi" (fresh_loc w) "xml"
                          (after_check l k (with_params d w))))).
  { unfold bind.
    by rewrite (send_text_ok "/entrez/eutils/esearch.fcgi" "xml" d l k w response
                  eq_refl Hsrv Hok). }
  rewrite Hrs, read_session_text, Hxml. cbv zeta.
  split.
  - intros qk rest1 we rest2 Hqk Hwe. rewrite Hqk, Hwe.
    eexists _, _. split; [done|]. split; [|split].
    + rewrite lookup_insert_ne by done. by rewrite lookup_insert_eq.
    + by rewrite lookup_insert_eq.
    + rewrite !dom_insert_L, dom_empty_L. set_solver.
  - intros [Hqk|Hwe].
    + rewrite Hqk. by eexists.
    + rewrite Hwe. destruct (xpath_descendants "QueryKey" root); by eexists.
Qed.

(** The session search settles: from some budget on it ends the same way,
    having sent the one search request; what it returns has both tokens. *)
Lemma _getPubMedData_converges q max_results w :
  clock_advances ->
  (0 <= _rateLimit (self w))%Z ->
  exists fuel0 r,
    (forall fuel, (fuel0 <= fuel)%nat -> _getPubMedData fuel q max_results w = r) /\
    sent (world_of r)
    = sent w ++ [search_request (deref (parameters (self w)) w) q max_results] /\
    (forall w', r <> Spin w') /\
    (forall qd w1, r = Return qd w1 ->
       is_Some (qd !! "query_key") /\ is_Some (qd !! "WebEnv")).
Proof.
  intros Hadv HR.
  set (d := <["retmax" := PInt max_results]>
              (<["usehistory" := PStr "y"]>
                 (<["term" := PStr q]> (deref (parameters (self w)) w)))).
  destruct (get_then_read "/entrez/eutils/esearch.fcgi" "xml" read_session d w
              Hadv HR read_session_static) as (fuel0 & l & k & H).
  exists fuel0, (bind (send "/entrez/eutils/esearch.fcgi" (fresh_loc w) "xml")
                   read_session (after_check l k (with_params d w))).
  pose proof (H fuel0 (le_n _)) as (Heq0 & Hsent0 & Hspin0). cbv zeta in *.
  split; [|split; [|split]].
  - intros fuel Hf. rewrite _getPubMedData_eq. by apply (H fuel Hf).
  - by rewrite <- Heq0.
  - by rewrite <- Heq0.
  - intros qd w1. unfold bind.
    destruct (send _ _ _ _) as [[j|s] w2|e w2|w2]; try done.
    rewrite read_session_text.
    destruct (xml_fromstring s) as [root|]; [|done].
    destruct (xpath_descendants "QueryKey" root) as [|qk ?]; [done|].
    destruct (xpath_descendants "WebEnv" root) as [|we ?]; [done|].
    intros [= <- <-]. split; eexists.
    + rewrite lookup_insert_ne; [apply lookup_insert_eq | done].
    + apply lookup_insert_eq.
Qed.

(** ** The windowed fetch *)

Lemma _getArticlesEnv_body_eq fuel qd start end_ qk we w :
  qd !! "query_key" = Some qk ->
  qd !! "WebEnv" = Some we ->
  _getArticlesEnv_body fuel qd start end_ w =
  bind (_get fuel "/entrez/eutils/efetch.fcgi" (fresh_loc w) "xml") read_records
    (with_params
       (<["retstart" := PInt start]>
          (<["retmax" := PInt end_]>
             (<["WebEnv" := we]>
                (<["query_key" := qk]> (deref (parameters (self w)) w))))) w).
Proof.
  intros Hqk Hwe. unfold _getArticlesEnv_body, bind, getitem.
  rewrite dict_copy_eq, Hqk. unfold ret at 1.
  rewrite dict_setitem_with_params, Hwe. unfold ret at 1.
  by rewrite !dict_setitem_with_params.
Qed.

Lemma read_records_static (r : payload) w :
  world_of (read_records r w) = w /\ forall w', read_records r w <> Spin w'.
Proof.
  unfold read_records, bind. destruct r as [j|s]; [done|].
  unfold fromstring_str. destruct (encoding_declared s); [done|].
  by destruct (xml_fromstring_str s).
Qed.

(** The fetch settles: from some budget on it ends the same way, having sent
    the one fetch request; and when the service answers with a status that
    passes the check and a body that carries no encoding declaration and
    parses, it yields the records of that body. *)
Lemma _getArticlesEnv_body_converges qd start end_ qk we w :
  clock_advances ->
  (0 <= _rateLimit (self w))%Z ->
  qd !! "query_key" = Some qk ->
  qd !! "WebEnv" = Some we ->
  let req := fetch_request (deref (parameters (self w)) w) qk we start end_ in
  exists fuel0 r,
    (forall fuel, (fuel0 <= fuel)%nat ->
       _getArticlesEnv_body fuel qd start end_ w = r) /\
    sent (world_of r) = sent w ++ [req] /\
    (forall w', r <> Spin w') /\
    (forall response root,
       server (sent w) req = Some response ->
       ((400 <=? status_code response) && (status_code response <? 600))%Z = false ->
       encoding_declared (text response) = false ->
       xml_fromstring_str (text response) = Some root ->
       exists w', r = Return (yield_records root) w') /\
    (forall response,
       server (sent w) req = Some response ->
       ((400 <=? status_code response) && (status_code response <? 600))%Z = false ->
       encoding_declared (text response) = true ->
       exists w', r = Raise ValueError w').
Proof.
  intros Hadv HR Hqk Hwe req.
  set (d := <["retstart" := PInt start]>
              (<["retmax" := PInt end_]>
                 (<["WebEnv" := we]>
                    (<["query_key" := qk]> (deref (parameters (self w)) w))))).
  destruct (get_then_read "/entrez/eutils/efetch.fcgi" "xml" read_records d w
              Hadv HR read_records_static) as (fuel0 & l & k & H).
  exists fuel0, (bind (send "/entrez/eutils/efetch.fcgi" (fresh_loc w) "xml")
                   read_records (after_check l k (with_params d w))).
  pose proof (H fuel0 (le_n _)) as (Heq0 & Hsent0 & Hspin0). cbv zeta in *.
  split; [|split; [|split; [|split]]].
  - intros fuel Hf. rewrite (_getArticlesEnv_body_eq _ _ _ _ qk we) by done.
    by apply (H fuel Hf).
  - by rewrite <- Heq0.
  - by rewrite <- Heq0.
  - intros response root Hsrv Hok Hdecl Hxml. unfold bind.
    rewrite (send_text_ok "/entrez/eutils/efetch.fcgi" "xml" d l k w response
               eq_refl Hsrv Hok).
    unfold read_records, bind, fromstring_str. rewrite Hdecl, Hxml. by eexists.
  - intros response Hsrv Hok Hdecl. unfold bind.
    rewrite (send_text_ok "/entrez/eutils/efetch.fcgi" "xml" d l k w response
               eq_refl Hsrv Hok).
    unfold read_records, bind, fromstring_str. rewrite Hdecl. by eexists.
Qed.

(** ** [query] *)

(** At most 10,000 results: once the session is there, [query] only makes
    the generator of the single window [(0, max_results)] and returns it. *)
Lemma query_small_eq fuel q max_results w :
  (max_results <= 10000)%Z ->
  query fuel q max_results w =
  match _getPubMedData fuel q max_results w with
  | Return qd w1 =>
      Return (inr (_getArticlesEnv qd 0 max_results))
        (set_articles (inr (_getArticlesEnv qd 0 max_results)) (set_query_data qd w1))
  | Raise e w1 => Raise e w1
  | Spin w1 => Spin w1
  end.
Proof.
  intros Hle. unfold query, bind.
  replace (max_results >? 10000)%Z with false by lia.
  destruct (_getPubMedData fuel q max_results w) as [qd w1|e w1|w1]; [|done..].
  by destruct w1 as [[] ? ? ?].
Qed.

(** Iterating over that generator runs the body of [_getArticlesEnv] once. *)
Lemma iterate_fresh_generator fuel qd start end_ w :
  iterate_articles fuel (set_articles (inr (_getArticlesEnv qd start end_)) w)
  = _getArticlesEnv_body fuel qd start end_
      (set_articles (inr (mkGenerator qd start end_ true)) w).
Proof. by destruct w as [[] ? ? ?]. Qed.


(** ** The order of the records of one window *)

Lemma for_yield_app decode nodes : forall yielded,
  for_yield decode nodes yielded = yielded ++ map decode nodes.
Proof.
  induction nodes as [|node rest IH]; intros yielded; simpl.
  - by rewrite app_nil_r.
  - by rewrite IH, <- app_assoc.
Qed.

(** C6. The records yielded for a parsed response are the article records,
    one per [PubmedArticle] node in document order, followed by the book
    records, one per [PubmedBookArticle] node in document order; so every
    article record comes before every book record, wherever the nodes stand
    in the document. *)
Theorem C6_articles_before_books (root : Element) :
  let article_nodes :=
    filter (fun e => tag_of e = "PubmedArticle") (document_order root) in
  let book_nodes :=
    filter (fun e => tag_of e = "PubmedBookArticle") (document_order root) in
  yield_records root
  = map PubMedArticle article_nodes ++ map PubMedBookArticle book_nodes /\
  forall (i j : nat) (b a : Element),
    yield_records root !! i = Some (PubMedBookArticle b) ->
    yield_records root !! j = Some (PubMedArticle a) ->
    (j < i)%nat.
Proof.
  intros article_nodes book_nodes.
  assert (Heq : yield_records root
                = map PubMedArticle article_nodes ++ map PubMedBookArticle book_nodes).
  { unfold yield_records. by rewrite !for_yield_app. }
  split; [done|]. rewrite Heq. intros i j b a Hi Hj.
  assert (Hlen : (length (map PubMedArticle article_nodes) <= i)%nat).
  { destruct (le_lt_dec (length (map PubMedArticle article_nodes)) i) as [|Hlt]; [done|].
    rewrite lookup_app_l in Hi by done.
    apply list_lookup_fmap_Some in Hi as (? & ? & ?). done. }
  destruct (le_lt_dec (length (map PubMedArticle article_nodes)) j) as [Hge|Hlt]; [|lia].
  rewrite lookup_app_r in Hj by done.
  apply list_lookup_fmap_Some in Hj as (? & ? & ?). done.
Qed.

(** ** What every call preserves

    The three methods that talk to the service share one effect on the
    world: a copy of the template is made and extended, and [_get] runs on
    it. A property of worlds that survives that step, the bare copy, and the
    two attribute assignments of [query] therefore survives every call. *)

Lemma agrees_refl d : agrees d d.
Proof. by intros key _. Qed.

Lemma agrees_insert d d' key v :
  key ∉ template_keys -> agrees d d' -> agrees d (<[key := v]> d').
Proof.
  intros Hkey H k Hk. rewrite lookup_insert_ne; [by apply H|].
  intros ->. by apply Hkey.
Qed.

Lemma getTotalResultsCount_world fuel q w :
  world_of (getTotalResultsCount fuel q w)
  = world_of (_get fuel "/entrez/eutils/esearch.fcgi" (fresh_loc w) "json"
                (with_params (<["retmax" := PInt 1]>
                                (<["term" := PStr q]> (deref (parameters (self w)) w))) w)).
Proof.
  rewrite getTotalResultsCount_eq.
  apply (bind_static_tail _ read_count _ read_count_static).
Qed.

Lemma _getPubMedData_world fuel q max_results w :
  world_of (_getPubMedData fuel q max_results w)
  = world_of (_get fuel "/entrez/eutils/esearch.fcgi" (fresh_loc w) "xml"
                (with_params (<["retmax" := PInt max_results]>
                                (<["usehistory" := PStr "y"]>
                                   (<["term" := PStr q]>
                                      (deref (parameters (self w)) w)))) w)).
Proof.
  rewrite _getPubMedData_eq.
  apply (bind_static_tail _ read_session _ read_session_static).
Qed.

(** The body of [_getArticlesEnv] when a token is missing from
    [query_data]: the copy is made, the [KeyError] is raised, nothing is
    sent. *)
Lemma _getArticlesEnv_body_no_query_key fuel qd start end_ w :
  qd !! "query_key" = None ->
  _getArticlesEnv_body fuel qd start end_ w
  = Raise (KeyError "query_key") (with_params (deref (parameters (self w)) w) w).
Proof.
  intros H. unfold _getArticlesEnv_body, bind, getitem.
  by rewrite dict_copy_eq, H.
Qed.

Lemma _getArticlesEnv_body_no_WebEnv fuel qd start end_ qk w :
  qd !! "query_key" = Some qk ->
  qd !! "WebEnv" = None ->
  _getArticlesEnv_body fuel qd start end_ w
  = Raise (KeyError "WebEnv")
      (with_params (<["query_key" := qk]> (deref (parameters (self w)) w)) w).
Proof.
  intros Hqk H. unfold _getArticlesEnv_body, bind, getitem.
  rewrite dict_copy_eq, Hqk. unfold ret at 1.
  by rewrite dict_setitem_with_params, H.
Qed.

Lemma _getArticlesEnv_body_world fuel qd start end_ qk we w :
  qd !! "query_key" = Some qk ->
  qd !! "WebEnv" = Some we ->
  world_of (_getArticlesEnv_body fuel qd start end_ w)
  = world_of (_get fuel "/entrez/eutils/efetch.fcgi" (fresh_loc w) "xml"
                (with_params
                   (<["retstart" := PInt start]>
                      (<["retmax" := PInt end_]>
                         (<["WebEnv" := we]>
                            (<["query_key" := qk]>
                               (deref (parameters (self w)) w))))) w)).
Proof.
  intros Hqk Hwe. rewrite (_getArticlesEnv_body_eq _ _ _ _ qk we) by done.
  apply (bind_static_tail _ read_records _ read_records_static).
Qed.

Section Invariant.

Variable I : World -> Prop.

Hypothesis I_request : forall fuel url output d w,
  I w -> request_shape url output d w ->
  I (world_of (_get fuel url (fresh_loc w) output (with_params d w))).

Hypothesis I_copy : forall d w,
  I w -> agrees (deref (parameters (self w)) w) d -> I (with_params d w).

Lemma I_bind {A B} (m : M A) (k : A -> M B) w :
  I (world_of (m w)) ->
  (forall a w1, m w = Return a w1 -> I w1 -> I (world_of (k a w1))) ->
  I (world_of (bind m k w)).
Proof.
  intros Hm Hk. unfold bind. destruct (m w) as [a w1|e w1|w1]; [|done..].
  by apply Hk.
Qed.

Ltac not_template_key :=
  let H := fresh in
  intros H; unfold template_keys in H;
  repeat (apply elem_of_cons in H as [H|H]; [discriminate H|]);
  by apply elem_of_nil in H.

Lemma I_getTotalResultsCount fuel q w :
  I w -> I (world_of (getTotalResultsCount fuel q w)).
Proof.
  intros Hw. rewrite getTotalResultsCount_world. apply I_request; [done|].
  split; [by left|]. split; [by left|].
  do 2 (apply agrees_insert; [not_template_key|]). apply agrees_refl.
Qed.

Lemma I__getPubMedData fuel q max_results w :
  I w -> I (world_of (_getPubMedData fuel q max_results w)).
Proof.
  intros Hw. rewrite _getPubMedData_world. apply I_request; [done|].
  split; [by left|]. split; [by right|].
  do 3 (apply agrees_insert; [not_template_key|]). apply agrees_refl.
Qed.

Lemma I__getArticlesEnv_body fuel qd start end_ w :
  I w -> I (world_of (_getArticlesEnv_body fuel qd start end_ w)).
Proof.
  intros Hw.
  destruct (qd !! "query_key") as [qk|] eqn:Hqk.
  - destruct (qd !! "WebEnv") as [we|] eqn:Hwe.
    + rewrite (_getArticlesEnv_body_world _ _ _ _ qk we) by done.
      apply I_request; [done|].
      split; [by right|]. split; [by right|].
      do 4 (apply agrees_insert; [not_template_key|]). apply agrees_refl.
    + rewrite (_getArticlesEnv_body_no_WebEnv _ _ _ _ qk) by done.
      apply I_copy; [done|].
      apply agrees_insert; [not_template_key|]. apply agrees_refl.
  - rewrite _getArticlesEnv_body_no_query_key by done.
    apply I_copy; [done | apply agrees_refl].
Qed.

Lemma I_drain fuel g w : I w -> I (world_of (drain fuel g w)).
Proof.
  intros Hw. unfold drain. destruct (gen_exhausted g); [done|].
  by apply I__getArticlesEnv_body.
Qed.

Lemma I_chain_from_iterable fuel windows : forall w,
  I w -> I (world_of (chain_from_iterable fuel windows w)).
Proof.
  induction windows as [|[start end_] rest IH]; intros w Hw; simpl; [done|].
  apply I_bind; [done|]. intros qd w1 _ Hw1.
  apply I_bind; [by apply I_drain|]. intros records w2 _ Hw2.
  apply I_bind; [by apply IH|]. by intros more w3 _ Hw3.
Qed.

Hypothesis I_set_query_data : forall d w, I w -> I (set_query_data d w).

Hypothesis I_set_articles : forall a w, I w -> I (set_articles a w).

Lemma I_query fuel q max_results w :
  I w -> I (world_of (query fuel q max_results w)).
Proof.
  intros Hw. unfold query.
  apply I_bind; [by apply I__getPubMedData|]. intros qd w1 _ Hw1.
  apply I_bind; [by apply I_set_query_data|]. intros _ w2 _ Hw2.
  apply I_bind.
  - destruct (max_results >? 10000)%Z.
    + apply I_bind; [by apply I_chain_from_iterable|]. intros records w3 _ Hw3.
      by apply I_set_articles.
    + apply I_bind; [done|]. intros qd' w3 _ Hw3. by apply I_set_articles.
  - intros _ w3 _ Hw3. by destruct (articles (self w3)).
Qed.

Lemma I_iterate_articles fuel w :
  I w -> I (world_of (iterate_articles fuel w)).
Proof.
  intros Hw. unfold iterate_articles.
  destruct (articles (self w)) as [[records|g]|]; [done| |done].
  by apply I_drain, I_set_articles.
Qed.

Lemma I_run_call fuel c w : I w -> I (world_of (run_call fuel c w)).
Proof.
  intros Hw. unfold run_call. destruct c; rewrite forget_world.
  - by apply I_query.
  - by apply I_iterate_articles.
  - by apply I_getTotalResultsCount.
Qed.

Lemma I_run_calls fuel cs : forall w,
  I w -> I (world_of (run_calls fuel cs w)).
Proof.
  induction cs as [|c rest IH]; intros w Hw; simpl; [done|].
  apply I_bind; [by apply I_run_call|]. intros _ w1 _ Hw1. by apply IH.
Qed.

End Invariant.

(** ** The worlds [_get] can end in *)

Lemma poll_world_sublist fuel : forall w,
  exists l k,
    world_of (poll fuel w) = after_check l k w /\
    l `sublist_of` _requestsMade (self w) /\
    (tick w <= k)%nat.
Proof.
  induction fuel as [|fuel IH]; intros w; simpl.
  - exists (_requestsMade (self w)), (tick w).
    split; [by destruct w as [[] ? ? ?] | done].
  - unfold bind. rewrite _exceededRateLimit_eq. cbv zeta.
    set (kept := recent (tick w) (_requestsMade (self w))).
    set (k1 := (tick w + length (_requestsMade (self w)))%nat).
    destruct (_ >? _)%Z.
    + destruct (IH (after_check kept k1 w)) as (l & k & -> & Hsub & Hk).
      rewrite after_check_requestsMade in Hsub. rewrite after_check_tick in Hk.
      exists l, k. split; [apply after_check_twice|]. split.
      * etrans; [exact Hsub | apply recent_sublist].
      * unfold k1 in Hk. lia.
    + exists kept, k1. split; [done|]. split; [apply recent_sublist | unfold k1; lia].
Qed.

(** However [_get] ends, the world it leaves is the one it found after some
    rate checks, then possibly with the request made, then possibly with the
    response's timestamp recorded; the last two only with a timestamp list
    within the ceiling at the moment of sending. *)
Lemma _get_world fuel url p output w :
  exists l k,
    l `sublist_of` _requestsMade (self w) /\
    (tick w <= k)%nat /\
    (world_of (_get fuel url p output w) = after_check l k w \/
     (Z.of_nat (length l) <= _rateLimit (self w))%Z /\
     (world_of (_get fuel url p output w)
      = after_request url p output (after_check l k w) \/
      world_of (_get fuel url p output w)
      = after_response (after_request url p output (after_check l k w)))).
Proof.
  rewrite _get_unfold. unfold bind.
  destruct (poll fuel w) as [[] w1|e w1|w1] eqn:E.
  - apply poll_returns in E as (l & k & -> & Hlen & Hsub & Hk).
    exists l, k. split; [done|]. split; [done|]. right. split; [done|].
    rewrite send_eq. cbv zeta.
    destruct (server _ _) as [r|]; [|by left].
    destruct (_ && _); [by left|].
    destruct (String.eqb _ _); [|by right].
    destruct (json_loads _); by right.
  - by apply poll_never_raises in E.
  - destruct (poll_world_sublist fuel w) as (l & k & Hw & Hsub & Hk).
    rewrite E in Hw. simpl in Hw. exists l, k. by repeat split; [..|left].
Qed.

(** ** The attributes no call assigns *)

(** No call assigns [tool], [email], [api_key], the ceiling or the reference
    [parameters]: after any calls, however they end, the five attributes are
    what they were. *)
Theorem attributes_fixed_by_calls (fuel : nat) (cs : list call) (w : World) :
  let w' := world_of (run_calls fuel cs w) in
  tool (self w') = tool (self w) /\
  email (self w') = email (self w) /\
  api_key (self w') = api_key (self w) /\
  _rateLimit (self w') = _rateLimit (self w) /\
  parameters (self w') = parameters (self w).
Proof.
  set (I := fun w1 : World =>
    tool (self w1) = tool (self w) /\
    email (self w1) = email (self w) /\
    api_key (self w1) = api_key (self w) /\
    _rateLimit (self w1) = _rateLimit (self w) /\
    parameters (self w1) = parameters (self w)).
  apply (I_run_calls I); subst I; cbv beta; [| | | |done].
  - intros fuel' url output d w1 Hw1 _.
    destruct (_get_world fuel' url (fresh_loc w1) output (with_params d w1))
      as (l & k & _ & _ & [-> | [_ [-> | ->]]]);
      by destruct w1 as [[] ? ? ?].
  - intros d w1 Hw1 _. by destruct w1 as [[] ? ? ?].
  - intros d w1 Hw1. by destruct w1 as [[] ? ? ?].
  - intros a w1 Hw1. by destruct w1 as [[] ? ? ?].
Qed.

(** ** The size of the timestamp list *)

Lemma after_request_requestsMade url p output w :
  _requestsMade (self (after_request url p output w)) = _requestsMade (self w).
Proof. reflexivity. Qed.

Lemma after_request_rateLimit url p output w :
  _rateLimit (self (after_request url p output w)) = _rateLimit (self w).
Proof. reflexivity. Qed.

Lemma after_response_requestsMade w :
  _requestsMade (self (after_response w)) = _requestsMade (self w) ++ [clock (tick w)].
Proof. reflexivity. Qed.

Lemma after_response_rateLimit w :
  _rateLimit (self (after_response w)) = _rateLimit (self w).
Proof. reflexivity. Qed.

(** On a new client, whatever calls are made and however they end, the list
    of tracked timestamps never holds more than four entries, one more than
    the ceiling. *)
Theorem timestamps_bounded_by_calls
  (tool email : string) (api_key : option string) (fuel : nat) (cs : list call) :
  let w := world_of (run_calls fuel cs (__init__ tool email api_key)) in
  (length (_requestsMade (self w)) <= 4)%nat.
Proof.
  set (I := fun w1 : World =>
    _rateLimit (self w1) = 3%Z /\ (length (_requestsMade (self w1)) <= 4)%nat).
  cut (I (world_of (run_calls fuel cs (__init__ tool email api_key)))).
  { by intros [_ H]. }
  apply (I_run_calls I); subst I; cbv beta.
  - intros fuel' url output d w1 [HR Hlen] _.
    destruct (_get_world fuel' url (fresh_loc w1) output (with_params d w1))
      as (l & k & Hsub & _ & [-> | [Hl [-> | ->]]]).
    + rewrite after_check_rateLimit, after_check_requestsMade.
      apply sublist_length in Hsub. split; [done|]. simpl in Hsub. lia.
    + rewrite after_request_rateLimit, after_request_requestsMade,
        after_check_rateLimit, after_check_requestsMade.
      split; [done|]. simpl in Hl. lia.
    + rewrite after_response_rateLimit, after_response_requestsMade,
        after_request_rateLimit, after_request_requestsMade,
        after_check_rateLimit, after_check_requestsMade.
      split; [done|]. rewrite length_app. simpl in *. lia.
  - by intros d w1 Hw1 _.
  - by intros d w1 Hw1.
  - by intros a w1 Hw1.
  - split; [done | simpl; lia].
Qed.

(** ** The requests that go out *)

Lemma template_lookup (tool email : string) (api_key : option string) :
  let d := template tool email api_key in
  d !! "tool" = Some (PStr tool) /\
  d !! "email" = Some (PStr email) /\
  d !! "db" = Some (PStr "pubmed") /\
  d !! "api_key"
  = (if truthy api_key then Some (PStr (default "" api_key)) else None).
Proof.
  unfold template. destruct (truthy api_key).
  - repeat split; by simplify_map_eq.
  - repeat split; by simplify_map_eq.
Qed.

Lemma _get_sent fuel url p output w :
  exists l k,
    sent (world_of (_get fuel url p output w)) = sent w \/
    sent (world_of (_get fuel url p output w))
    = sent w ++ [request_of url p output (after_check l k w)].
Proof.
  destruct (_get_world fuel url p output w) as (l & k & _ & _ & [-> | [_ [-> | ->]]]);
    exists l, k.
  - left. apply after_check_sent.
  - right. by rewrite after_request_sent, after_check_sent.
  - right. by rewrite after_response_sent, after_request_sent, after_check_sent.
Qed.

Lemma fresh_loc_not_template p0 d0 w :
  template_kept p0 d0 w -> fresh_loc w <> p0.
Proof.
  intros (_ & Hh & _) Heq. apply (is_fresh (dom (heap w))).
  unfold fresh_loc in Heq. rewrite Heq. apply elem_of_dom. by exists d0.
Qed.

Lemma template_kept_with_params p0 d0 d w :
  template_kept p0 d0 w -> template_kept p0 d0 (with_params d w).
Proof.
  intros Hw. pose proof (fresh_loc_not_template p0 d0 w Hw) as Hne.
  destruct Hw as (Hp & Hh & HR).
  unfold template_kept, with_params, set_heap. cbn [self heap].
  split; [done|]. split; [|done]. by rewrite lookup_insert_ne.
Qed.

(** Whatever calls are made on a new client and however they end, every
    request in the log went to the search path or the fetch path of the
    service, names its output format, and carries the [tool], [email] and
    [db] items of the constructor, with the [api_key] item exactly when the
    key given to the constructor is a non-empty string. *)
Theorem requests_carry_template
  (tool email : string) (api_key : option string) (fuel : nat) (cs : list call)
  (r : Request) :
  r ∈ sent (world_of (run_calls fuel cs (__init__ tool email api_key))) ->
  (req_url r = BASE_URL +:+ "/entrez/eutils/esearch.fcgi" \/
   req_url r = BASE_URL +:+ "/entrez/eutils/efetch.fcgi") /\
  (req_params r !! "retmode" = Some (PStr "json") \/
   req_params r !! "retmode" = Some (PStr "xml")) /\
  req_params r !! "tool" = Some (PStr tool) /\
  req_params r !! "email" = Some (PStr email) /\
  req_params r !! "db" = Some (PStr "pubmed") /\
  req_params r !! "api_key"
  = (if truthy api_key then Some (PStr (default "" api_key)) else None).
Proof.
  set (w0 := __init__ tool email api_key).
  set (p0 := parameters (self w0)).
  set (d0 := template tool email api_key).
  set (I := fun w1 : World =>
    template_kept p0 d0 w1 /\ Forall (wf_request d0) (sent w1)).
  assert (HI : I (world_of (run_calls fuel cs w0))).
  { apply (I_run_calls I); subst I; cbv beta.
    - intros fuel' url output d w1 [Hk Hs] (Hurl & Hout & Hd).
      pose proof (fresh_loc_not_template p0 d0 w1 Hk) as Hne.
      pose proof (template_kept_with_params p0 d0 d w1 Hk) as Hk1.
      split.
      + by apply (keeps__get p0 d0 fuel' url (fresh_loc w1) output Hne).
      + destruct (_get_sent fuel' url (fresh_loc w1) output (with_params d w1))
          as (l & k & [-> | ->]); [done|].
        apply Forall_app. split; [done|]. apply Forall_singleton.
        rewrite request_of_with_params.
        assert (Hd0 : deref (parameters (self w1)) w1 = d0).
        { destruct Hk as (-> & Hh & _). unfold deref. by rewrite Hh. }
        rewrite Hd0 in Hd.
        split; [by destruct Hurl as [-> | ->]; [left | right]|].
        split; [by destruct Hout as [-> | ->]; [left | right];
                simpl; rewrite lookup_insert_eq|].
        simpl. apply agrees_insert; [|done].
        intros H. unfold template_keys in H.
        repeat (apply elem_of_cons in H as [H|H]; [discriminate H|]).
        by apply elem_of_nil in H.
    - intros d w1 [Hk Hs] _. split; [by apply template_kept_with_params | done].
    - intros d w1 [Hk Hs]. split; [by apply template_kept_set_query_data | done].
    - intros a w1 [Hk Hs]. split; [by apply template_kept_set_articles | done].
    - split; [apply template_kept_init | constructor]. }
  destruct HI as [_ Hall]. intros Hr.
  rewrite Forall_forall in Hall. destruct (Hall r Hr) as (Hurl & Hmode & Hagree).
  destruct (template_lookup tool email api_key) as (Ht & He & Hdb & Hkey).
  fold d0 in Ht, He, Hdb, Hkey.
  split; [done|]. split; [done|].
  repeat split.
  - rewrite (Hagree "tool"); [done | by repeat constructor].
  - rewrite (Hagree "email"); [done | by repeat constructor].
  - rewrite (Hagree "db"); [done | by repeat constructor].
  - rewrite (Hagree "api_key"); [done | by repeat constructor].
Qed.

(** ** How the three methods fail *)

(** [send] on a fresh copy holding [d], by what the service answers. *)
Lemma send_on_copy url output d l k w :
  let W := after_check l k (with_params d w) in
  let w1 := after_request url (fresh_loc w) output W in
  send url (fresh_loc w) output W =
  match server (sent w) (mkRequest (BASE_URL +:+ url) (<["retmode" := PStr output]> d)) with
  | None => Raise ConnectionError w1
  | Some response =>
      if ((400 <=? status_code response) && (status_code response <? 600))%Z
      then Raise (HTTPError (status_code response)) w1
      else
        if String.eqb output "json" then
          match json_loads (text response) with
          | Some j => Return (PJson j) (after_response w1)
          | None => Raise JSONDecodeError (after_response w1)
          end
        else Return (PText (text response)) (after_response w1)
  end.
Proof.
  intros W w1. rewrite send_eq. cbv zeta. subst W w1.
  by rewrite request_of_with_params, after_check_sent, with_params_sent.
Qed.

(** [getTotalResultsCount] settles on what [read_count] makes of the answer. *)
Lemma getTotalResultsCount_converges q w :
  clock_advances ->
  (0 <= _rateLimit (self w))%Z ->
  exists fuel0 l k, forall fuel, (fuel0 <= fuel)%nat ->
    getTotalResultsCount fuel q w
    = bind (send "/entrez/eutils/esearch.fcgi" (fresh_loc w) "json") read_count
        (after_check l k
           (with_params (<["retmax" := PInt 1]>
                           (<["term" := PStr q]> (deref (parameters (self w)) w))) w)).
Proof.
  intros Hadv HR.
  destruct (get_then_read "/entrez/eutils/esearch.fcgi" "json" read_count
              (<["retmax" := PInt 1]>
                 (<["term" := PStr q]> (deref (parameters (self w)) w))) w
              Hadv HR read_count_static) as (fuel0 & l & k & H).
  exists fuel0, l, k. intros fuel Hf. rewrite getTotalResultsCount_eq.
  by apply (H fuel Hf).
Qed.

(** How [getTotalResultsCount] fails. An answer with a 4xx or 5xx status
    raises [HTTPError] with that status; a body that is not JSON raises
    [JSONDecodeError]; JSON that is not an object, or whose [esearchresult]
    is not an object, raises [AttributeError]; an object without
    [esearchresult], or whose [esearchresult] has no [count], raises
    [TypeError] (the method never answers 0 for a missing count). *)
Theorem getTotalResultsCount_failures (q : string) (w : World) :
  clock_advances ->
  (0 <= _rateLimit (self w))%Z ->
  let req := count_request (deref (parameters (self w)) w) q in
  exists fuel0 : nat, forall fuel : nat, (fuel0 <= fuel)%nat ->
    forall response, server (sent w) req = Some response ->
      let run := getTotalResultsCount fuel q w in
      let failed := ((400 <=? status_code response) && (status_code response <? 600))%Z in
      (failed = true -> exists w', run = Raise (HTTPError (status_code response)) w') /\
      (failed = false -> json_loads (text response) = None ->
         exists w', run = Raise JSONDecodeError w') /\
      (forall j, failed = false -> json_loads (text response) = Some j ->
         (forall members, j <> JObj members) ->
         exists w', run = Raise AttributeError w') /\
      (forall top other, failed = false ->
         json_loads (text response) = Some (JObj top) ->
         last_member "esearchresult" top = Some other ->
         (forall members, other <> JObj members) ->
         exists w', run = Raise AttributeError w') /\
      (forall top, failed = false ->
         json_loads (text response) = Some (JObj top) ->
         (last_member "esearchresult" top = None \/
          exists result, last_member "esearchresult" top = Some (JObj result) /\
                         last_member "count" result = None) ->
         exists w', run = Raise TypeError w').
Proof.
  intros Hadv HR req.
  destruct (getTotalResultsCount_converges q w Hadv HR) as (fuel0 & l & k & H).
  exists fuel0. intros fuel Hf response Hsrv run failed.
  subst run. rewrite (H fuel Hf). unfold bind. rewrite send_on_copy.
  cbv zeta. fold (count_request (deref (parameters (self w)) w) q). fold req.
  rewrite Hsrv. subst failed. cbn [String.eqb Ascii.eqb Bool.eqb].
  destruct ((400 <=? status_code response) && (status_code response <? 600))%Z.
  { split; [by eexists|]. repeat split; intros; discriminate. }
  split; [intros [=]|]. split; [|split; [|split]].
  - intros _ Hjson. rewrite Hjson. by eexists.
  - intros j _ Hjson Hj. rewrite Hjson. unfold read_count, bind. cbn [payload_get].
    destruct j; try (by eexists). by destruct (Hj members).
  - intros top other _ Hjson Htop Hother. rewrite Hjson. unfold read_count, bind.
    cbn [payload_get json_get]. unfold ret at 1. rewrite Htop.
    cbn [default from_option id].
    destruct other; try (by eexists). by destruct (Hother members).
  - intros top _ Hjson [Htop | (result & Htop & Hcount)];
      rewrite Hjson; unfold read_count, bind; cbn [payload_get json_get];
      unfold ret at 1; rewrite Htop;
      cbn [default from_option id json_get last_member]; unfold ret at 1.
    + by eexists.
    + rewrite Hcount. by eexists.
Qed.

Lemma _getPubMedData_settles q max_results w :
  clock_advances ->
  (0 <= _rateLimit (self w))%Z ->
  exists fuel0 l k, forall fuel, (fuel0 <= fuel)%nat ->
    _getPubMedData fuel q max_results w
    = bind (send "/entrez/eutils/esearch.fcgi" (fresh_loc w) "xml") read_session
        (after_check l k
           (with_params (<["retmax" := PInt max_results]>
                           (<["usehistory" := PStr "y"]>
                              (<["term" := PStr q]>
                                 (deref (parameters (self w)) w)))) w)).
Proof.
  intros Hadv HR.
  destruct (get_then_read "/entrez/eutils/esearch.fcgi" "xml" read_session
              (<["retmax" := PInt max_results]>
                 (<["usehistory" := PStr "y"]>
                    (<["term" := PStr q]> (deref (parameters (self w)) w)))) w
              Hadv HR read_session_static) as (fuel0 & l & k & H).
  exists fuel0, l, k. intros fuel Hf. rewrite _getPubMedData_eq.
  by apply (H fuel Hf).
Qed.

(** How [_getPubMedData] fails, and what it does not check. An answer with a
    4xx or 5xx status raises [HTTPError] with that status; a body that does
    not parse raises [XMLSyntaxError]; but a [QueryKey] or [WebEnv] element
    without text is accepted, and [None] is returned as the token. *)
Theorem _getPubMedData_failures (q : string) (max_results : Z) (w : World) :
  clock_advances ->
  (0 <= _rateLimit (self w))%Z ->
  let req := search_request (deref (parameters (self w)) w) q max_results in
  exists fuel0 : nat, forall fuel : nat, (fuel0 <= fuel)%nat ->
    forall response, server (sent w) req = Some response ->
      let run := _getPubMedData fuel q max_results w in
      let failed := ((400 <=? status_code response) && (status_code response <? 600))%Z in
      (failed = true -> exists w', run = Raise (HTTPError (status_code response)) w') /\
      (failed = false -> xml_fromstring (text response) = None ->
         exists w', run = Raise XMLSyntaxError w') /\
      (forall root qk rest1 we rest2, failed = false ->
         xml_fromstring (text response) = Some root ->
         xpath_descendants "QueryKey" root = qk :: rest1 ->
         xpath_descendants "WebEnv" root = we :: rest2 ->
         exists qd w', run = Return qd w' /\
           qd !! "query_key" = Some (match text_of qk with
                                     | Some s => PStr s
                                     | None => PNone
                                     end) /\
           qd !! "WebEnv" = Some (match text_of we with
                                  | Some s => PStr s
                                  | None => PNone
                                  end)).
Proof.
  intros Hadv HR req.
  destruct (_getPubMedData_settles q max_results w Hadv HR) as (fuel0 & l & k & H).
  exists fuel0. intros fuel Hf response Hsrv run failed.
  subst run. rewrite (H fuel Hf). unfold bind. rewrite send_on_copy.
  cbv zeta.
  fold (search_request (deref (parameters (self w)) w) q max_results). fold req.
  rewrite Hsrv. subst failed. cbn [String.eqb Ascii.eqb Bool.eqb].
  destruct ((400 <=? status_code response) && (status_code response <? 600))%Z.
  { split; [by eexists|]. repeat split; intros; discriminate. }
  split; [intros [=]|]. split.
  - intros _ Hxml. rewrite read_session_text, Hxml. by eexists.
  - intros root qk rest1 we rest2 _ Hxml Hqk Hwe.
    rewrite read_session_text, Hxml, Hqk, Hwe. eexists _, _. split; [done|].
    split.
    + rewrite lookup_insert_ne by done. by rewrite lookup_insert_eq.
    + by rewrite lookup_insert_eq.
Qed.

Lemma _getArticlesEnv_body_settles qd start end_ qk we w :
  clock_advances ->
  (0 <= _rateLimit (self w))%Z ->
  qd !! "query_key" = Some qk ->
  qd !! "WebEnv" = Some we ->
  exists fuel0 l k, forall fuel, (fuel0 <= fuel)%nat ->
    _getArticlesEnv_body fuel qd start end_ w
    = bind (send "/entrez/eutils/efetch.fcgi" (fresh_loc w) "xml") read_records
        (after_check l k
           (with_params
              (<["retstart" := PInt start]>
                 (<["retmax" := PInt end_]>
                    (<["WebEnv" := we]>
                       (<["query_key" := qk]>
                          (deref (parameters (self w)) w))))) w)).
Proof.
  intros Hadv HR Hqk Hwe.
  destruct (get_then_read "/entrez/eutils/efetch.fcgi" "xml" read_records
              (<["retstart" := PInt start]>
                 (<["retmax" := PInt end_]>
                    (<["WebEnv" := we]>
                       (<["query_key" := qk]> (deref (parameters (self w)) w))))) w
              Hadv HR read_records_static) as (fuel0 & l & k & H).
  exists fuel0, l, k. intros fuel Hf.
  rewrite (_getArticlesEnv_body_eq _ _ _ _ qk we) by done.
  by apply (H fuel Hf).
Qed.

(** How the body of [_getArticlesEnv] ends. A session handle without a
    token raises [KeyError] for the first one missing, before any rate check:
    nothing is sent and the clock is not read. With both tokens, an answer
    with a 4xx or 5xx status raises [HTTPError] with that status; a body that
    carries an encoding declaration raises [ValueError], whatever else it
    holds, because it is handed to lxml as a [str]; a body without one that
    does not parse raises [XMLSyntaxError]; and a body without one that
    parses yields its records, none at all when it has no record node. *)
Theorem _getArticlesEnv_outcomes
  (qd : gmap string pyval) (start end_ : Z) (w : World) :
  clock_advances ->
  (0 <= _rateLimit (self w))%Z ->
  (qd !! "query_key" = None ->
     forall fuel, exists w',
       _getArticlesEnv_body fuel qd start end_ w = Raise (KeyError "query_key") w' /\
       sent w' = sent w /\ tick w' = tick w) /\
  (is_Some (qd !! "query_key") -> qd !! "WebEnv" = None ->
     forall fuel, exists w',
       _getArticlesEnv_body fuel qd start end_ w = Raise (KeyError "WebEnv") w' /\
       sent w' = sent w /\ tick w' = tick w) /\
  (forall qk we, qd !! "query_key" = Some qk -> qd !! "WebEnv" = Some we ->
     let req := fetch_request (deref (parameters (self w)) w) qk we start end_ in
     exists fuel0 : nat, forall fuel : nat, (fuel0 <= fuel)%nat ->
       forall response, server (sent w) req = Some response ->
         let run := _getArticlesEnv_body fuel qd start end_ w in
         let failed :=
           ((400 <=? status_code response) && (status_code response <? 600))%Z in
         (failed = true ->
            exists w', run = Raise (HTTPError (status_code response)) w') /\
         (failed = false -> encoding_declared (text response) = true ->
            exists w', run = Raise ValueError w') /\
         (failed = false -> encoding_declared (text response) = false ->
            xml_fromstring_str (text response) = None ->
            exists w', run = Raise XMLSyntaxError w') /\
         (forall root, failed = false ->
            encoding_declared (text response) = false ->
            xml_fromstring_str (text response) = Some root ->
            exists w', run = Return (yield_records root) w' /\
              (iter "PubmedArticle" root = [] ->
               iter "PubmedBookArticle" root = [] ->
               yield_records root = []))).
Proof.
  intros Hadv HR. split; [|split].
  - intros Hqk fuel. eexists. split; [by apply _getArticlesEnv_body_no_query_key|].
    done.
  - intros [qk Hqk] Hwe fuel. eexists.
    split; [by apply (_getArticlesEnv_body_no_WebEnv _ _ _ _ qk)|]. done.
  - intros qk we Hqk Hwe req.
    destruct (_getArticlesEnv_body_settles qd start end_ qk we w Hadv HR Hqk Hwe)
      as (fuel0 & l & k & H).
    exists fuel0. intros fuel Hf response Hsrv run failed.
    subst run. rewrite (H fuel Hf). unfold bind. rewrite send_on_copy.
    cbv zeta.
    fold (fetch_request (deref (parameters (self w)) w) qk we start end_). fold req.
    rewrite Hsrv. subst failed. cbn [String.eqb Ascii.eqb Bool.eqb].
    destruct ((400 <=? status_code response) && (status_code response <? 600))%Z.
    { split; [by eexists|]. repeat split; intros; discriminate. }
    split; [intros [=]|]. split; [|split].
    + intros _ Hdecl. unfold read_records, bind, fromstring_str. rewrite Hdecl.
      by eexists.
    + intros _ Hdecl Hxml. unfold read_records, bind, fromstring_str.
      rewrite Hdecl, Hxml. by eexists.
    + intros root _ Hdecl Hxml. unfold read_records, bind, fromstring_str.
      rewrite Hdecl, Hxml.
      eexists. split; [done|]. intros Ha Hb. unfold yield_records. by rewrite Ha, Hb.
Qed.

(** ** What [_get] does to its arguments and to the timestamp list *)

(** [_get] writes [retmode] into the dictionary it is given, in place: when
    the call ends otherwise than polling, whether it returns or raises, that
    dictionary holds its former items and [retmode = output], and no other
    dictionary of the heap has changed. *)
Theorem _get_writes_retmode_in_place
  (fuel : nat) (url : string) (p : loc) (output : string) (w : World) :
  let run := _get fuel url p output w in
  (forall w', run <> Spin w') ->
  deref p (world_of run) = <["retmode" := PStr output]> (deref p w) /\
  forall l, l <> p -> heap (world_of run) !! l = heap w !! l.
Proof.
  intros run Hrun.
  destruct (_get_polled fuel url p output w Hrun) as (l & k & _ & _ & _ & _ & Hget).
  assert (Hheap : heap (world_of run)
                  = <[p := <["retmode" := PStr output]> (deref p w)]> (heap w)).
  { subst run. rewrite Hget, send_eq. cbv zeta.
    assert (H1 : heap (after_request url p output (after_check l k w))
                 = <[p := <["retmode" := PStr output]> (deref p w)]> (heap w)).
    { unfold after_request, set_sent, set_heap. cbn [heap].
      by rewrite after_check_deref, after_check_heap. }
    destruct (server _ _) as [r|]; [|done].
    destruct (_ && _); [done|].
    destruct (String.eqb _ _); [|done].
    by destruct (json_loads _). }
  split.
  - unfold deref at 1. by rewrite Hheap, lookup_insert_eq.
  - intros l' Hne. by rewrite Hheap, lookup_insert_ne.
Qed.

(** The timestamp of a request is recorded exactly when the service answers
    with a status that passes the check: after a call of [_get] that got
    through the loop with the list [l], the list is [l] with the next clock
    reading appended in that case, also when the body then fails to decode
    as JSON, and [l] itself when the connection fails or the status is 4xx
    or 5xx. *)
Theorem timestamp_recorded_iff_status_passes
  (fuel : nat) (url : string) (p : loc) (output : string) (w : World)
  (l : list Z) (k : nat) :
  poll fuel w = Return tt (after_check l k w) ->
  let run := _get fuel url p output w in
  _requestsMade (self (world_of run))
  = match server (sent w) (request_of url p output (after_check l k w)) with
    | Some response =>
        if ((400 <=? status_code response) && (status_code response <? 600))%Z
        then l
        else l ++ [clock k]
    | None => l
    end.
Proof.
  intros Hpoll run. subst run.
  rewrite (_get_after_poll fuel url p output w _ Hpoll), send_eq. cbv zeta.
  rewrite after_check_sent.
  assert (H1 : _requestsMade (self (after_request url p output (after_check l k w))) = l).
  { by rewrite after_request_requestsMade, after_check_requestsMade. }
  assert (H2 : _requestsMade
                 (self (after_response (after_request url p output (after_check l k w))))
               = l ++ [clock k]).
  { rewrite after_response_requestsMade, H1.
    by repeat f_equal; try apply after_check_tick. }
  destruct (server _ _) as [r|]; [|done].
  destruct (_ && _); [done|].
  destruct (String.eqb _ _); [|done].
  by destruct (json_loads _).
Qed.

(** ** The attributes [query] assigns *)

(** Neither the session search nor a fetch touches the attributes
    [query_data] and [articles]. *)
Lemma _get_keeps_results fuel url p output w :
  query_data (self (world_of (_get fuel url p output w))) = query_data (self w) /\
  articles (self (world_of (_get fuel url p output w))) = articles (self w).
Proof.
  destruct (_get_world fuel url p output w) as (l & k & _ & _ & [-> | [_ [-> | ->]]]);
    by destruct w as [[] ? ? ?].
Qed.

Lemma _getArticlesEnv_body_keeps_results fuel qd start end_ w :
  query_data (self (world_of (_getArticlesEnv_body fuel qd start end_ w)))
  = query_data (self w) /\
  articles (self (world_of (_getArticlesEnv_body fuel qd start end_ w)))
  = articles (self w).
Proof.
  apply (I__getArticlesEnv_body
           (fun w1 => query_data (self w1) = query_data (self w) /\
                      articles (self w1) = articles (self w))); [| |done].
  - intros fuel' url output d w1 [H1 H2] _.
    destruct (_get_keeps_results fuel' url (fresh_loc w1) output (with_params d w1))
      as [-> ->]. done.
  - by intros d w1 [H1 H2] _.
Qed.

(** A generator yields its records once. After the caller has iterated over
    the generator [query] returned (the call ending otherwise than polling),
    iterating again returns no record, sends no request and changes
    nothing. *)
Theorem iterate_articles_twice
  (fuel fuel' : nat) (w : World) (g : Generator) :
  articles (self w) = Some (inr g) ->
  let once := iterate_articles fuel w in
  (forall w', once <> Spin w') ->
  iterate_articles fuel' (world_of once) = Return [] (world_of once).
Proof.
  intros Hg once _.
  set (g' := mkGenerator (gen_query_data g) (gen_start g) (gen_end g) true).
  assert (Hart : articles (self (world_of once)) = Some (inr g')).
  { subst once. unfold iterate_articles. rewrite Hg. fold g'. unfold drain.
    destruct (gen_exhausted g).
    - by destruct w as [[] ? ? ?].
    - destruct (_getArticlesEnv_body_keeps_results fuel (gen_query_data g)
                  (gen_start g) (gen_end g) (set_articles (inr g') w)) as [_ ->].
      by destruct w as [[] ? ? ?]. }
  unfold iterate_articles at 1. rewrite Hart. unfold drain. cbn [gen_exhausted g'].
  unfold ret. f_equal. destruct (world_of once) as [[] ? ? ?]. simpl in *.
  by rewrite Hart.
Qed.

(** A call of [query] that raises leaves the attribute [articles] as it
    was: the records of the windows fetched before the failure are lost, and
    an earlier result stays in place. *)
Theorem query_raise_keeps_articles
  (fuel : nat) (q : string) (max_results : Z) (w w' : World) (e : exn) :
  query fuel q max_results w = Raise e w' ->
  articles (self w') = articles (self w).
Proof.
  set (I := fun w1 : World => articles (self w1) = articles (self w)).
  assert (Hreq : forall fuel url output d w1,
             I w1 -> request_shape url output d w1 ->
             I (world_of (_get fuel url (fresh_loc w1) output (with_params d w1)))).
  { intros fuel' url output d w1 H1 _. unfold I in *.
    destruct (_get_keeps_results fuel' url (fresh_loc w1) output (with_params d w1))
      as [_ ->]. done. }
  assert (Hcopy : forall d w1,
             I w1 -> agrees (deref (parameters (self w1)) w1) d -> I (with_params d w1)).
  { by intros d w1 H1 _. }
  unfold query, bind.
  pose proof (I__getPubMedData I Hreq fuel q max_results w eq_refl) as Hs.
  destruct (_getPubMedData fuel q max_results w) as [qd w1|e1 w1|w1]; [| |done].
  - simpl in Hs.
    assert (H2 : I (set_query_data qd w1)) by (by destruct w1 as [[] ? ? ?]).
    destruct (max_results >? 10000)%Z.
    + pose proof (I_chain_from_iterable I Hreq Hcopy fuel (split_range max_results)
                    _ H2) as Hc.
      destruct (chain_from_iterable fuel (split_range max_results)
                  (set_query_data qd w1)) as [records w3|e3 w3|w3]; [done| |done].
      by intros [= _ <-].
    + done.
  - by intros [= _ <-].
Qed.

(** ** A query from end to end *)

(** The session search when the service answers it well: what
    [_getPubMedData] returns, and the world it leaves. *)
Lemma _getPubMedData_success q max_results w p0 d response root qk rest1 we rest2 :
  clock_advances ->
  template_kept p0 d w ->
  server (sent w) (search_request d q max_results) = Some response ->
  ((400 <=? status_code response) && (status_code response <? 600))%Z = false ->
  xml_fromstring (text response) = Some root ->
  xpath_descendants "QueryKey" root = qk :: rest1 ->
  xpath_descendants "WebEnv" root = we :: rest2 ->
  exists fuel0 w1,
    (forall fuel, (fuel0 <= fuel)%nat ->
       _getPubMedData fuel q max_results w
       = Return (<["WebEnv" := text_val we]> (<["query_key" := text_val qk]> ∅)) w1) /\
    sent w1 = sent w ++ [search_request d q max_results] /\
    template_kept p0 d w1.
Proof.
  intros Hadv Hw Hsrv Hok Hxml Hqk Hwe.
  assert (HR : (0 <= _rateLimit (self w))%Z) by (destruct Hw as (_ & _ & ->); lia).
  assert (Hd : deref (parameters (self w)) w = d).
  { destruct Hw as (-> & Hh & _). unfold deref. by rewrite Hh. }
  destruct (_getPubMedData_settles q max_results w Hadv HR) as (fuel0 & l & k & H).
  rewrite Hd in H.
  set (dd := <["retmax" := PInt max_results]>
               (<["usehistory" := PStr "y"]> (<["term" := PStr q]> d))) in *.
  set (W := after_check l k (with_params dd w)) in *.
  set (w1 := after_response
               (after_request "/entrez/eutils/esearch.fcgi" (fresh_loc w) "xml" W)).
  assert (Hrun : bind (send "/entrez/eutils/esearch.fcgi" (fresh_loc w) "xml")
                   read_session W
                 = Return (<["WebEnv" := text_val we]>
                             (<["query_key" := text_val qk]> ∅)) w1).
  { unfold bind, W, dd. rewrite send_on_copy. cbv zeta.
    fold (search_request d q max_results). rewrite Hsrv, Hok.
    cbn [String.eqb Ascii.eqb Bool.eqb].
    by rewrite read_session_text, Hxml, Hqk, Hwe. }
  exists fuel0, w1. split; [|split].
  - intros fuel Hf. by rewrite (H fuel Hf).
  - unfold w1. rewrite after_response_sent, after_request_sent. unfold W.
    by rewrite request_of_with_params, after_check_sent, with_params_sent.
  - pose proof (keeps__getPubMedData p0 d fuel0 q max_results w Hw) as [Hk _].
    by rewrite (H fuel0 (le_n _)), Hrun in Hk.
Qed.

(** A query for at most 10,000 results, the service answering the search
    well. [query] returns a generator and has sent only the search; iterating
    over it sends the one fetch, which carries as [query_key] and [WebEnv]
    the texts of the first [QueryKey] and [WebEnv] elements of the search
    response; when that fetch is answered with a passing status and a body
    that carries no encoding declaration and parses, the iteration gives the
    records of its body; and when the body carries an encoding declaration
    the iteration raises [ValueError], the body being handed to lxml as a
    [str]. *)
Theorem query_small_end_to_end
  (q : string) (max_results : Z) (w : World) (d : gmap string pyval)
  (response : Response) (root qk we : Element) (rest1 rest2 : list Element) :
  clock_advances ->
  template_kept (parameters (self w)) d w ->
  (max_results <= 10000)%Z ->
  let search := search_request d q max_results in
  server (sent w) search = Some response ->
  ((400 <=? status_code response) && (status_code response <? 600))%Z = false ->
  xml_fromstring (text response) = Some root ->
  xpath_descendants "QueryKey" root = qk :: rest1 ->
  xpath_descendants "WebEnv" root = we :: rest2 ->
  let token := fun e : Element =>
                 match text_of e with
                 | Some s => PStr s
                 | None => PNone
                 end in
  let fetch := fetch_request d (token qk) (token we) 0 max_results in
  exists fuel0 : nat, forall fuel : nat, (fuel0 <= fuel)%nat ->
    exists g w1,
      query fuel q max_results w = Return (inr g) w1 /\
      sent w1 = sent w ++ [search] /\
      (forall w', iterate_articles fuel w1 <> Spin w') /\
      sent (world_of (iterate_articles fuel w1)) = sent w ++ [search; fetch] /\
      (forall response2 root2,
         server (sent w ++ [search]) fetch = Some response2 ->
         ((400 <=? status_code response2) && (status_code response2 <? 600))%Z = false ->
         encoding_declared (text response2) = false ->
         xml_fromstring_str (text response2) = Some root2 ->
         exists w2, iterate_articles fuel w1 = Return (yield_records root2) w2) /\
      (forall response2,
         server (sent w ++ [search]) fetch = Some response2 ->
         ((400 <=? status_code response2) && (status_code response2 <? 600))%Z = false ->
         encoding_declared (text response2) = true ->
         exists w2, iterate_articles fuel w1 = Raise ValueError w2).
Proof.
  intros Hadv Hw Hle search Hsrv Hok Hxml Hqk Hwe token fetch.
  change token with text_val in *. clear token.
  destruct (_getPubMedData_success q max_results w _ d response root qk rest1 we rest2
              Hadv Hw Hsrv Hok Hxml Hqk Hwe) as (fuel1 & w1 & Hs & Hsent1 & Hw1).
  set (qd := <["WebEnv" := text_val we]> (<["query_key" := text_val qk]> ∅)) in *.
  assert (Hk1 : qd !! "query_key" = Some (text_val qk)).
  { unfold qd. rewrite lookup_insert_ne by done. apply lookup_insert_eq. }
  assert (Hk2 : qd !! "WebEnv" = Some (text_val we)) by apply lookup_insert_eq.
  set (w2 := set_articles (inr (mkGenerator qd 0 max_results true))
               (set_query_data qd w1)).
  assert (Hw2 : template_kept (parameters (self w)) d w2).
  { by apply template_kept_set_articles, template_kept_set_query_data. }
  assert (HR2 : (0 <= _rateLimit (self w2))%Z) by (destruct Hw2 as (_ & _ & ->); lia).
  assert (Hd2 : deref (parameters (self w2)) w2 = d).
  { destruct Hw2 as (-> & Hh & _). unfold deref. by rewrite Hh. }
  assert (Hsent2 : sent w2 = sent w ++ [search]) by (by destruct w1 as [[] ? ? ?]).
  destruct (_getArticlesEnv_body_converges qd 0 max_results (text_val qk) (text_val we)
              w2 Hadv HR2 Hk1 Hk2)
    as (fuel2 & r2 & Hr2 & Hsentr & Hspin & Hgood & Hdecl).
  rewrite Hd2, Hsent2 in Hsentr, Hgood, Hdecl. fold fetch in Hsentr, Hgood, Hdecl.
  exists (Nat.max fuel1 fuel2). intros fuel Hf.
  exists (_getArticlesEnv qd 0 max_results),
         (set_articles (inr (_getArticlesEnv qd 0 max_results)) (set_query_data qd w1)).
  split; [|split].
  - rewrite query_small_eq by done. by rewrite Hs by lia.
  - by destruct w1 as [[] ? ? ?].
  - rewrite iterate_fresh_generator. fold w2. rewrite Hr2 by lia.
    split; [done|]. split; [|split].
    + by rewrite Hsentr, <- app_assoc.
    + intros response2 root2 Hsrv2 Hok2 Hdecl2 Hxml2. by apply (Hgood response2).
    + intros response2 Hsrv2 Hok2 Hdecl2. by apply (Hdecl response2).
Qed.

(** The windows of a large query, the service answering every fetch well:
    each window is fetched once, in order, with the same tokens, and the
    records come back in window order. *)
Lemma chain_from_iterable_success p0 d qd qk we windows :
  clock_advances ->
  qd !! "query_key" = Some qk ->
  qd !! "WebEnv" = Some we ->
  forall w records,
    template_kept p0 d w ->
    query_data (self w) = Some qd ->
    fetch_all (sent w) d qk we windows = Some records ->
    exists fuel0 w',
      (forall fuel, (fuel0 <= fuel)%nat ->
         chain_from_iterable fuel windows w = Return records w') /\
      sent w' = sent w ++ map (window_request d qk we) windows.
Proof.
  intros Hadv Hqk Hwe.
  induction windows as [|[start end_] rest IH]; intros w records Hw Hqd Hall.
  - simpl in Hall. injection Hall as <-. exists 0%nat, w.
    split; [done | by rewrite app_nil_r].
  - simpl in Hall. unfold window_request at 1 in Hall. simpl in Hall.
    destruct (server (sent w) (fetch_request d qk we start end_))
      as [response|] eqn:Hsrv; [|done].
    destruct ((400 <=? status_code response) && (status_code response <? 600))%Z
      eqn:Hok; [done|].
    destruct (encoding_declared (text response)) eqn:Hdecl; [done|].
    destruct (xml_fromstring_str (text response)) as [root|] eqn:Hxml; [|done].
    destruct (fetch_all _ d qk we rest) as [more|] eqn:Hrest; [|done].
    injection Hall as <-.
    assert (HR : (0 <= _rateLimit (self w))%Z) by (destruct Hw as (_ & _ & ->); lia).
    assert (Hd : deref (parameters (self w)) w = d).
    { destruct Hw as (-> & Hh & _). unfold deref. by rewrite Hh. }
    destruct (_getArticlesEnv_body_converges qd start end_ qk we w Hadv HR Hqk Hwe)
      as (fuel1 & r1 & Hr1 & Hsent1 & _ & Hgood & _).
    rewrite Hd in Hsent1, Hgood.
    destruct (Hgood response root Hsrv Hok Hdecl Hxml) as (w1 & ->).
    simpl in Hsent1.
    assert (Hw1 : template_kept p0 d w1).
    { pose proof (keeps__getArticlesEnv_body p0 d fuel1 qd start end_ w Hw) as [Hk _].
      by rewrite (Hr1 fuel1 (le_n _)) in Hk. }
    assert (Hqd1 : query_data (self w1) = Some qd).
    { destruct (_getArticlesEnv_body_keeps_results fuel1 qd start end_ w) as [Hq _].
      rewrite (Hr1 fuel1 (le_n _)) in Hq. simpl in Hq. by rewrite Hq. }
    assert (Hrest1 : fetch_all (sent w1) d qk we rest = Some more).
    { rewrite Hsent1. exact Hrest. }
    destruct (IH w1 more Hw1 Hqd1 Hrest1) as (fuel2 & w2 & Hr2 & Hsent2).
    exists (Nat.max fuel1 fuel2), w2. split.
    + intros fuel Hf. simpl. unfold bind. rewrite Hqd. cbn [default from_option id].
      unfold drain, _getArticlesEnv. cbn [gen_exhausted gen_query_data gen_start gen_end].
      rewrite Hr1 by lia. by rewrite Hr2 by lia.
    + rewrite Hsent2, Hsent1, <- app_assoc. done.
Qed.

(** A query for more than 10,000 results, the service answering the search
    well and every fetch with a passing status and a body that carries no
    encoding declaration and parses. [query] itself sends the search and
    then one fetch per window of [split_range max_results], in order, each
    carrying the tokens of the search response, the start of its window as
    [retstart] and the end of its window as [retmax]; it returns the records
    of all the bodies in window order, as a list, and stores that list in
    [articles]. *)
Theorem query_large_end_to_end
  (q : string) (max_results : Z) (w : World) (d : gmap string pyval)
  (response : Response) (root qk we : Element) (rest1 rest2 : list Element)
  (records : list Record) :
  clock_advances ->
  template_kept (parameters (self w)) d w ->
  (10000 < max_results)%Z ->
  let search := search_request d q max_results in
  server (sent w) search = Some response ->
  ((400 <=? status_code response) && (status_code response <? 600))%Z = false ->
  xml_fromstring (text response) = Some root ->
  xpath_descendants "QueryKey" root = qk :: rest1 ->
  xpath_descendants "WebEnv" root = we :: rest2 ->
  let token := fun e : Element =>
                 match text_of e with
                 | Some s => PStr s
                 | None => PNone
                 end in
  fetch_all (sent w ++ [search]) d (token qk) (token we)
    (split_range max_results) = Some records ->
  exists fuel0 : nat, forall fuel : nat, (fuel0 <= fuel)%nat ->
    exists w',
      query fuel q max_results w = Return (inl records) w' /\
      articles (self w') = Some (inl records) /\
      sent w'
      = sent w ++ search ::
          map (fun window =>
                 fetch_request d (token qk) (token we) window.1 window.2)
              (split_range max_results).
Proof.
  intros Hadv Hw Hbig search Hsrv Hok Hxml Hqk Hwe token Hall.
  change token with text_val in *. clear token.
  destruct (_getPubMedData_success q max_results w _ d response root qk rest1 we rest2
              Hadv Hw Hsrv Hok Hxml Hqk Hwe) as (fuel1 & w1 & Hs & Hsent1 & Hw1).
  set (qd := <["WebEnv" := text_val we]> (<["query_key" := text_val qk]> ∅)) in *.
  assert (Hk1 : qd !! "query_key" = Some (text_val qk)).
  { unfold qd. rewrite lookup_insert_ne by done. apply lookup_insert_eq. }
  assert (Hk2 : qd !! "WebEnv" = Some (text_val we)) by apply lookup_insert_eq.
  set (w2 := set_query_data qd w1).
  assert (Hw2 : template_kept (parameters (self w)) d w2)
    by (by apply template_kept_set_query_data).
  assert (Hqd2 : query_data (self w2) = Some qd) by (by destruct w1 as [[] ? ? ?]).
  assert (Hsent2 : sent w2 = sent w ++ [search]) by (by destruct w1 as [[] ? ? ?]).
  rewrite <- Hsent2 in Hall.
  destruct (chain_from_iterable_success _ d qd (text_val qk) (text_val we)
              (split_range max_results) Hadv Hk1 Hk2 w2 records Hw2 Hqd2 Hall)
    as (fuel2 & w3 & Hc & Hsent3).
  exists (Nat.max fuel1 fuel2). intros fuel Hf.
  exists (set_articles (inl records) w3). split; [|split].
  - unfold query, bind. rewrite Hs by lia.
    replace (max_results >? 10000)%Z with true by lia.
    fold w2. rewrite Hc by lia. by destruct w3 as [[] ? ? ?].
  - by destruct w3 as [[] ? ? ?].
  - transitivity (sent w3); [by destruct w3 as [[] ? ? ?]|].
    rewrite Hsent3, Hsent2, <- app_assoc. done.
Qed.

(** ** The windows a query fetches *)

(** A method that is [_get] on a fresh copy followed by a step that only
    computes: when it returns, exactly one request has gone out. *)
Lemma get_then_read_returns {B} (url output : string) (read : payload -> M B)
  (d : gmap string pyval) (fuel : nat) (w : World) (b : B) (w' : World) :
  (forall r w1, world_of (read r w1) = w1) ->
  bind (_get fuel url (fresh_loc w) output) read (with_params d w) = Return b w' ->
  sent w' = sent w ++ [mkRequest (BASE_URL +:+ url) (<["retmode" := PStr output]> d)].
Proof.
  intros Hread H. unfold bind in H.
  destruct (_get fuel url (fresh_loc w) output (with_params d w))
    as [r w1|e w1|w1] eqn:E; [|done..].
  destruct (_get_polled fuel url (fresh_loc w) output (with_params d w))
    as (l & k & _ & _ & _ & _ & Hsend).
  { intros w0. by rewrite E. }
  rewrite E in Hsend.
  pose proof (send_sent url (fresh_loc w) output (after_check l k (with_params d w)))
    as Hs.
  rewrite <- Hsend in Hs. cbn [world_of] in Hs.
  rewrite request_of_with_params, after_check_sent, with_params_sent in Hs.
  pose proof (Hread r w1) as Hw. rewrite H in Hw. simpl in Hw. by subst w'.
Qed.

Lemma _getPubMedData_returns fuel q max_results w qd w1 :
  _getPubMedData fuel q max_results w = Return qd w1 ->
  sent w1 = sent w ++ [search_request (deref (parameters (self w)) w) q max_results] /\
  exists qk we : pyval, qd !! "query_key" = Some qk /\ qd !! "WebEnv" = Some we.
Proof.
  intros H. rewrite _getPubMedData_eq in H. split.
  - apply (get_then_read_returns _ _ _ _ _ _ _ _
             (fun r w0 => proj1 (read_session_static r w0)) H).
  - unfold bind in H.
    destruct (_get _ _ _ _ _) as [[j|s] w2|e w2|w2]; try done.
    rewrite read_session_text in H.
    destruct (xml_fromstring s) as [root|]; [|done].
    destruct (xpath_descendants "QueryKey" root) as [|qk ?]; [done|].
    destruct (xpath_descendants "WebEnv" root) as [|we ?]; [done|].
    injection H as <- <-. exists (text_val qk), (text_val we). split.
    + rewrite lookup_insert_ne; [apply lookup_insert_eq | done].
    + apply lookup_insert_eq.
Qed.

Lemma _getArticlesEnv_body_returns fuel qd start end_ w records w' :
  _getArticlesEnv_body fuel qd start end_ w = Return records w' ->
  exists qk we,
    qd !! "query_key" = Some qk /\ qd !! "WebEnv" = Some we /\
    sent w' = sent w ++ [fetch_request (deref (parameters (self w)) w) qk we start end_].
Proof.
  intros H.
  destruct (qd !! "query_key") as [qk|] eqn:Hqk;
    [|by rewrite _getArticlesEnv_body_no_query_key in H].
  destruct (qd !! "WebEnv") as [we|] eqn:Hwe;
    [|by rewrite (_getArticlesEnv_body_no_WebEnv _ _ _ _ qk) in H].
  exists qk, we. split; [done|]. split; [done|].
  rewrite (_getArticlesEnv_body_eq _ _ _ _ qk we) in H by done.
  apply (get_then_read_returns _ _ _ _ _ _ _ _
           (fun r w0 => proj1 (read_records_static r w0)) H).
Qed.

(** When the chain over the windows returns, each window has been fetched
    once, in order, with the tokens of [query_data]. *)
Lemma chain_from_iterable_returns p0 d qd qk we fuel windows :
  qd !! "query_key" = Some qk ->
  qd !! "WebEnv" = Some we ->
  forall w records w',
    template_kept p0 d w ->
    query_data (self w) = Some qd ->
    chain_from_iterable fuel windows w = Return records w' ->
    sent w' = sent w ++ map (window_request d qk we) windows.
Proof.
  intros Hqk Hwe.
  induction windows as [|[start end_] rest IH]; intros w records w' Hw Hqd H.
  - injection H as _ <-. by rewrite app_nil_r.
  - simpl in H. unfold bind in H. rewrite Hqd in H. cbn [default from_option id] in H.
    unfold drain, _getArticlesEnv in H.
    cbn [gen_exhausted gen_query_data gen_start gen_end] in H.
    destruct (_getArticlesEnv_body fuel qd start end_ w) as [recs w1|e w1|w1] eqn:E;
      [|done..].
    destruct (_getArticlesEnv_body_returns _ _ _ _ _ _ _ E)
      as (qk' & we' & Hqk' & Hwe' & Hsent1).
    rewrite Hqk in Hqk'. injection Hqk' as <-.
    rewrite Hwe in Hwe'. injection Hwe' as <-.
    assert (Hd : deref (parameters (self w)) w = d).
    { destruct Hw as (-> & Hh & _). unfold deref. by rewrite Hh. }
    rewrite Hd in Hsent1.
    assert (Hw1 : template_kept p0 d w1).
    { pose proof (keeps__getArticlesEnv_body p0 d fuel qd start end_ w Hw) as [Hk _].
      by rewrite E in Hk. }
    assert (Hqd1 : query_data (self w1) = Some qd).
    { destruct (_getArticlesEnv_body_keeps_results fuel qd start end_ w) as [Hq _].
      rewrite E in Hq. simpl in Hq. by rewrite Hq. }
    destruct (chain_from_iterable fuel rest w1) as [more w2|e w2|w2] eqn:E2; [|done..].
    injection H as _ <-.
    rewrite (IH w1 more w2 Hw1 Hqd1 E2), Hsent1, <- app_assoc. done.
Qed.

(** A query for more than 10,000 results that returns has sent the search
    and then one fetch per window of [split_range max_results], in order. *)
Lemma query_large_returns fuel q max_results w d a w' :
  template_kept (parameters (self w)) d w ->
  (10000 < max_results)%Z ->
  query fuel q max_results w = Return a w' ->
  exists (qk we : pyval) (records : list Record),
    a = inl records /\
    articles (self w') = Some (inl records) /\
    sent w' = sent w ++ search_request d q max_results
                :: map (window_request d qk we) (split_range max_results).
Proof.
  intros Hw Hbig H.
  assert (Hd : deref (parameters (self w)) w = d).
  { destruct Hw as (_ & Hh & _). unfold deref. by rewrite Hh. }
  unfold query, bind in H.
  destruct (_getPubMedData fuel q max_results w) as [qd w1|e w1|w1] eqn:E1; [|done..].
  destruct (_getPubMedData_returns _ _ _ _ _ _ E1) as (Hsent1 & qk & we & Hqk & Hwe).
  rewrite Hd in Hsent1.
  assert (Hw1 : template_kept (parameters (self w)) d w1).
  { pose proof (keeps__getPubMedData (parameters (self w)) d fuel q max_results w Hw)
      as [Hk _].
    by rewrite E1 in Hk. }
  replace (max_results >? 10000)%Z with true in H by lia.
  set (w2 := set_query_data qd w1) in *.
  assert (Hw2 : template_kept (parameters (self w)) d w2)
    by (by apply template_kept_set_query_data).
  assert (Hqd2 : query_data (self w2) = Some qd) by (by destruct w1 as [[] ? ? ?]).
  assert (Hsent2 : sent w2 = sent w ++ [search_request d q max_results])
    by (by destruct w1 as [[] ? ? ?]).
  destruct (chain_from_iterable fuel (split_range max_results) w2)
    as [records w3|e w3|w3] eqn:E2; [|done..].
  pose proof (chain_from_iterable_returns _ d qd qk we fuel _ Hqk Hwe w2 records w3
                Hw2 Hqd2 E2) as Hsent3.
  assert (Ha : articles (self (set_articles (inl records) w3)) = Some (inl records))
    by (by destruct w3 as [[] ? ? ?]).
  rewrite Ha in H. injection H as <- <-.
  exists qk, we, records. split; [done|]. split; [done|].
  transitivity (sent w3); [by destruct w3 as [[] ? ? ?]|].
  rewrite Hsent3, Hsent2, <- app_assoc. done.
Qed.

(** A query for at most 10,000 results that returns, and whose result is
    iterated over to its end, has sent the search and then the fetch of the
    one window [(0, max_results)]. *)
Lemma query_small_returns fuel fuel' q max_results w d a w1 records w2 :
  template_kept (parameters (self w)) d w ->
  (max_results <= 10000)%Z ->
  query fuel q max_results w = Return a w1 ->
  iterate_articles fuel' w1 = Return records w2 ->
  exists qk we : pyval,
    sent w2 = sent w ++ search_request d q max_results
                :: map (window_request d qk we) [(0%Z, max_results)].
Proof.
  intros Hw Hle H1 H2.
  assert (Hd : deref (parameters (self w)) w = d).
  { destruct Hw as (_ & Hh & _). unfold deref. by rewrite Hh. }
  rewrite query_small_eq in H1 by done.
  destruct (_getPubMedData fuel q max_results w) as [qd w0|e w0|w0] eqn:E1; [|done..].
  destruct (_getPubMedData_returns _ _ _ _ _ _ E1) as (Hsent0 & _).
  rewrite Hd in Hsent0.
  assert (Hw0 : template_kept (parameters (self w)) d w0).
  { pose proof (keeps__getPubMedData (parameters (self w)) d fuel q max_results w Hw)
      as [Hk _].
    by rewrite E1 in Hk. }
  injection H1 as <- <-.
  rewrite iterate_fresh_generator in H2.
  set (w3 := set_articles (inr (mkGenerator qd 0 max_results true))
               (set_query_data qd w0)) in *.
  assert (Hw3 : template_kept (parameters (self w)) d w3).
  { by apply template_kept_set_articles, template_kept_set_query_data. }
  assert (Hd3 : deref (parameters (self w3)) w3 = d).
  { destruct Hw3 as (-> & Hh & _). unfold deref. by rewrite Hh. }
  assert (Hsent3 : sent w3 = sent w ++ [search_request d q max_results])
    by (by destruct w0 as [[] ? ? ?]).
  destruct (_getArticlesEnv_body_returns _ _ _ _ _ _ _ H2)
    as (qk & we & _ & _ & Hsent2).
  exists qk, we. rewrite Hsent2, Hd3, Hsent3, <- app_assoc. done.
Qed.

(** ** The rate the limiter enforces *)

(** What a rate check drops has expired: the reading taken for it is at
    least a second later. *)
Lemma recent_dropped_perm l : forall k,
  exists dropped,
    l ≡ₚ recent k l ++ dropped /\
    forall e, e ∈ dropped ->
      exists j : nat, (k <= j < k + length l)%nat /\ (e + second <= clock j)%Z.
Proof.
  induction l as [|t rest IH]; intros k; simpl.
  - exists []. split; [done|]. intros e He. by apply elem_of_nil in He.
  - destruct (IH (S k)) as (dropped & Hperm & Hexp).
    destruct (clock k - second <? t)%Z eqn:E.
    + exists dropped. split; [simpl; by f_equiv|].
      intros e He. destruct (Hexp e He) as (j & Hj & Hle). exists j. split; [lia|done].
    + exists (t :: dropped). split.
      * rewrite <- Permutation_middle. by f_equiv.
      * intros e He. apply elem_of_cons in He as [-> | He].
        -- exists k. split; lia.
        -- destruct (Hexp e He) as (j & Hj & Hle). exists j. split; [lia|done].
Qed.

Lemma poll_dropped_perm fuel : forall w w',
  poll fuel w = Return tt w' ->
  exists dropped,
    _requestsMade (self w) ≡ₚ _requestsMade (self w') ++ dropped /\
    (tick w <= tick w')%nat /\
    forall e, e ∈ dropped ->
      exists j : nat, (j < tick w')%nat /\ (e + second <= clock j)%Z.
Proof.
  induction fuel as [|fuel IH]; intros w w' H; [done|].
  set (kept := recent (tick w) (_requestsMade (self w))).
  set (k1 := (tick w + length (_requestsMade (self w)))%nat).
  destruct (recent_dropped_perm (_requestsMade (self w)) (tick w))
    as (d1 & Hperm1 & Hexp1). fold kept in Hperm1.
  destruct (Z_le_gt_dec (Z.of_nat (length kept)) (_rateLimit (self w))) as [Hk|Hk].
  - rewrite poll_within in H by done. injection H as <-.
    rewrite after_check_requestsMade, after_check_tick. exists d1.
    split; [done|]. split; [lia|].
    intros e He. destruct (Hexp1 e He) as (j & Hj & Hle). exists j. split; [lia|done].
  - rewrite poll_exceeded in H by done. fold kept k1 in H.
    apply IH in H as (d2 & Hperm2 & Htick & Hexp2).
    rewrite after_check_requestsMade in Hperm2. rewrite after_check_tick in Htick.
    exists (d2 ++ d1). split; [|split].
    + rewrite Hperm1, Hperm2. by rewrite app_assoc.
    + unfold k1 in Htick. lia.
    + intros e He. apply elem_of_app in He as [He|He]; [by apply Hexp2|].
      destruct (Hexp1 e He) as (j & Hj & Hle). exists j. split; [|done].
      unfold k1 in Htick. lia.
Qed.

(** One call of [_get] that is not left polling, seen from the limiter. *)
Lemma _get_limiter_step fuel url p output w :
  let r := _get fuel url p output w in
  (forall w', r <> Spin w') ->
  exists l k dropped,
    _requestsMade (self w) ≡ₚ l ++ dropped /\
    (forall e, e ∈ dropped ->
       exists j : nat, (j < k)%nat /\ (e + second <= clock j)%Z) /\
    (tick w <= k)%nat /\
    (Z.of_nat (length l) <= _rateLimit (self w))%Z /\
    _rateLimit (self (world_of r)) = _rateLimit (self w) /\
    ((new_timestamp r = [clock k] /\
      _requestsMade (self (world_of r)) = l ++ [clock k] /\
      tick (world_of r) = S k) \/
     (new_timestamp r = [] /\
      _requestsMade (self (world_of r)) = l /\
      tick (world_of r) = k)).
Proof.
  intros r Hr.
  destruct (_get_polled fuel url p output w Hr) as (l & k & Hpoll & Hlen & _ & _ & Hget).
  destruct (poll_dropped_perm fuel w _ Hpoll) as (dropped & Hperm & Htick & Hexp).
  rewrite after_check_requestsMade in Hperm.
  rewrite after_check_tick in Htick, Hexp.
  exists l, k, dropped. do 4 (split; [done|]).
  subst r. rewrite Hget, send_eq. cbv zeta.
  set (w1 := after_request url p output (after_check l k w)).
  assert (H1 : _rateLimit (self w1) = _rateLimit (self w) /\
               _requestsMade (self w1) = l /\ tick w1 = k).
  { unfold w1. rewrite after_request_rateLimit, after_request_requestsMade,
      after_check_rateLimit, after_check_requestsMade.
    split; [done|]. split; [done|]. apply after_check_tick. }
  destruct H1 as (HR1 & HL1 & Hk1).
  assert (H2 : _rateLimit (self (after_response w1)) = _rateLimit (self w) /\
               _requestsMade (self (after_response w1)) = l ++ [clock k] /\
               tick (after_response w1) = S k).
  { rewrite after_response_rateLimit, after_response_requestsMade, HR1, HL1, Hk1.
    split; [done|]. split; [done|].
    change (tick (after_response w1)) with (S (tick w1)). by rewrite Hk1. }
  destruct H2 as (HR2 & HL2 & Hk2).
  assert (Hlast : last (l ++ [clock k]) = Some (clock k)) by apply last_snoc.
  destruct (server _ _) as [resp|].
  - destruct (_ && _).
    + split; [done|]. by right.
    + destruct (String.eqb _ _).
      * destruct (json_loads _); (split; [done|]); left;
          unfold new_timestamp; cbn [world_of]; by rewrite HL2, Hlast.
      * split; [done|]. left. unfold new_timestamp. cbn [world_of].
        by rewrite HL2, Hlast.
  - split; [done|]. by right.
Qed.

Lemma filter_all (P : Z -> Prop) `{!forall x, Decision (P x)} (l : list Z) :
  (forall x, x ∈ l -> P x) -> filter P l = l.
Proof.
  induction l as [|x rest IH]; intros Hall; [done|].
  rewrite filter_cons_True by (apply Hall; left).
  f_equal. apply IH. intros y Hy. apply Hall. by right.
Qed.

Lemma filter_none (P : Z -> Prop) `{!forall x, Decision (P x)} (l : list Z) :
  (forall x, x ∈ l -> ~ P x) -> filter P l = [].
Proof.
  induction l as [|x rest IH]; intros Hall; [done|].
  rewrite filter_cons_False by (apply Hall; left).
  apply IH. intros y Hy. apply Hall. by right.
Qed.

(** The step of the argument: the history [h] of timestamps is made of the
    tracked ones [l], of which there are at most three, and of expired ones,
    each at least a second older than some reading up to the [k]-th; then the
    [k]-th reading is at least a second later than the fourth timestamp from
    the end. *)
Lemma fifth_timestamp_spaced (h l expired : list Z) (k : nat) :
  clock_monotone ->
  h ≡ₚ l ++ expired ->
  (length l <= 3)%nat ->
  (forall e, e ∈ expired ->
     exists j : nat, (j <= k)%nat /\ (e + second <= clock j)%Z) ->
  (forall (i j : nat) a b,
     (i <= j)%nat -> h !! i = Some a -> h !! j = Some b -> (a <= b)%Z) ->
  forall (i : nat) a,
    h !! i = Some a -> (i + 4)%nat = length h -> (a + second <= clock k)%Z.
Proof.
  intros Hmono Hperm Hlen Hexp Hsorted i a Hi Hend.
  destruct (Z_le_gt_dec (a + second) (clock k)) as [|Hgt]; [done|]. exfalso.
  set (P := fun x : Z => (clock k - second < x)%Z).
  assert (Hlast : forall x, x ∈ drop i h -> P x).
  { intros x Hx. apply list_elem_of_lookup in Hx as (m & Hm).
    rewrite lookup_drop in Hm.
    pose proof (Hsorted i (i + m)%nat a x ltac:(lia) Hi Hm). unfold P. lia. }
  assert (Hcount : (4 <= length (filter P h))%nat).
  { rewrite <- (take_drop i h), filter_app, length_app.
    rewrite (filter_all P (drop i h) Hlast), length_drop. lia. }
  assert (Hnone : filter P expired = []).
  { apply filter_none. intros e He HP.
    destruct (Hexp e He) as (j & Hj & Hle).
    pose proof (Hmono j k Hj). unfold P in HP. lia. }
  rewrite Hperm, filter_app, Hnone, app_nil_r in Hcount.
  pose proof (length_filter P l). lia.
Qed.

Lemma recorded_cons fuel url p output rest w :
  recorded fuel ((url, p, output) :: rest) w
  = match _get fuel url p output w with
    | Spin _ => []
    | r => new_timestamp r ++ recorded fuel rest (world_of r)
    end.
Proof. reflexivity. Qed.

Lemma recorded_step fuel url p output rest w :
  (forall w', _get fuel url p output w <> Spin w') ->
  recorded fuel ((url, p, output) :: rest) w
  = new_timestamp (_get fuel url p output w)
    ++ recorded fuel rest (world_of (_get fuel url p output w)).
Proof.
  intros H. rewrite recorded_cons.
  destruct (_get fuel url p output w) as [a w'|e w'|w']; [done..|].
  by destruct (H w').
Qed.

(** The invariant of a series of calls of [_get] under a clock that does not
    go back: the history stays sorted and spaced. *)
Lemma recorded_spaced_from fuel calls :
  clock_monotone ->
  forall (w : World) (h expired : list Z),
    _rateLimit (self w) = 3%Z ->
    h ≡ₚ _requestsMade (self w) ++ expired ->
    (forall e, e ∈ expired ->
       exists j : nat, (j < tick w)%nat /\ (e + second <= clock j)%Z) ->
    (forall x (j : nat), x ∈ h -> (tick w <= j)%nat -> (x <= clock j)%Z) ->
    (forall (i j : nat) a b,
       (i <= j)%nat -> h !! i = Some a -> h !! j = Some b -> (a <= b)%Z) ->
    spaced h ->
    spaced (h ++ recorded fuel calls w).
Proof.
  intros Hmono.
  induction calls as [|[[url p] output] rest IH];
    intros w h expired HR Hperm Hexp Hbound Hsorted Hspaced.
  { simpl. by rewrite app_nil_r. }
  assert (Hcases : (exists w', _get fuel url p output w = Spin w') \/
                   (forall w', _get fuel url p output w <> Spin w')).
  { destruct (_get fuel url p output w) as [a w'|e w'|w']; [by right..|].
    left. by exists w'. }
  destruct Hcases as [[w' Hspin] | Hrun].
  { rewrite recorded_cons, Hspin. by rewrite app_nil_r. }
  rewrite recorded_step by done.
  destruct (_get_limiter_step fuel url p output w Hrun) as
    (l & k & dropped & Hp & Hd & Hk & Hl & HR' & Hcase).
  set (w' := world_of (_get fuel url p output w)) in *.
  destruct Hcase as [(Hnew & HL & Ht) | (Hnew & HL & Ht)]; rewrite Hnew.
  - (* a timestamp was appended *)
    rewrite app_assoc.
    apply (IH w' (h ++ [clock k]) (dropped ++ expired)).
    + by rewrite HR'.
    + rewrite HL, Hperm, Hp. rewrite <- !app_assoc.
      f_equiv. rewrite (Permutation_app_comm [clock k]). by rewrite <- !app_assoc.
    + intros x Hx. rewrite Ht. apply elem_of_app in Hx as [Hx|Hx].
      * destruct (Hd x Hx) as (j & Hj & Hle). exists j. split; [lia|done].
      * destruct (Hexp x Hx) as (j & Hj & Hle). exists j. split; [lia|done].
    + intros x j Hx Hj. rewrite Ht in Hj. apply elem_of_app in Hx as [Hx|Hx].
      * apply Hbound; [done | lia].
      * apply list_elem_of_singleton in Hx as ->. apply Hmono. lia.
    + intros i j x y Hij Hi Hj.
      destruct (decide (j < length h)%nat) as [Hlt|Hge].
      * rewrite lookup_app_l in Hi by lia. rewrite lookup_app_l in Hj by lia.
        by apply (Hsorted i j).
      * rewrite lookup_app_r in Hj by lia.
        apply list_lookup_singleton_Some in Hj as [_ <-].
        destruct (decide (i < length h)%nat) as [Hlt|Hge'].
        -- rewrite lookup_app_l in Hi by lia.
           apply list_elem_of_lookup_2 in Hi. by apply Hbound.
        -- rewrite lookup_app_r in Hi by lia.
           by apply list_lookup_singleton_Some in Hi as [_ <-].
    + intros i x y Hi Hj.
      destruct (decide (i + 4 < length h)%nat) as [Hlt|Hge].
      * rewrite lookup_app_l in Hi by lia. rewrite lookup_app_l in Hj by lia.
        by apply (Hspaced i).
      * rewrite lookup_app_r in Hj by lia.
        apply list_lookup_singleton_Some in Hj as [Hidx <-].
        rewrite lookup_app_l in Hi by lia.
        apply (fifth_timestamp_spaced h l (dropped ++ expired) k Hmono) with (i := i);
          try done.
        -- by rewrite Hperm, Hp, <- app_assoc.
        -- rewrite HR in Hl. lia.
        -- intros e0 He0. apply elem_of_app in He0 as [He0|He0].
           ++ destruct (Hd e0 He0) as (j & Hj & Hle). exists j. split; [lia|done].
           ++ destruct (Hexp e0 He0) as (j & Hj & Hle). exists j. split; [lia|done].
        -- lia.
  - (* no timestamp was appended *)
    cbn [app].
    apply (IH w' h (dropped ++ expired)); try done.
    + by rewrite HR'.
    + rewrite HL, Hperm, Hp. by rewrite <- app_assoc.
    + intros x Hx. rewrite Ht. apply elem_of_app in Hx as [Hx|Hx].
      * by apply Hd.
      * destruct (Hexp x Hx) as (j & Hj & Hle). exists j. split; [lia|done].
    + intros x j Hx Hj. rewrite Ht in Hj. apply Hbound; [done | lia].
Qed.

(** The rate the limiter enforces. Under a clock that does not go back, on a
    client with the ceiling 3 and no timestamp yet, the timestamps recorded
    by any series of calls of [_get] are spaced: any five consecutive ones
    span at least a second, so at most four requests pass the status check
    within less than a second. *)
Theorem recorded_timestamps_spaced
  (fuel : nat) (calls : list (string * loc * string)) (w : World) :
  clock_monotone ->
  _rateLimit (self w) = 3%Z ->
  _requestsMade (self w) = [] ->
  spaced (recorded fuel calls w).
Proof.
  intros Hmono HR Hempty.
  apply (recorded_spaced_from fuel calls Hmono w [] []); try done.
  - by rewrite Hempty.
  - intros e He. by apply elem_of_nil in He.
  - intros x j Hx. by apply elem_of_nil in Hx.
Qed.

(** ** The archived method [_getArticleIds] *)

Lemma dict_getitem_int_with_params key z d w :
  d !! key = Some (PInt z) ->
  dict_getitem_int (fresh_loc w) key (with_params d w) = Return z (with_params d w).
Proof.
  intros H. unfold dict_getitem_int. by rewrite deref_with_params, H.
Qed.

Lemma _getArticleIds_eq fuel q max_results w :
  _getArticleIds fuel q max_results w =
  bind (_get fuel "/entrez/eutils/esearch.fcgi" (fresh_loc w) "json")
    (read_ids fuel (fresh_loc w) max_results)
    (with_params
       (<["retmax" := PInt (if (max_results <? 50000)%Z then max_results else 50000)]>
          (<["term" := PStr q]> (deref (parameters (self w)) w))) w).
Proof.
  unfold _getArticleIds. unfold bind at 1. rewrite dict_copy_eq.
  unfold bind at 1. rewrite dict_setitem_with_params.
  unfold bind at 1. rewrite dict_setitem_with_params.
  unfold bind at 1.
  rewrite (dict_getitem_int_with_params "retmax" 50000) by apply lookup_insert_eq.
  unfold bind at 1.
  destruct (max_results <? 50000)%Z.
  - rewrite dict_setitem_with_params, insert_insert_eq. reflexivity.
  - reflexivity.
Qed.

Lemma _getArticleIds_loop_exit fuel fuel_get p ids total retrieved max_results :
  ((retrieved <? total) && (retrieved <? max_results))%Z = false ->
  _getArticleIds_loop fuel fuel_get p ids total retrieved max_results = ret ids.
Proof. intros H. destruct fuel; simpl; by rewrite H. Qed.

(** The log only grows. *)
Lemma _get_sent_grows fuel url p output w :
  exists more, sent (world_of (_get fuel url p output w)) = sent w ++ more.
Proof.
  destruct (_get_sent fuel url p output w) as (l & k & [-> | ->]).
  - exists []. by rewrite app_nil_r.
  - by eexists.
Qed.

Lemma extend_static l x w : world_of (extend l x w) = w.
Proof. by destruct x. Qed.

Lemma bind_sent_grows {A B} (m : M A) (k : A -> M B) w :
  (exists more, sent (world_of (m w)) = sent w ++ more) ->
  (forall a w1, exists more, sent (world_of (k a w1)) = sent w1 ++ more) ->
  exists more, sent (world_of (bind m k w)) = sent w ++ more.
Proof.
  intros [more1 Hm] Hk. unfold bind.
  destruct (m w) as [a w1|e w1|w1]; [|by exists more1..].
  destruct (Hk a w1) as [more2 H2]. exists (more1 ++ more2).
  simpl in Hm. by rewrite H2, Hm, app_assoc.
Qed.

Lemma static_sent_grows {A} (m : M A) w :
  world_of (m w) = w -> exists more, sent (world_of (m w)) = sent w ++ more.
Proof. intros ->. exists []. by rewrite app_nil_r. Qed.

Lemma _getArticleIds_loop_sent_grows fuel fuel_get p :
  forall ids total retrieved max_results w,
    exists more,
      sent (world_of (_getArticleIds_loop fuel fuel_get p ids total retrieved
                        max_results w))
      = sent w ++ more.
Proof.
  induction fuel as [|fuel IH]; intros ids total retrieved max_results w; simpl.
  - destruct (_ && _)%Z; exists []; by rewrite app_nil_r.
  - destruct (_ && _)%Z; [|exists []; by rewrite app_nil_r].
    apply bind_sent_grows.
    { apply static_sent_grows. unfold dict_getitem_int.
      by destruct (deref p w !! "retmax") as [[]|]. }
    intros retmax w1.
    apply bind_sent_grows.
    { destruct (_ <? _)%Z; exists []; by rewrite app_nil_r. }
    intros _ w2.
    apply bind_sent_grows; [exists []; by rewrite app_nil_r|]. intros _ w3.
    apply bind_sent_grows; [apply _get_sent_grows|]. intros response w4.
    apply bind_sent_grows; [apply static_sent_grows, payload_get_static|]. intros ? ?.
    apply bind_sent_grows; [apply static_sent_grows, json_get_world|]. intros ? ?.
    apply bind_sent_grows; [apply static_sent_grows, extend_static|]. intros ? ?.
    apply bind_sent_grows; [apply static_sent_grows, payload_get_static|]. intros ? ?.
    apply bind_sent_grows; [apply static_sent_grows, json_get_world|]. intros ? ?.
    apply bind_sent_grows; [apply static_sent_grows, int_world|]. intros ? ?.
    apply IH.
Qed.

Lemma read_ids_sent_grows fuel p max_results response w :
  exists more,
    sent (world_of (read_ids fuel p max_results response w)) = sent w ++ more.
Proof.
  unfold read_ids.
  apply bind_sent_grows; [apply static_sent_grows, payload_get_static|]. intros ? ?.
  apply bind_sent_grows; [apply static_sent_grows, json_get_world|]. intros ? ?.
  apply bind_sent_grows; [apply static_sent_grows, extend_static|]. intros ? ?.
  apply bind_sent_grows; [apply static_sent_grows, payload_get_static|]. intros ? ?.
  apply bind_sent_grows; [apply static_sent_grows, json_get_world|]. intros ? ?.
  apply bind_sent_grows; [apply static_sent_grows, int_world|]. intros ? ?.
  apply bind_sent_grows; [apply static_sent_grows, payload_get_static|]. intros ? ?.
  apply bind_sent_grows; [apply static_sent_grows, json_get_world|]. intros ? ?.
  apply bind_sent_grows; [apply static_sent_grows, int_world|]. intros ? ?.
  apply _getArticleIds_loop_sent_grows.
Qed.

(** The first request of [_getArticleIds] is a search, in JSON, whose
    parameters are the template's items, the term, and as [retmax] the
    smaller of [max_results] and 50,000; the value [-1] that stands for no
    limit is sent as [retmax] like any other. Every later request comes
    after it in the log. *)
Theorem _getArticleIds_first_request (q : string) (max_results : Z) (w : World) :
  clock_advances ->
  (0 <= _rateLimit (self w))%Z ->
  let first_request :=
    mkRequest (BASE_URL +:+ "/entrez/eutils/esearch.fcgi")
      (<["retmode" := PStr "json"]>
         (<["retmax" := PInt (Z.min max_results 50000)]>
            (<["term" := PStr q]> (deref (parameters (self w)) w)))) in
  exists fuel0 : nat, forall fuel : nat, (fuel0 <= fuel)%nat ->
    exists later,
      sent (world_of (_getArticleIds fuel q max_results w))
      = sent w ++ first_request :: later.
Proof.
  intros Hadv HR first_request.
  assert (Hfirst : first_request
                   = ids_request (deref (parameters (self w)) w) q max_results).
  { unfold first_request, ids_request. do 4 f_equal.
    destruct (max_results <? 50000)%Z eqn:E; lia. }
  set (d := <["retmax" := PInt (if (max_results <? 50000)%Z then max_results
                                 else 50000)]>
              (<["term" := PStr q]> (deref (parameters (self w)) w))).
  destruct (_get_converges "/entrez/eutils/esearch.fcgi" (fresh_loc w) "json"
              (with_params d w) Hadv HR) as (fuel0 & l & k & _ & _ & _ & Hget).
  exists fuel0. intros fuel Hf. rewrite _getArticleIds_eq. fold d.
  unfold bind. rewrite (Hget fuel Hf).
  pose proof (send_sent "/entrez/eutils/esearch.fcgi" (fresh_loc w) "json"
                (after_check l k (with_params d w))) as Hsent.
  rewrite request_of_with_params, after_check_sent, with_params_sent in Hsent.
  unfold d in Hsent.
  fold (ids_request (deref (parameters (self w)) w) q max_results) in Hsent.
  rewrite <- Hfirst in Hsent.
  destruct (send _ _ _ _) as [r w1|e w1|w1]; simpl in Hsent.
  - destruct (read_ids_sent_grows fuel (fresh_loc w) max_results r w1) as [more Hm].
    exists more. by rewrite Hm, Hsent, <- app_assoc.
  - by exists [].
  - by exists [].
Qed.

(** When the first answer already covers what was asked for (it reports at
    least as many results retrieved as there are, or as [max_results] asks
    for, the total standing in for [max_results = -1]), [_getArticleIds]
    sends that one request and returns the ids of the answer. *)
Theorem _getArticleIds_single_page
  (q : string) (max_results : Z) (w : World) (response : Response)
  (top result : list (string * json)) (ids : list json) (count retmax : json)
  (total retrieved : Z) :
  clock_advances ->
  (0 <= _rateLimit (self w))%Z ->
  let first_request := ids_request (deref (parameters (self w)) w) q max_results in
  server (sent w) first_request = Some response ->
  ((400 <=? status_code response) && (status_code response <? 600))%Z = false ->
  json_loads (text response) = Some (JObj top) ->
  last_member "esearchresult" top = Some (JObj result) ->
  last_member "idlist" result = Some (JArr ids) ->
  last_member "count" result = Some count ->
  int count = ret total ->
  last_member "retmax" result = Some retmax ->
  int retmax = ret retrieved ->
  (total <= retrieved \/
   (if (max_results =? -1) then total else max_results) <= retrieved)%Z ->
  exists fuel0 : nat, forall fuel : nat, (fuel0 <= fuel)%nat ->
    exists w',
      _getArticleIds fuel q max_results w = Return ids w' /\
      sent w' = sent w ++ [first_request].
Proof.
  intros Hadv HR first_request Hsrv Hok Hjson Htop Hids Hcount Htotal Hretmax
    Hretrieved Hdone.
  set (d := <["retmax" := PInt (if (max_results <? 50000)%Z then max_results
                                 else 50000)]>
              (<["term" := PStr q]> (deref (parameters (self w)) w))).
  destruct (_get_converges "/entrez/eutils/esearch.fcgi" (fresh_loc w) "json"
              (with_params d w) Hadv HR) as (fuel0 & l & k & _ & _ & _ & Hget).
  exists fuel0. intros fuel Hf. rewrite _getArticleIds_eq. fold d.
  unfold bind at 1. rewrite (Hget fuel Hf), send_on_copy. cbv zeta.
  unfold d at 1. fold (ids_request (deref (parameters (self w)) w) q max_results).
  fold first_request. rewrite Hsrv, Hok. cbn [String.eqb Ascii.eqb Bool.eqb].
  rewrite Hjson.
  set (w1 := after_response _).
  assert (Hsent : sent w1 = sent w ++ [first_request]).
  { unfold w1. rewrite after_response_sent, after_request_sent,
      request_of_with_params, after_check_sent, with_params_sent. done. }
  exists w1. split; [|done].
  unfold read_ids.
  cbv beta iota delta [bind payload_get json_get ret].
  rewrite Htop. cbv beta iota delta [default from_option id].
  rewrite Hids, Hcount, Hretmax.
  cbv beta iota delta [default from_option id extend app ret].
  rewrite Htotal, Hretrieved. cbv beta iota delta [ret].
  rewrite _getArticleIds_loop_exit; [done|].
  destruct (max_results =? -1)%Z; lia.
Qed.

(** [_get] for JSON against a service that gives the same good answer to
    every request: it returns the decoded body, unless it is left polling. *)
Lemma _get_json_constant fuel url p w response j :
  (forall history r, server history r = Some response) ->
  ((400 <=? status_code response) && (status_code response <? 600))%Z = false ->
  json_loads (text response) = Some j ->
  (exists w', _get fuel url p "json" w = Spin w') \/
  (exists l k,
     _get fuel url p "json" w
     = Return (PJson j)
         (after_response (after_request url p "json" (after_check l k w)))).
Proof.
  intros Hsrv Hok Hjson. rewrite _get_unfold. unfold bind.
  destruct (poll fuel w) as [[] w1|e w1|w1] eqn:E.
  - apply poll_returns in E as (l & k & -> & _). right. exists l, k.
    rewrite send_eq. cbv zeta. by rewrite Hsrv, Hok, Hjson.
  - by apply poll_never_raises in E.
  - left. by exists w1.
Qed.

Lemma retmax_after_get url p l k w :
  (exists z, deref p w !! "retmax" = Some (PInt z)) ->
  exists z,
    deref p (after_response (after_request url p "json" (after_check l k w)))
    !! "retmax" = Some (PInt z).
Proof.
  intros [z Hz]. exists z.
  unfold deref, after_response, after_request, set_requestsMade, set_tick,
    set_sent, set_heap. cbn [heap self].
  rewrite lookup_insert_eq. cbn [default from_option id].
  rewrite lookup_insert_ne by done. by rewrite after_check_deref.
Qed.

(** The loop when no progress is reported: it goes round as long as it is
    observed. *)
Lemma _getArticleIds_loop_stuck response top result ids retmax total max_results p
  fuel_get :
  (forall history r, server history r = Some response) ->
  ((400 <=? status_code response) && (status_code response <? 600))%Z = false ->
  json_loads (text response) = Some (JObj top) ->
  last_member "esearchresult" top = Some (JObj result) ->
  last_member "idlist" result = Some (JArr ids) ->
  last_member "retmax" result = Some retmax ->
  int retmax = ret 0%Z ->
  (0 < total)%Z ->
  (0 < max_results)%Z ->
  forall fuel article_ids w,
    (exists z, deref p w !! "retmax" = Some (PInt z)) ->
    exists w',
      _getArticleIds_loop fuel fuel_get p article_ids total 0 max_results w = Spin w'.
Proof.
  intros Hsrv Hok Hjson Htop Hids Hretmax Hzero Htotal Hmax.
  induction fuel as [|fuel IH]; intros article_ids w [z Hz]; simpl;
    replace ((0 <? total) && (0 <? max_results))%Z with true by lia.
  - by exists w.
  - unfold bind at 1. unfold dict_getitem_int. rewrite Hz.
    unfold bind at 1.
    set (w1 := world_of ((if (max_results - 0 <? z)%Z
                          then dict_setitem p "retmax" (PInt (max_results - 0))
                          else ret tt) w)).
    assert (Hstep1 : (if (max_results - 0 <? z)%Z
                      then dict_setitem p "retmax" (PInt (max_results - 0))
                      else ret tt) w = Return tt w1).
    { unfold w1. by destruct (max_results - 0 <? z)%Z. }
    assert (Hz1 : exists z1, deref p w1 !! "retmax" = Some (PInt z1)).
    { unfold w1. destruct (max_results - 0 <? z)%Z.
      - eexists. unfold dict_setitem, deref, set_heap. cbn [world_of heap].
        rewrite lookup_insert_eq. cbn [default from_option id].
        apply lookup_insert_eq.
      - by exists z. }
    rewrite Hstep1. unfold bind at 1. unfold dict_setitem at 1.
    set (w2 := set_heap _ w1).
    assert (Hz2 : exists z2, deref p w2 !! "retmax" = Some (PInt z2)).
    { destruct Hz1 as [z1 Hz1]. exists z1. unfold w2, deref, set_heap. cbn [heap].
      rewrite lookup_insert_eq. cbn [default from_option id].
      by rewrite lookup_insert_ne. }
    unfold bind at 1.
    destruct (_get_json_constant fuel_get "/entrez/eutils/esearch.fcgi" p w2
                response (JObj top) Hsrv Hok Hjson) as [[w' ->] | (l & k & ->)].
    + by exists w'.
    + cbv beta iota delta [bind payload_get json_get ret].
      rewrite Htop. cbv beta iota delta [default from_option id].
      rewrite Hids, Hretmax.
      cbv beta iota delta [default from_option id extend ret].
      rewrite Hzero. cbv beta iota delta [ret].
      change (0 + 0)%Z with 0%Z.
      apply IH. by apply retmax_after_get.
Qed.

(** A service that keeps answering that no result was retrieved ([retmax]
    reads 0) while results exist: [_getArticleIds] neither returns nor
    raises, however long it is observed; it goes on asking. *)
Theorem _getArticleIds_no_progress
  (q : string) (max_results : Z) (w : World) (response : Response)
  (top result : list (string * json)) (ids : list json) (count retmax : json)
  (total : Z) :
  (forall history r, server history r = Some response) ->
  ((400 <=? status_code response) && (status_code response <? 600))%Z = false ->
  json_loads (text response) = Some (JObj top) ->
  last_member "esearchresult" top = Some (JObj result) ->
  last_member "idlist" result = Some (JArr ids) ->
  last_member "count" result = Some count ->
  int count = ret total ->
  last_member "retmax" result = Some retmax ->
  int retmax = ret 0%Z ->
  (0 < total)%Z ->
  (max_results = -1 \/ 0 < max_results)%Z ->
  forall fuel : nat, exists w', _getArticleIds fuel q max_results w = Spin w'.
Proof.
  intros Hsrv Hok Hjson Htop Hids Hcount Htotal Hretmax Hzero Hpos Hmax fuel.
  rewrite _getArticleIds_eq. unfold bind at 1.
  set (d := <["retmax" := PInt (if (max_results <? 50000)%Z then max_results
                                 else 50000)]>
              (<["term" := PStr q]> (deref (parameters (self w)) w))).
  destruct (_get_json_constant fuel "/entrez/eutils/esearch.fcgi" (fresh_loc w)
              (with_params d w) response (JObj top) Hsrv Hok Hjson)
    as [[w' ->] | (l & k & ->)].
  - by exists w'.
  - unfold read_ids.
    cbv beta iota delta [bind payload_get json_get ret].
    rewrite Htop. cbv beta iota delta [default from_option id].
    rewrite Hids, Hcount, Hretmax.
    cbv beta iota delta [default from_option id extend app ret].
    rewrite Htotal, Hzero. cbv beta iota delta [ret].
    apply (_getArticleIds_loop_stuck response top result ids retmax total
             (if (max_results =? -1)%Z then total else max_results)
             (fresh_loc w) fuel Hsrv Hok Hjson Htop Hids Hretmax Hzero Hpos).
    + destruct (max_results =? -1)%Z eqn:E; lia.
    + apply retmax_after_get. eexists.
      rewrite deref_with_params. unfold d. apply lookup_insert_eq.
Qed.

(** ** No call is left polling *)

Lemma settles_const {A} (m : M A) w :
  (forall w', m w <> Spin w') -> settles (fun _ => m) w.
Proof. intros H. by exists 0%nat, (m w). Qed.

Lemma settles_bind {A B} (m : nat -> M A) (k : nat -> A -> M B) w :
  settles m w ->
  (forall a w1, (exists fuel, m fuel w = Return a w1) ->
     settles (fun fuel => k fuel a) w1) ->
  settles (fun fuel => bind (m fuel) (k fuel)) w.
Proof.
  intros (fuel0 & r & Hr & Hspin) Hk.
  destruct r as [a w1|e w1|w1].
  - destruct (Hk a w1) as (fuel1 & r' & Hr' & Hspin').
    { exists fuel0. by apply Hr. }
    exists (Nat.max fuel0 fuel1), r'. split; [|done].
    intros fuel Hf. unfold bind. rewrite Hr by lia. apply Hr'. lia.
  - exists fuel0, (Raise e w1). split; [|done].
    intros fuel Hf. unfold bind. by rewrite Hr.
  - by destruct (Hspin w1).
Qed.

Lemma settles_forget {A} (m : nat -> M A) w :
  settles m w -> settles (fun fuel w1 => forget (m fuel w1)) w.
Proof.
  intros (fuel0 & r & Hr & Hspin). exists fuel0, (forget r). split.
  - intros fuel Hf. by rewrite Hr.
  - intros w'. destruct r as [a w1|e w1|w1]; [done..|]. by destruct (Hspin w1).
Qed.

(** The ceiling is not negative, and stays so. *)
Lemma ceiling_kept_request fuel url output d w :
  (0 <= _rateLimit (self w))%Z -> request_shape url output d w ->
  (0 <= _rateLimit (self (world_of (_get fuel url (fresh_loc w) output
                                      (with_params d w)))))%Z.
Proof.
  intros H _.
  destruct (_get_world fuel url (fresh_loc w) output (with_params d w))
    as (l & k & _ & _ & [-> | [_ [-> | ->]]]);
    by destruct w as [[] ? ? ?].
Qed.

Lemma ceiling_kept_copy d w :
  (0 <= _rateLimit (self w))%Z -> agrees (deref (parameters (self w)) w) d ->
  (0 <= _rateLimit (self (with_params d w)))%Z.
Proof. by intros H _. Qed.

Section Settling.

Hypothesis advancing : clock_advances.

Lemma settles_getTotalResultsCount q w :
  (0 <= _rateLimit (self w))%Z ->
  settles (fun fuel => getTotalResultsCount fuel q) w.
Proof.
  intros HR.
  destruct (getTotalResultsCount_converges q w advancing HR) as (fuel0 & l & k & H).
  eexists fuel0, _. split; [exact H|].
  apply (bind_static_tail _ read_count _ read_count_static).
  intros w'. apply send_not_spin.
Qed.

Lemma settles__getPubMedData q max_results w :
  (0 <= _rateLimit (self w))%Z ->
  settles (fun fuel => _getPubMedData fuel q max_results) w.
Proof.
  intros HR.
  destruct (_getPubMedData_converges q max_results w advancing HR)
    as (fuel0 & r & Hr & _ & Hspin & _).
  by exists fuel0, r.
Qed.

Lemma settles__getArticlesEnv_body qd start end_ w :
  (0 <= _rateLimit (self w))%Z ->
  settles (fun fuel => _getArticlesEnv_body fuel qd start end_) w.
Proof.
  intros HR.
  destruct (qd !! "query_key") as [qk|] eqn:Hqk.
  - destruct (qd !! "WebEnv") as [we|] eqn:Hwe.
    + destruct (_getArticlesEnv_body_converges qd start end_ qk we w advancing HR
                  Hqk Hwe) as (fuel0 & r & Hr & _ & Hspin & _).
      by exists fuel0, r.
    + eexists 0%nat, _.
      split; [intros fuel _; by apply (_getArticlesEnv_body_no_WebEnv _ _ _ _ qk)|done].
  - eexists 0%nat, _.
    split; [intros fuel _; by apply _getArticlesEnv_body_no_query_key|done].
Qed.

Lemma settles_drain g w :
  (0 <= _rateLimit (self w))%Z -> settles (fun fuel => drain fuel g) w.
Proof.
  intros HR. unfold drain. destruct (gen_exhausted g).
  - by apply settles_const.
  - by apply settles__getArticlesEnv_body.
Qed.

Lemma settles_chain_from_iterable windows : forall w,
  (0 <= _rateLimit (self w))%Z ->
  settles (fun fuel => chain_from_iterable fuel windows) w.
Proof.
  induction windows as [|[start end_] rest IH]; intros w HR; simpl.
  - by apply settles_const.
  - apply (settles_bind
             (fun _ => fun w0 => Return (default ∅ (query_data (self w0))) w0)
             (fun fuel qd =>
                do records <- drain fuel (_getArticlesEnv qd start end_);
                do more <- chain_from_iterable fuel rest;
                ret (records ++ more))).
    { by apply settles_const. }
    intros qd w1 [_ [= <- <-]].
    apply (settles_bind
             (fun fuel => drain fuel (_getArticlesEnv _ start end_))
             (fun fuel records =>
                do more <- chain_from_iterable fuel rest;
                ret (records ++ more))).
    { by apply settles_drain. }
    intros records w2 [fuel Hd].
    assert (HR2 : (0 <= _rateLimit (self w2))%Z).
    { pose proof (I_drain (fun w0 => (0 <= _rateLimit (self w0))%Z)
                    ceiling_kept_request ceiling_kept_copy fuel
                    (_getArticlesEnv (default ∅ (query_data (self w))) start end_)
                    w HR) as H.
      by rewrite Hd in H. }
    apply (settles_bind
             (fun fuel => chain_from_iterable fuel rest)
             (fun _ more => ret (records ++ more))).
    { by apply IH. }
    intros more w3 _. by apply settles_const.
Qed.

Lemma settles_query q max_results w :
  (0 <= _rateLimit (self w))%Z ->
  settles (fun fuel => query fuel q max_results) w.
Proof.
  intros HR. unfold query.
  apply (settles_bind
           (fun fuel => _getPubMedData fuel q max_results)
           (fun fuel qd =>
              do _ <- (fun w0 => Return tt (set_query_data qd w0));
              do _ <- (if (max_results >? 10000)%Z
                       then do records <- chain_from_iterable fuel
                                            (split_range max_results);
                            fun w0 => Return tt (set_articles (inl records) w0)
                       else do qd' <- (fun w0 =>
                                         Return (default ∅ (query_data (self w0))) w0);
                            fun w0 => Return tt
                              (set_articles
                                 (inr (_getArticlesEnv qd' 0 max_results)) w0));
              fun w0 => match articles (self w0) with
                        | Some a => Return a w0
                        | None => Raise AttributeError w0
                        end)).
  { by apply settles__getPubMedData. }
  intros qd w1 [fuel Hs].
  assert (HR1 : (0 <= _rateLimit (self w1))%Z).
  { pose proof (I__getPubMedData (fun w0 => (0 <= _rateLimit (self w0))%Z)
                  ceiling_kept_request fuel q max_results w HR) as H.
    by rewrite Hs in H. }
  apply (settles_bind
           (fun _ => fun w0 => Return tt (set_query_data qd w0))
           (fun fuel _ =>
              do _ <- (if (max_results >? 10000)%Z
                       then do records <- chain_from_iterable fuel
                                            (split_range max_results);
                            fun w0 => Return tt (set_articles (inl records) w0)
                       else do qd' <- (fun w0 =>
                                         Return (default ∅ (query_data (self w0))) w0);
                            fun w0 => Return tt
                              (set_articles
                                 (inr (_getArticlesEnv qd' 0 max_results)) w0));
              fun w0 => match articles (self w0) with
                        | Some a => Return a w0
                        | None => Raise AttributeError w0
                        end)).
  { by apply settles_const. }
  intros u w2 [_ Heq].
  assert (w2 = set_query_data qd w1) as -> by congruence. clear u Heq.
  assert (HR2 : (0 <= _rateLimit (self (set_query_data qd w1)))%Z)
    by (by destruct w1 as [[] ? ? ?]).
  apply (settles_bind
           (fun fuel =>
              if (max_results >? 10000)%Z
              then do records <- chain_from_iterable fuel (split_range max_results);
                   fun w0 => Return tt (set_articles (inl records) w0)
              else do qd' <- (fun w0 =>
                                Return (default ∅ (query_data (self w0))) w0);
                   fun w0 => Return tt
                     (set_articles (inr (_getArticlesEnv qd' 0 max_results)) w0))
           (fun _ _ => fun w0 => match articles (self w0) with
                                 | Some a => Return a w0
                                 | None => Raise AttributeError w0
                                 end)).
  - destruct (max_results >? 10000)%Z.
    + apply (settles_bind
               (fun fuel => chain_from_iterable fuel (split_range max_results))
               (fun _ records => fun w0 => Return tt (set_articles (inl records) w0))).
      { by apply settles_chain_from_iterable. }
      intros records w3 _. by apply settles_const.
    + by apply settles_const.
  - intros _ w3 _. apply settles_const. intros w'.
    by destruct (articles (self w3)).
Qed.

Lemma settles_iterate_articles w :
  (0 <= _rateLimit (self w))%Z -> settles iterate_articles w.
Proof.
  intros HR. unfold iterate_articles.
  destruct (articles (self w)) as [[records|g]|] eqn:Ha.
  - exists 0%nat, (Return records w). split; [|done]. intros fuel _. by rewrite Ha.
  - set (w1 := set_articles
                 (inr (mkGenerator (gen_query_data g) (gen_start g) (gen_end g) true)) w).
    assert (HR1 : (0 <= _rateLimit (self w1))%Z) by (by destruct w as [[] ? ? ?]).
    destruct (settles_drain g w1 HR1) as (fuel0 & r & Hr & Hspin).
    exists fuel0, r. split; [|done]. intros fuel Hf. rewrite Ha. by apply Hr.
  - exists 0%nat, (Raise AttributeError w). split; [|done].
    intros fuel _. by rewrite Ha.
Qed.

Lemma settles_run_call c w :
  (0 <= _rateLimit (self w))%Z -> settles (fun fuel => run_call fuel c) w.
Proof.
  intros HR. destruct c as [q n| |q]; unfold run_call.
  - apply (settles_forget (fun fuel => query fuel q n)). by apply settles_query.
  - apply (settles_forget iterate_articles). by apply settles_iterate_articles.
  - apply (settles_forget (fun fuel => getTotalResultsCount fuel q)).
    by apply settles_getTotalResultsCount.
Qed.

End Settling.

(** Under a clock that advances, on a client whose ceiling is not negative,
    no series of calls of [query], of iterating over its result and of
    [getTotalResultsCount] is left polling: observed long enough, every call
    has returned or raised, whatever the service answers. *)
Theorem calls_settle (cs : list call) (w : World) :
  clock_advances ->
  (0 <= _rateLimit (self w))%Z ->
  settles (fun fuel => run_calls fuel cs) w.
Proof.
  intros Hadv. revert w. induction cs as [|c rest IH]; intros w HR; simpl.
  - by apply settles_const.
  - apply (settles_bind (fun fuel => run_call fuel c)
                        (fun fuel _ => run_calls fuel rest)).
    { by apply settles_run_call. }
    intros u w1 [fuel Hc]. apply IH.
    pose proof (I_run_call (fun w0 => (0 <= _rateLimit (self w0))%Z)
                  ceiling_kept_request ceiling_kept_copy
                  ltac:(by intros d w0; destruct w0 as [[] ? ? ?])
                  ltac:(by intros a w0; destruct w0 as [[] ? ? ?])
                  fuel c w HR) as H.
    by rewrite Hc in H.
Qed.

(** ** The windows of a query *)

(** Under an advancing clock [query] and the iteration over its result get
    through their polling loops. *)
Lemma query_then_iterate_settle q max_results w d :
  clock_advances ->
  template_kept (parameters (self w)) d w ->
  exists fuel0 : nat, forall fuel : nat, (fuel0 <= fuel)%nat ->
    (forall w', query fuel q max_results w <> Spin w') /\
    forall a w1, query fuel q max_results w = Return a w1 ->
      forall w', iterate_articles fuel w1 <> Spin w'.
Proof.
  intros Hadv Hw.
  assert (HR : (0 <= _rateLimit (self w))%Z) by (destruct Hw as (_ & _ & ->); lia).
  destruct (settles_query Hadv q max_results w HR) as (fuel1 & r & Hr & Hns).
  destruct r as [a w1|e w1|w1].
  - assert (HR1 : (0 <= _rateLimit (self w1))%Z).
    { pose proof (keeps_query (parameters (self w)) d fuel1 q max_results w Hw)
        as [Hk _].
      rewrite (Hr fuel1 (le_n _)) in Hk. cbn [world_of] in Hk.
      destruct Hk as (_ & _ & Hk). rewrite Hk. lia. }
    destruct (settles_iterate_articles Hadv w1 HR1) as (fuel2 & r2 & Hr2 & Hns2).
    exists (Nat.max fuel1 fuel2). intros fuel Hf. rewrite Hr by lia.
    split; [done|]. intros a' w1' [= <- <-]. rewrite Hr2 by lia. done.
  - exists fuel1. intros fuel Hf. rewrite Hr by lia. split; [done|]. intros ? ? [=].
  - by destruct (Hns w1).
Qed.

(** C4. For a positive [max_results], on a client whose template is intact:
    whenever [query] returns and its result has been iterated over to its
    end, the requests sent are the search followed by one fetch per window,
    each fetch naming its window by [retstart] (the start) and [retmax] (the
    end), and those windows tile [0, max_results): they follow one another
    from 0 to [max_results], each starting where the one before ends, each
    non-empty and at most 10,000 wide; an index lies in [0, max_results)
    exactly when a window holds it; and a later window starts no earlier than
    an earlier one ends. Under an advancing clock neither [query] nor the
    iteration is left polling once the budget is large enough. *)
Theorem C4_windows_partition
  (q : string) (max_results : Z) (w : World) (d : gmap string pyval) :
  template_kept (parameters (self w)) d w ->
  (0 < max_results)%Z ->
  (forall (fuel fuel' : nat) (a : list Record + Generator) (w1 : World)
          (records : list Record) (w2 : World),
     query fuel q max_results w = Return a w1 ->
     iterate_articles fuel' w1 = Return records w2 ->
     exists (qk we : pyval) (ws : list (Z * Z)),
       sent w2 = sent w ++ search_request d q max_results
                   :: map (fun win => fetch_request d qk we win.1 win.2) ws /\
       tiles 0 max_results ws /\
       (forall i : Z,
           (0 <= i < max_results)%Z <->
           exists win, win ∈ ws /\ (win.1 <= i < win.2)%Z) /\
       (forall (j k : nat) win1 win2,
           (j < k)%nat -> ws !! j = Some win1 -> ws !! k = Some win2 ->
           (win1.2 <= win2.1)%Z) /\
       (forall win, win ∈ ws -> (0 < win.2 - win.1 <= 10000)%Z)) /\
  (clock_advances ->
   exists fuel0 : nat, forall fuel : nat, (fuel0 <= fuel)%nat ->
     (forall w', query fuel q max_results w <> Spin w') /\
     forall a w1, query fuel q max_results w = Return a w1 ->
       forall w', iterate_articles fuel w1 <> Spin w').
Proof.
  intros Hw Hpos. split; [|intros Hadv; by apply (query_then_iterate_settle _ _ _ d)].
  intros fuel fuel' a w1 records w2 H1 H2.
  destruct (Z_le_gt_dec max_results 10000) as [Hle|Hgt].
  - destruct (query_small_returns _ _ _ _ _ _ _ _ _ _ Hw Hle H1 H2)
      as (qk & we & Hsent).
    exists qk, we, [(0%Z, max_results)]. split; [exact Hsent|].
    assert (Ht : tiles 0 max_results [(0%Z, max_results)])
      by (apply single_window_tiles; lia).
    split; [exact Ht|]. by apply tiles_partition.
  - assert (Hbig : (10000 < max_results)%Z) by lia.
    destruct (query_large_returns _ _ _ _ _ _ _ Hw Hbig H1)
      as (qk & we & records0 & -> & Ha & Hsent).
    assert (Hw2 : w2 = w1).
    { unfold iterate_articles in H2. rewrite Ha in H2. by injection H2 as _ ->. }
    subst w2.
    exists qk, we, (split_range max_results). split; [exact Hsent|].
    assert (Ht : tiles 0 max_results (split_range max_results))
      by (by apply split_range_tiles).
    split; [exact Ht|]. by apply tiles_partition.
Qed.

(** C2 (amended). Above 20,000 results, on a client whose template is
    intact: whenever [query] returns, the requests it has sent are the search
    followed by one fetch per window, each fetch naming its window by
    [retstart] and [retmax], and the windows are not cut at 20,000: they tile
    [0, max_results), the last one starts at or beyond 20,000 and ends at
    [max_results], and every index from 20,000 up to [max_results] lies in
    one of them. Under an advancing clock [query] is not left polling once
    the budget is large enough. *)
Theorem C2_windows_reach_max_results
  (q : string) (max_results : Z) (w : World) (d : gmap string pyval) :
  template_kept (parameters (self w)) d w ->
  (20000 < max_results)%Z ->
  (forall (fuel : nat) (a : list Record + Generator) (w' : World),
     query fuel q max_results w = Return a w' ->
     exists (qk we : pyval) (ws : list (Z * Z)),
       sent w' = sent w ++ search_request d q max_results
                   :: map (fun win => fetch_request d qk we win.1 win.2) ws /\
       tiles 0 max_results ws /\
       (exists win, last ws = Some win /\ win.2 = max_results /\ (20000 <= win.1)%Z) /\
       (forall i : Z, (20000 <= i < max_results)%Z ->
          exists win, win ∈ ws /\ (win.1 <= i < win.2)%Z)) /\
  (clock_advances ->
   exists fuel0 : nat, forall fuel : nat, (fuel0 <= fuel)%nat ->
     forall w', query fuel q max_results w <> Spin w').
Proof.
  intros Hw Hbig. split.
  - intros fuel a w' H.
    assert (Hbig' : (10000 < max_results)%Z) by lia.
    destruct (query_large_returns _ _ _ _ _ _ _ Hw Hbig' H)
      as (qk & we & records & _ & _ & Hsent).
    exists qk, we, (split_range max_results). split; [exact Hsent|].
    assert (Ht : tiles 0 max_results (split_range max_results))
      by (apply split_range_tiles; lia).
    split; [exact Ht|]. split; [by apply split_range_last|].
    intros i Hi. apply (tiles_cover _ 0 max_results); [done | lia].
  - intros Hadv.
    destruct (query_then_iterate_settle q max_results w d Hadv Hw) as (fuel0 & H).
    exists fuel0. intros fuel Hf. by apply (H fuel Hf).
Qed.

End Client.

(** ** The statements on the sample environments *)

Lemma steady_clock_advances : clock_advances steady_clock.
Proof.
  intros T. exists (Z.to_nat T). intros m Hm. unfold steady_clock. lia.
Qed.

(** The scenario of the specification: [query("cancer", 5)] on a new client,
    then iterating over the result. One search, one fetch, and the article
    record ahead of the book record although the book node comes first in
    the body. *)
Example query_cancer_5 :
  let run :=
    (do _ <- query steady_clock sample_server sample_json_loads sample_fromstring
               sample_encoding_declared sample_fromstring 1 "cancer" 5;
     iterate_articles steady_clock sample_server sample_json_loads
       sample_encoding_declared sample_fromstring 1) new_client in
  run = Return [PubMedArticle (Elem "PubmedArticle" None []);
                PubMedBookArticle (Elem "PubmedBookArticle" None [])]
          (world_of run) /\
  map (fun r => (req_url r, req_params r !! "retstart", req_params r !! "retmax"))
      (sent (world_of run))
  = [("https://eutils.ncbi.nlm.nih.gov/entrez/eutils/esearch.fcgi",
      None, Some (PInt 5));
     ("https://eutils.ncbi.nlm.nih.gov/entrez/eutils/efetch.fcgi",
      Some (PInt 0), Some (PInt 5))].
Proof. split; vm_compute; reflexivity. Qed.

(** C1 at four requests made in the same instant, on a new client with the
    ceiling 3 whose clock stands still: three calls leave three timestamps,
    all younger than a second at the next check; the fourth call's first
    check hands control back and the fourth request goes out in that same
    instant, not delayed; and the next check, the code's own
    [_exceededRateLimit], then reports the limit exceeded. *)
Lemma C1_fourth_request_not_delayed :
  let count := run_call frozen_clock sample_server sample_json_loads
                 sample_fromstring sample_int_of_str sample_encoding_declared
                 sample_fromstring 1 (CallCount "cancer") in
  let w3 := world_of ((do _ <- count; do _ <- count; count) new_client) in
  _rateLimit (self w3) = 3%Z /\
  _requestsMade (self w3) = [0; 0; 0]%Z /\
  recent frozen_clock (tick w3) (_requestsMade (self w3)) = [0; 0; 0]%Z /\
  (exists w', poll frozen_clock 1 w3 = Return tt w') /\
  (exists w4, count w3 = Return tt w4 /\
              length (sent w4) = 4%nat /\
              _requestsMade (self w4) = [0; 0; 0; 0]%Z /\
              exists w5, _exceededRateLimit frozen_clock w4 = Return true w5).
Proof.
  intros count w3. do 3 (split; [vm_compute; reflexivity|]). split.
  - exists (world_of (poll frozen_clock 1 w3)). vm_compute. reflexivity.
  - exists (world_of (count w3)).
    split; [vm_compute; reflexivity|]. split; [vm_compute; reflexivity|].
    split; [vm_compute; reflexivity|].
    exists (world_of (_exceededRateLimit frozen_clock (world_of (count w3)))).
    vm_compute. reflexivity.
Qed.

(** The admission rule on a client with four timestamps of the instant 0. *)
Lemma rate_limiter_admission_witness :
  _rateLimit (self burst_client) = 3%Z /\
  (exists w1, poll steady_clock 1 burst_client = Spin w1) /\
  (exists fuel0 w', forall fuel, (fuel0 <= fuel)%nat ->
     poll steady_clock fuel burst_client = Return tt w').
Proof.
  destruct (rate_limiter_admission steady_clock burst_client eq_refl)
    as (H1 & _ & _ & _ & H5).
  split; [reflexivity|]. split.
  - destruct H1 as [H _]; [vm_compute; lia|]. eexists. exact H.
  - apply H5, steady_clock_advances.
Defined.

(** C2, as stated, fails: [query("cancer", 25000)] on a new client, every
    request answered well, returns having sent a fetch for the window
    [(20000, 25000)], so the requests do not stay within [0, 20000). *)
Lemma C2_window_beyond_20000 :
  let run := query steady_clock sample_server sample_json_loads sample_fromstring
               sample_encoding_declared sample_fromstring 1 "cancer" 25000
               new_client in
  (exists records, run = Return (inl records) (world_of run) /\
                   length records = 6%nat) /\
  map (fun r => (req_url r, req_params r !! "retstart", req_params r !! "retmax"))
      (sent (world_of run))
  = [("https://eutils.ncbi.nlm.nih.gov/entrez/eutils/esearch.fcgi",
      None, Some (PInt 25000));
     ("https://eutils.ncbi.nlm.nih.gov/entrez/eutils/efetch.fcgi",
      Some (PInt 0), Some (PInt 10000));
     ("https://eutils.ncbi.nlm.nih.gov/entrez/eutils/efetch.fcgi",
      Some (PInt 10000), Some (PInt 20000));
     ("https://eutils.ncbi.nlm.nih.gov/entrez/eutils/efetch.fcgi",
      Some (PInt 20000), Some (PInt 25000))] /\
  ~ (forall r start, r ∈ sent (world_of run) ->
       req_params r !! "retstart" = Some (PInt start) -> (start < 20000)%Z).
Proof.
  intros run.
  assert (Hsent : map (fun r => (req_url r, req_params r !! "retstart",
                                 req_params r !! "retmax")) (sent (world_of run))
                  = [("https://eutils.ncbi.nlm.nih.gov/entrez/eutils/esearch.fcgi",
                      None, Some (PInt 25000));
                     ("https://eutils.ncbi.nlm.nih.gov/entrez/eutils/efetch.fcgi",
                      Some (PInt 0), Some (PInt 10000));
                     ("https://eutils.ncbi.nlm.nih.gov/entrez/eutils/efetch.fcgi",
                      Some (PInt 10000), Some (PInt 20000));
                     ("https://eutils.ncbi.nlm.nih.gov/entrez/eutils/efetch.fcgi",
                      Some (PInt 20000), Some (PInt 25000))])
    by (vm_compute; reflexivity).
  split; [|split; [exact Hsent|]].
  - exists (match run with Return (inl records) _ => records | _ => [] end).
    split; vm_compute; reflexivity.
  - intros H.
    destruct (sent (world_of run)) as [|r0 [|r1 [|r2 [|r3 rest]]]] eqn:E;
      try discriminate Hsent.
    assert (Hstart : req_params r3 !! "retstart" = Some (PInt 20000)).
    { by injection Hsent. }
    specialize (H r3 20000%Z).
    assert (Hin : r3 ∈ r0 :: r1 :: r2 :: r3 :: rest) by (do 3 right; left).
    specialize (H Hin Hstart). lia.
Qed.

Lemma C2_windows_reach_max_results_witness :
  let run := query steady_clock sample_server sample_json_loads sample_fromstring
               sample_encoding_declared sample_fromstring 1 "cancer" 25000
               new_client in
  let d := template "my_tool" "my_email@example.com" None in
  (20000 < 25000)%Z /\
  (exists a, run = Return a (world_of run)) /\
  (exists (qk we : pyval) (ws : list (Z * Z)),
     sent (world_of run)
     = sent new_client ++ search_request d "cancer" 25000
         :: map (fun win => fetch_request d qk we win.1 win.2) ws /\
     exists win, last ws = Some win /\ win.2 = 25000%Z /\ (20000 <= win.1)%Z) /\
  exists fuel0 : nat, forall fuel : nat, (fuel0 <= fuel)%nat ->
    forall w', query steady_clock sample_server sample_json_loads sample_fromstring
                 sample_encoding_declared sample_fromstring fuel "cancer" 25000
                 new_client <> Spin w'.
Proof.
  intros run d.
  set (a := match run with Return a _ => a | _ => inl [] end).
  assert (H : run = Return a (world_of run)) by (vm_compute; reflexivity).
  split; [lia|]. split; [exists a; exact H|].
  destruct (C2_windows_reach_max_results steady_clock sample_server sample_json_loads
              sample_fromstring sample_encoding_declared sample_fromstring
              "cancer" 25000 new_client d
              (template_kept_init "my_tool" "my_email@example.com" None)
              ltac:(lia)) as [Hlog Hsettle].
  split; [|exact (Hsettle steady_clock_advances)].
  destruct (Hlog 1%nat a (world_of run) H) as (qk & we & ws & Hsent & _ & Hlast & _).
  exists qk, we, ws. split; [exact Hsent | exact Hlast].
Defined.

(** C3 at the second window of a large query: the fetch request carries the
    tokens, [retstart = 10000] and XML output, but [retmax = 20000], the end
    of the window and not its width 10,000. *)
Lemma C3_fetch_retmax_is_window_end :
  let qd : gmap string pyval :=
    <["WebEnv" := PStr "MCID_1"]> (<["query_key" := PStr "1"]> ∅) in
  let run := _getArticlesEnv_body steady_clock sample_server sample_json_loads
               sample_encoding_declared sample_fromstring 1 qd 10000 20000
               new_client in
  map (fun r => (req_params r !! "query_key", req_params r !! "WebEnv",
                 req_params r !! "retmode", req_params r !! "retstart",
                 req_params r !! "retmax"))
      (sent (world_of run))
  = [(Some (PStr "1"), Some (PStr "MCID_1"), Some (PStr "xml"),
      Some (PInt 10000), Some (PInt 20000))] /\
  PInt 20000 <> PInt (20000 - 10000).
Proof. split; [vm_compute; reflexivity | done]. Qed.

Lemma C4_windows_partition_witness :
  let run1 := query steady_clock sample_server sample_json_loads sample_fromstring
                sample_encoding_declared sample_fromstring 1 "cancer" 25000
                new_client in
  let run2 := iterate_articles steady_clock sample_server sample_json_loads
                sample_encoding_declared sample_fromstring 1 (world_of run1) in
  let d := template "my_tool" "my_email@example.com" None in
  (0 < 25000)%Z /\
  (exists a, run1 = Return a (world_of run1)) /\
  (exists records, run2 = Return records (world_of run2)) /\
  (exists (qk we : pyval) (ws : list (Z * Z)),
     sent (world_of run2)
     = sent new_client ++ search_request d "cancer" 25000
         :: map (fun win => fetch_request d qk we win.1 win.2) ws /\
     tiles 0 25000 ws) /\
  exists fuel0 : nat, forall fuel : nat, (fuel0 <= fuel)%nat ->
    forall w', query steady_clock sample_server sample_json_loads sample_fromstring
                 sample_encoding_declared sample_fromstring fuel "cancer" 25000
                 new_client <> Spin w'.
Proof.
  intros run1 run2 d.
  set (a := match run1 with Return a _ => a | _ => inl [] end).
  set (records := match run2 with Return records _ => records | _ => [] end).
  assert (H1 : run1 = Return a (world_of run1)) by (vm_compute; reflexivity).
  assert (H2 : run2 = Return records (world_of run2)) by (vm_compute; reflexivity).
  split; [lia|]. split; [exists a; exact H1|]. split; [exists records; exact H2|].
  destruct (C4_windows_partition steady_clock sample_server sample_json_loads
              sample_fromstring sample_encoding_declared sample_fromstring
              "cancer" 25000 new_client d
              (template_kept_init "my_tool" "my_email@example.com" None)
              ltac:(lia)) as [Hlog Hsettle].
  split.
  - destruct (Hlog 1%nat 1%nat a (world_of run1) records (world_of run2) H1 H2)
      as (qk & we & ws & Hsent & Ht & _).
    exists qk, we, ws. split; [exact Hsent | exact Ht].
  - destruct (Hsettle steady_clock_advances) as (fuel0 & Hs).
    exists fuel0. intros fuel Hf. exact (proj1 (Hs fuel Hf)).
Defined.


(** C7, as stated, fails: on a search response that parses but holds
    neither token, [_getPubMedData] fails with Python's [IndexError], the
    exception of indexing the empty list of matches; the module defines no
    protocol error of its own and raises no other exception there. *)
Lemma C7_absent_token_raises_IndexError :
  let run := _getPubMedData steady_clock tokenless_server sample_json_loads
               tokenless_fromstring 1 "" 5 new_client in
  (exists root, tokenless_fromstring error_text = Some root /\
                xpath_descendants "QueryKey" root = []) /\
  run = Raise IndexError (world_of run) /\
  forall e w', run = Raise e w' -> e = IndexError.
Proof.
  intros run.
  assert (H : run = Raise IndexError (world_of run)) by (vm_compute; reflexivity).
  split; [|split; [exact H|]].
  - eexists. split; [reflexivity|]. vm_compute. reflexivity.
  - intros e w' He. rewrite H in He. injection He as <- _. reflexivity.
Qed.

Lemma C7_session_establishment_witness :
  (0 <= _rateLimit (self new_client))%Z /\
  exists fuel0 : nat, forall fuel : nat, (fuel0 <= fuel)%nat ->
    let run := _getPubMedData steady_clock sample_server sample_json_loads
                 sample_fromstring fuel "cancer" 5 new_client in
    sent (world_of run)
    = sent new_client
      ++ [search_request (deref (parameters (self new_client)) new_client) "cancer" 5] /\
    exists qd w',
      run = Return qd w' /\
      qd !! "query_key" = Some (PStr "1") /\
      qd !! "WebEnv" = Some (PStr "MCID_1").
Proof.
  split; [vm_compute; discriminate|].
  destruct (C7_session_establishment steady_clock sample_server sample_json_loads
              sample_fromstring "cancer" 5 new_client steady_clock_advances
              ltac:(vm_compute; discriminate)) as (fuel0 & H).
  exists fuel0. intros fuel Hf run.
  destruct (H fuel Hf) as (Hsent & _ & Hread). split; [exact Hsent|].
  destruct (Hread (mkResponse 200 session_text)
              (Elem "eSearchResult" None
                 [Elem "Count" (Some "4182") [];
                  Elem "QueryKey" (Some "1") [];
                  Elem "WebEnv" (Some "MCID_1") []])
              ltac:(vm_compute; reflexivity) ltac:(vm_compute; reflexivity)
              ltac:(vm_compute; reflexivity)) as [Htokens _].
  destruct (Htokens (Elem "QueryKey" (Some "1") []) [] (Elem "WebEnv" (Some "MCID_1") []) []
              ltac:(vm_compute; reflexivity) ltac:(vm_compute; reflexivity))
    as (qd & w' & Hrun & Hqk & Hwe & _).
  by exists qd, w'.
Defined.

Lemma C8_getTotalResultsCount_witness :
  (0 <= _rateLimit (self new_client))%Z /\
  exists fuel0 : nat, forall fuel : nat, (fuel0 <= fuel)%nat ->
    exists w', getTotalResultsCount steady_clock sample_server sample_json_loads
                 sample_int_of_str fuel "cancer" new_client
               = Return 4182%Z w'.
Proof.
  split; [vm_compute; discriminate|].
  destruct (C8_getTotalResultsCount_one_search steady_clock sample_server
              sample_json_loads sample_int_of_str "cancer" new_client
              steady_clock_advances ltac:(vm_compute; discriminate)) as (fuel0 & H).
  exists fuel0. intros fuel Hf.
  destruct (H fuel Hf) as (_ & _ & Hcount).
  apply (Hcount (mkResponse 200 count_text)
           [("esearchresult",
             JObj [("count", JStr "4182"); ("retmax", JStr "1");
                   ("idlist", JArr [JStr "38912345"])])]
           [("count", JStr "4182"); ("retmax", JStr "1");
            ("idlist", JArr [JStr "38912345"])]
           (JStr "4182") 4182%Z); reflexivity.
Defined.

Lemma C10_failed_request_witness :
  let w := new_client in
  let p := parameters (self w) in
  let run := _get frozen_clock failing_server sample_json_loads 1
               "/entrez/eutils/esearch.fcgi" p "json" w in
  run = Raise (HTTPError 500) (world_of run) /\
  _requestsMade (self (world_of run)) = [].
Proof.
  intros w p run.
  assert (H : run = Raise (HTTPError 500) (world_of run)) by (vm_compute; reflexivity).
  split; [exact H|].
  destruct (C10_failed_request_not_recorded frozen_clock failing_server
              sample_json_loads 1 "/entrez/eutils/esearch.fcgi" p "json" w
              (world_of run) 500 H) as (l & k & _ & Hsub & Hreq & _).
  rewrite Hreq. by apply sublist_nil_r in Hsub.
Defined.

(** ** Further statements on the sample environments *)

Lemma requests_carry_template_witness :
  let r := count_request (template "my_tool" "my_email@example.com" None) "cancer" in
  r ∈ sent (world_of (run_calls steady_clock sample_server sample_json_loads
                        sample_fromstring sample_int_of_str
                        sample_encoding_declared sample_fromstring 1
                        [CallCount "cancer"] new_client)) /\
  req_params r !! "tool" = Some (PStr "my_tool").
Proof.
  intros r.
  assert (Hin : r ∈ sent (world_of (run_calls steady_clock sample_server
                                      sample_json_loads sample_fromstring
                                      sample_int_of_str sample_encoding_declared
                                      sample_fromstring 1
                                      [CallCount "cancer"] new_client))).
  { vm_compute. constructor. }
  split; [exact Hin|].
  destruct (requests_carry_template steady_clock sample_server sample_json_loads
              sample_fromstring sample_int_of_str sample_encoding_declared
              sample_fromstring
              "my_tool" "my_email@example.com" None 1 [CallCount "cancer"] r Hin)
    as (_ & _ & Ht & _).
  exact Ht.
Defined.

Lemma getTotalResultsCount_failures_witness :
  (0 <= _rateLimit (self new_client))%Z /\
  exists fuel0 : nat, forall fuel : nat, (fuel0 <= fuel)%nat ->
    exists w', getTotalResultsCount steady_clock failing_server sample_json_loads
                 sample_int_of_str fuel "cancer" new_client
               = Raise (HTTPError 500) w'.
Proof.
  split; [vm_compute; discriminate|].
  destruct (getTotalResultsCount_failures steady_clock failing_server
              sample_json_loads sample_int_of_str "cancer" new_client
              steady_clock_advances ltac:(vm_compute; discriminate)) as (fuel0 & H).
  exists fuel0. intros fuel Hf.
  destruct (H fuel Hf (mkResponse 500 "") eq_refl) as (Hfail & _).
  apply Hfail. reflexivity.
Defined.

Lemma _getPubMedData_failures_witness :
  (0 <= _rateLimit (self new_client))%Z /\
  exists fuel0 : nat, forall fuel : nat, (fuel0 <= fuel)%nat ->
    exists w', _getPubMedData steady_clock failing_server sample_json_loads
                 sample_fromstring fuel "cancer" 5 new_client
               = Raise (HTTPError 500) w'.
Proof.
  split; [vm_compute; discriminate|].
  destruct (_getPubMedData_failures steady_clock failing_server
              sample_json_loads sample_fromstring "cancer" 5 new_client
              steady_clock_advances ltac:(vm_compute; discriminate)) as (fuel0 & H).
  exists fuel0. intros fuel Hf.
  destruct (H fuel Hf (mkResponse 500 "") eq_refl) as (Hfail & _).
  apply Hfail. reflexivity.
Defined.

Lemma _getArticlesEnv_outcomes_witness :
  let qd : gmap string pyval :=
    <["WebEnv" := PStr "MCID_1"]> (<["query_key" := PStr "1"]> ∅) in
  let body := fun server fuel qd =>
    _getArticlesEnv_body steady_clock server sample_json_loads
      sample_encoding_declared sample_fromstring fuel qd 0 5 new_client in
  (0 <= _rateLimit (self new_client))%Z /\
  (forall fuel, exists w',
     body sample_server fuel ∅ = Raise (KeyError "query_key") w' /\
     sent w' = sent new_client /\ tick w' = tick new_client) /\
  (exists fuel0 : nat, forall fuel : nat, (fuel0 <= fuel)%nat ->
     exists w', body sample_server fuel qd
                = Return [PubMedArticle (Elem "PubmedArticle" None []);
                          PubMedBookArticle (Elem "PubmedBookArticle" None [])] w') /\
  (exists fuel0 : nat, forall fuel : nat, (fuel0 <= fuel)%nat ->
     exists w', body declaring_server fuel qd = Raise ValueError w').
Proof.
  intros qd body.
  assert (HR : (0 <= _rateLimit (self new_client))%Z) by (vm_compute; discriminate).
  split; [exact HR|]. split; [|split].
  - destruct (_getArticlesEnv_outcomes steady_clock sample_server sample_json_loads
                sample_encoding_declared sample_fromstring ∅ 0 5 new_client
                steady_clock_advances HR) as (H & _).
    apply H. reflexivity.
  - destruct (_getArticlesEnv_outcomes steady_clock sample_server sample_json_loads
                sample_encoding_declared sample_fromstring qd 0 5 new_client
                steady_clock_advances HR) as (_ & _ & H).
    destruct (H (PStr "1") (PStr "MCID_1")
                ltac:(vm_compute; reflexivity) ltac:(vm_compute; reflexivity))
      as (fuel0 & Hrun).
    exists fuel0. intros fuel Hf.
    destruct (Hrun fuel Hf (mkResponse 200 records_text)
                ltac:(vm_compute; reflexivity)) as (_ & _ & _ & Hok).
    destruct (Hok (Elem "PubmedArticleSet" None
                     [Elem "PubmedBookArticle" None [];
                      Elem "PubmedArticle" None []])
                ltac:(vm_compute; reflexivity) ltac:(vm_compute; reflexivity)
                ltac:(vm_compute; reflexivity)) as (w' & Hret & _).
    exists w'. exact Hret.
  - destruct (_getArticlesEnv_outcomes steady_clock declaring_server sample_json_loads
                sample_encoding_declared sample_fromstring qd 0 5 new_client
                steady_clock_advances HR) as (_ & _ & H).
    destruct (H (PStr "1") (PStr "MCID_1")
                ltac:(vm_compute; reflexivity) ltac:(vm_compute; reflexivity))
      as (fuel0 & Hrun).
    exists fuel0. intros fuel Hf.
    destruct (Hrun fuel Hf (mkResponse 200 declared_text)
                ltac:(vm_compute; reflexivity)) as (_ & Hdecl & _).
    apply Hdecl; vm_compute; reflexivity.
Defined.

Lemma _get_writes_retmode_in_place_witness :
  let w := new_client in
  let p := parameters (self w) in
  let run := _get frozen_clock failing_server sample_json_loads 1
               "/entrez/eutils/efetch.fcgi" p "xml" w in
  (forall w', run <> Spin w') /\
  deref p (world_of run) !! "retmode" = Some (PStr "xml").
Proof.
  intros w p run.
  assert (Hrun : forall w', run <> Spin w').
  { intros w'. vm_compute. discriminate. }
  split; [exact Hrun|].
  destruct (_get_writes_retmode_in_place frozen_clock failing_server
              sample_json_loads 1 "/entrez/eutils/efetch.fcgi" p "xml" w Hrun)
    as [Hd _].
  etrans; [exact (f_equal (fun m : gmap string pyval => m !! "retmode") Hd)|].
  apply lookup_insert_eq.
Defined.

Lemma timestamp_recorded_iff_status_passes_witness :
  let w := new_client in
  let p := parameters (self w) in
  poll steady_clock 1 w = Return tt (after_check [] 0 w) /\
  _requestsMade (self (world_of (_get steady_clock sample_server sample_json_loads 1
                                   "/entrez/eutils/esearch.fcgi" p "json" w)))
  = [0%Z].
Proof.
  intros w p.
  assert (Hpoll : poll steady_clock 1 w = Return tt (after_check [] 0 w))
    by (vm_compute; reflexivity).
  split; [exact Hpoll|].
  rewrite (timestamp_recorded_iff_status_passes steady_clock sample_server
             sample_json_loads 1 "/entrez/eutils/esearch.fcgi" p "json" w [] 0%nat
             Hpoll).
  vm_compute. reflexivity.
Defined.

Lemma iterate_articles_twice_witness :
  let g := _getArticlesEnv (<["WebEnv" := PStr "MCID_1"]> (<["query_key" := PStr "1"]> ∅))
             0 5 in
  let w := set_articles (inr g) new_client in
  let once := iterate_articles steady_clock sample_server sample_json_loads
                sample_encoding_declared sample_fromstring 1 w in
  articles (self w) = Some (inr g) /\
  (forall w', once <> Spin w') /\
  iterate_articles steady_clock sample_server sample_json_loads
    sample_encoding_declared sample_fromstring 1 (world_of once)
  = Return [] (world_of once).
Proof.
  intros g w once.
  assert (Hspin : forall w', once <> Spin w').
  { intros w'. vm_compute. discriminate. }
  split; [reflexivity|]. split; [exact Hspin|].
  apply (iterate_articles_twice steady_clock sample_server sample_json_loads
           sample_encoding_declared sample_fromstring 1 1 w g eq_refl Hspin).
Defined.

Lemma query_raise_keeps_articles_witness :
  let run := query steady_clock failing_server sample_json_loads sample_fromstring
               sample_encoding_declared sample_fromstring 1 "cancer" 5 new_client in
  run = Raise (HTTPError 500) (world_of run) /\
  articles (self (world_of run)) = None.
Proof.
  intros run.
  assert (H : run = Raise (HTTPError 500) (world_of run)) by (vm_compute; reflexivity).
  split; [exact H|].
  apply (query_raise_keeps_articles steady_clock failing_server sample_json_loads
           sample_fromstring sample_encoding_declared sample_fromstring
           1 "cancer" 5 new_client (world_of run) (HTTPError 500) H).
Defined.

Lemma query_small_end_to_end_witness :
  let run := fun server fuel =>
    (do _ <- query steady_clock server sample_json_loads sample_fromstring
               sample_encoding_declared sample_fromstring fuel "cancer" 5;
     iterate_articles steady_clock server sample_json_loads
       sample_encoding_declared sample_fromstring fuel) new_client in
  (5 <= 10000)%Z /\
  (exists fuel0 : nat, forall fuel : nat, (fuel0 <= fuel)%nat ->
     exists w2, run sample_server fuel
                = Return [PubMedArticle (Elem "PubmedArticle" None []);
                          PubMedBookArticle (Elem "PubmedBookArticle" None [])] w2) /\
  (exists fuel0 : nat, forall fuel : nat, (fuel0 <= fuel)%nat ->
     exists w2, run declaring_server fuel = Raise ValueError w2).
Proof.
  intros run. split; [lia|]. split.
  - destruct (query_small_end_to_end steady_clock sample_server sample_json_loads
                sample_fromstring sample_encoding_declared sample_fromstring
                "cancer" 5 new_client
                (template "my_tool" "my_email@example.com" None)
                (mkResponse 200 session_text)
                (Elem "eSearchResult" None
                   [Elem "Count" (Some "4182") [];
                    Elem "QueryKey" (Some "1") [];
                    Elem "WebEnv" (Some "MCID_1") []])
                (Elem "QueryKey" (Some "1") []) (Elem "WebEnv" (Some "MCID_1") []) [] []
                steady_clock_advances
                (template_kept_init "my_tool" "my_email@example.com" None)
                ltac:(lia)
                ltac:(vm_compute; reflexivity) ltac:(vm_compute; reflexivity)
                ltac:(vm_compute; reflexivity) ltac:(vm_compute; reflexivity)
                ltac:(vm_compute; reflexivity)) as (fuel0 & H).
    exists fuel0. intros fuel Hf.
    destruct (H fuel Hf) as (g & w1 & Hq & _ & _ & _ & Hgood & _).
    destruct (Hgood (mkResponse 200 records_text)
                (Elem "PubmedArticleSet" None
                   [Elem "PubmedBookArticle" None [];
                    Elem "PubmedArticle" None []])
                ltac:(vm_compute; reflexivity) ltac:(vm_compute; reflexivity)
                ltac:(vm_compute; reflexivity) ltac:(vm_compute; reflexivity))
      as (w2 & Hit).
    exists w2. unfold run, bind. rewrite Hq. exact Hit.
  - destruct (query_small_end_to_end steady_clock declaring_server sample_json_loads
                sample_fromstring sample_encoding_declared sample_fromstring
                "cancer" 5 new_client
                (template "my_tool" "my_email@example.com" None)
                (mkResponse 200 session_text)
                (Elem "eSearchResult" None
                   [Elem "Count" (Some "4182") [];
                    Elem "QueryKey" (Some "1") [];
                    Elem "WebEnv" (Some "MCID_1") []])
                (Elem "QueryKey" (Some "1") []) (Elem "WebEnv" (Some "MCID_1") []) [] []
                steady_clock_advances
                (template_kept_init "my_tool" "my_email@example.com" None)
                ltac:(lia)
                ltac:(vm_compute; reflexivity) ltac:(vm_compute; reflexivity)
                ltac:(vm_compute; reflexivity) ltac:(vm_compute; reflexivity)
                ltac:(vm_compute; reflexivity)) as (fuel0 & H).
    exists fuel0. intros fuel Hf.
    destruct (H fuel Hf) as (g & w1 & Hq & _ & _ & _ & _ & Hdecl).
    destruct (Hdecl (mkResponse 200 declared_text)
                ltac:(vm_compute; reflexivity) ltac:(vm_compute; reflexivity)
                ltac:(vm_compute; reflexivity)) as (w2 & Hit).
    exists w2. unfold run, bind. rewrite Hq. exact Hit.
Defined.

Lemma query_large_end_to_end_witness :
  (10000 < 15000)%Z /\
  exists fuel0 : nat, forall fuel : nat, (fuel0 <= fuel)%nat ->
    exists w',
      query steady_clock sample_server sample_json_loads sample_fromstring
        sample_encoding_declared sample_fromstring fuel "cancer" 15000 new_client
      = Return (inl [PubMedArticle (Elem "PubmedArticle" None []);
                     PubMedBookArticle (Elem "PubmedBookArticle" None []);
                     PubMedArticle (Elem "PubmedArticle" None []);
                     PubMedBookArticle (Elem "PubmedBookArticle" None [])]) w' /\
      map (fun r => (req_params r !! "retstart", req_params r !! "retmax")) (sent w')
      = [(None, Some (PInt 15000));
         (Some (PInt 0), Some (PInt 10000));
         (Some (PInt 10000), Some (PInt 15000))].
Proof.
  split; [lia|].
  destruct (query_large_end_to_end steady_clock sample_server sample_json_loads
              sample_fromstring sample_encoding_declared sample_fromstring
              "cancer" 15000 new_client
              (template "my_tool" "my_email@example.com" None)
              (mkResponse 200 session_text)
              (Elem "eSearchResult" None
                 [Elem "Count" (Some "4182") [];
                  Elem "QueryKey" (Some "1") [];
                  Elem "WebEnv" (Some "MCID_1") []])
              (Elem "QueryKey" (Some "1") []) (Elem "WebEnv" (Some "MCID_1") []) [] []
              [PubMedArticle (Elem "PubmedArticle" None []);
               PubMedBookArticle (Elem "PubmedBookArticle" None []);
               PubMedArticle (Elem "PubmedArticle" None []);
               PubMedBookArticle (Elem "PubmedBookArticle" None [])]
              steady_clock_advances
              (template_kept_init "my_tool" "my_email@example.com" None)
              ltac:(lia)
              ltac:(vm_compute; reflexivity) ltac:(vm_compute; reflexivity)
              ltac:(vm_compute; reflexivity) ltac:(vm_compute; reflexivity)
              ltac:(vm_compute; reflexivity) ltac:(vm_compute; reflexivity))
    as (fuel0 & H).
  exists fuel0. intros fuel Hf.
  destruct (H fuel Hf) as (w' & Hq & _ & Hsent). exists w'.
  split; [exact Hq|]. rewrite Hsent. vm_compute. reflexivity.
Defined.

Lemma fine_clock_monotone : clock_monotone fine_clock.
Proof. intros i j Hij. unfold fine_clock. lia. Qed.

(** Seven calls on a clock read every hundredth of a second: four requests
    go out at once, the fifth only when the first is a second old. *)
Lemma recorded_timestamps_spaced_witness :
  let call := ("/entrez/eutils/esearch.fcgi", parameters (self new_client), "xml") in
  let calls := [call; call; call; call; call; call; call] in
  let h := recorded fine_clock sample_server sample_json_loads 40 calls new_client in
  _rateLimit (self new_client) = 3%Z /\
  _requestsMade (self new_client) = [] /\
  h = [0; 20000; 50000; 90000; 1060000; 1100000; 1140000]%Z /\
  spaced h /\
  (forall a b : Z, h !! 0%nat = Some a -> h !! 4%nat = Some b -> (a + second <= b)%Z).
Proof.
  intros call calls h. split; [reflexivity|]. split; [reflexivity|].
  split; [vm_compute; reflexivity|].
  assert (Hs : spaced h).
  { apply (recorded_timestamps_spaced fine_clock sample_server sample_json_loads
             40 calls new_client fine_clock_monotone); reflexivity. }
  split; [exact Hs|]. intros a b Ha Hb. exact (Hs 0%nat a b Ha Hb).
Defined.

Lemma _getArticleIds_first_request_witness :
  (0 <= _rateLimit (self new_client))%Z /\
  exists fuel0 : nat, forall fuel : nat, (fuel0 <= fuel)%nat ->
    exists later,
      sent (world_of (_getArticleIds steady_clock sample_server sample_json_loads
                        sample_int_of_str fuel "cancer" (-1) new_client))
      = sent new_client
        ++ mkRequest (BASE_URL +:+ "/entrez/eutils/esearch.fcgi")
             (<["retmode" := PStr "json"]>
                (<["retmax" := PInt (Z.min (-1) 50000)]>
                   (<["term" := PStr "cancer"]>
                      (deref (parameters (self new_client)) new_client))))
        :: later.
Proof.
  split; [vm_compute; discriminate|].
  apply (_getArticleIds_first_request steady_clock sample_server sample_json_loads
           sample_int_of_str "cancer" (-1) new_client steady_clock_advances).
  vm_compute. discriminate.
Defined.

Lemma _getArticleIds_single_page_witness :
  (0 <= _rateLimit (self new_client))%Z /\
  exists fuel0 : nat, forall fuel : nat, (fuel0 <= fuel)%nat ->
    exists w',
      _getArticleIds steady_clock sample_server sample_json_loads
        sample_int_of_str fuel "cancer" 1 new_client
      = Return [JStr "38912345"] w'.
Proof.
  split; [vm_compute; discriminate|].
  destruct (_getArticleIds_single_page steady_clock sample_server sample_json_loads
              sample_int_of_str "cancer" 1 new_client (mkResponse 200 count_text)
              [("esearchresult",
                JObj [("count", JStr "4182"); ("retmax", JStr "1");
                      ("idlist", JArr [JStr "38912345"])])]
              [("count", JStr "4182"); ("retmax", JStr "1");
               ("idlist", JArr [JStr "38912345"])]
              [JStr "38912345"] (JStr "4182") (JStr "1") 4182 1
              steady_clock_advances
              ltac:(vm_compute; discriminate)
              ltac:(vm_compute; reflexivity) ltac:(vm_compute; reflexivity)
              ltac:(vm_compute; reflexivity) ltac:(vm_compute; reflexivity)
              ltac:(vm_compute; reflexivity) ltac:(vm_compute; reflexivity)
              ltac:(reflexivity) ltac:(vm_compute; reflexivity)
              ltac:(reflexivity) ltac:(right; simpl; lia)) as (fuel0 & H).
  exists fuel0. intros fuel Hf. destruct (H fuel Hf) as (w' & Hrun & _).
  by exists w'.
Defined.

Lemma _getArticleIds_no_progress_witness :
  (0 < 7)%Z /\
  forall fuel : nat, exists w',
    _getArticleIds steady_clock stalled_server stalled_json_loads
      sample_int_of_str fuel "cancer" 100 new_client
    = Spin w'.
Proof.
  split; [lia|].
  apply (_getArticleIds_no_progress steady_clock stalled_server stalled_json_loads
           sample_int_of_str "cancer" 100 new_client (mkResponse 200 "stalled")
           [("esearchresult",
             JObj [("count", JStr "7"); ("retmax", JStr "0"); ("idlist", JArr [])])]
           [("count", JStr "7"); ("retmax", JStr "0"); ("idlist", JArr [])]
           [] (JStr "7") (JStr "0") 7);
    try reflexivity; lia.
Defined.

Lemma calls_settle_witness :
  clock_advances steady_clock /\
  (0 <= _rateLimit (self burst_client))%Z /\
  settles
    (fun fuel =>
       run_calls steady_clock sample_server sample_json_loads sample_fromstring
         sample_int_of_str sample_encoding_declared sample_fromstring fuel
         [CallQuery "cancer" 5; CallIterate; CallCount "cancer"; CallQuery "cancer" 20001])
    burst_client.
Proof.
  assert (HR : (0 <= _rateLimit (self burst_client))%Z) by (simpl; lia).
  split; [exact steady_clock_advances|]. split; [exact HR|].
  exact (calls_settle steady_clock sample_server sample_json_loads sample_fromstring
           sample_int_of_str sample_encoding_declared sample_fromstring
           [CallQuery "cancer" 5; CallIterate; CallCount "cancer"; CallQuery "cancer" 20001]
           burst_client steady_clock_advances HR).
Defined.
